(** * Supply-chain analytics engine: a shallow embedding of [src/src/analytics.py]

    The Python code works on pandas data frames whose numeric columns are
    int64 or float64.  The embedding keeps the structure of the code
    (filter, merge, group-by, column arithmetic, row-wise classification)
    and models

    - a data frame as a [list] of records, one per row, in row order;
    - an integer column as [Z] (identifiers, day numbers) or [N] (unit
      counts and day counts, which the data model never makes negative);
      integers are unbounded: the wrap-around of int64, which needs
      quantities beyond [2^63], is not modelled;
    - a float64 column as a [cell]: an exact rational, or one of the IEEE
      specials [+inf], [-inf], [NaN].  Arithmetic on finite cells is exact:
      the rounding error of float64 operations is not modelled, the
      special values and the comparisons with them are;
    - [np.sqrt] followed by a rounding by the exact nearest integer of the
      real square root, computed with integer square roots ([rint_surd],
      related to the real numbers by [rint_surd_nearest]);
    - a date as a day number in [Z], a missing date ([NaT]) as [None].
*)

From Stdlib Require Import ZArith NArith QArith Qround Qabs List String Bool
  Permutation Sorted Reals Qreals Psatz.
Import ListNotations.

Open Scope Q_scope.

(** ** Numbers *)

Module Num.

(** [np.rint], used by [Series.round]: nearest integer, ties to even. *)
Definition rint (x : Q) : Z :=
  let f := Qfloor x in
  match Qcompare (x - inject_Z f) (1 # 2) with
  | Lt => f
  | Gt => (f + 1)%Z
  | Eq => if Z.even f then f else (f + 1)%Z
  end.

Definition pow10 (d : nat) : Q := inject_Z (10 ^ Z.of_nat d).

(** [np.round(x, d)] for [d >= 0]: scale by [10^d], [rint], scale back. *)
Definition round_dp (d : nat) (x : Q) : Q :=
  inject_Z (rint (x * pow10 d)) / pow10 d.

(** A real number [s_rat + s_coef * sqrt s_rad] with rational parts and
    [0 <= s_rad]: the shape of every value the code takes a square root
    for before rounding it. *)
Record surd : Type := mkSurd { s_rat : Q; s_coef : Q; s_rad : Q }.

(** [surd_geb s c] decides [c <= s_rat + s_coef * sqrt s_rad]. *)
Definition surd_geb (s : surd) (c : Q) : bool :=
  let t := c - s_rat s in
  let w := s_coef s * s_coef s * s_rad s in
  if Qle_bool 0 (s_coef s)
  then Qle_bool t 0 || Qle_bool (t * t) w
  else Qle_bool t 0 && Qle_bool w (t * t).

(** [surd_leb s c] decides [s_rat + s_coef * sqrt s_rad <= c]. *)
Definition surd_leb (s : surd) (c : Q) : bool :=
  surd_geb (mkSurd (- s_rat s) (- s_coef s) (s_rad s)) (- c).

(** Largest integer below the surd.  With [r = floor (|s_coef| sqrt s_rad)]
    the value lies within one unit of [floor s_rat + r] (or [- r]), so two
    candidates are enough. *)
Definition floor_surd (s : surd) : Z :=
  let w := s_coef s * s_coef s * s_rad s in
  let r := Z.sqrt (Qfloor w) in
  let fa := Qfloor (s_rat s) in
  let hi := if Qle_bool 0 (s_coef s) then (fa + r + 1)%Z else (fa - r)%Z in
  if surd_geb s (inject_Z hi) then hi else (hi - 1)%Z.

(** [np.rint] of a surd: nearest integer, ties to even. *)
Definition rint_surd (s : surd) : Z :=
  let f := floor_surd s in
  let half := inject_Z f + (1 # 2) in
  if surd_geb s half
  then if surd_leb s half
       then (if Z.even f then f else (f + 1)%Z)
       else (f + 1)%Z
  else f.

(** The real number a surd stands for. *)
Definition surd_value (s : surd) : R :=
  (Q2R (s_rat s) + Q2R (s_coef s) * sqrt (Q2R (s_rad s)))%R.

(** [np.sqrt(x).round(0)] for [0 <= x]. *)
Definition round_sqrt (x : Q) : Z := rint_surd (mkSurd 0 1 x).

(** A float64 cell. *)
Inductive cell : Type :=
| Fin (q : Q)
| PInf
| NInf
| NaN.

Definition of_N (n : N) : Q := inject_Z (Z.of_N n).

(** IEEE comparisons: every comparison with [NaN] is false. *)
Definition cell_gtb (a b : cell) : bool :=
  match a, b with
  | NaN, _ | _, NaN => false
  | PInf, PInf => false
  | PInf, _ => true
  | _, PInf => false
  | NInf, _ => false
  | Fin _, NInf => true
  | Fin x, Fin y => negb (Qle_bool x y)
  end.

Definition cell_geb (a b : cell) : bool :=
  match a, b with
  | NaN, _ | _, NaN => false
  | PInf, _ => true
  | _, NInf => true
  | _, PInf => false
  | NInf, _ => false
  | Fin x, Fin y => Qle_bool y x
  end.

Definition cell_leb (a b : cell) : bool := cell_geb b a.

Definition is_zero (q : Q) : bool := Qeq_bool q 0.

(** Float multiplication ([inf * 0] is [NaN]). *)
Definition cell_mul (a b : cell) : cell :=
  match a, b with
  | NaN, _ | _, NaN => NaN
  | Fin x, Fin y => Fin (x * y)
  | Fin x, PInf | PInf, Fin x =>
      if is_zero x then NaN else if Qle_bool 0 x then PInf else NInf
  | Fin x, NInf | NInf, Fin x =>
      if is_zero x then NaN else if Qle_bool 0 x then NInf else PInf
  | PInf, PInf | NInf, NInf => PInf
  | PInf, NInf | NInf, PInf => NInf
  end.

(** Float addition ([inf - inf] is [NaN]). *)
Definition cell_add (a b : cell) : cell :=
  match a, b with
  | NaN, _ | _, NaN => NaN
  | Fin x, Fin y => Fin (x + y)
  | PInf, NInf | NInf, PInf => NaN
  | PInf, _ | _, PInf => PInf
  | NInf, _ | _, NInf => NInf
  end.

(** Float division as numpy performs it (no exception): [x / 0] is an
    infinity of the sign of [x], [0 / 0] is [NaN].  The zero divisors
    that occur are products of non-negative numbers, so the sign of a
    zero is not tracked. *)
Definition cell_div (a b : cell) : cell :=
  match a, b with
  | NaN, _ | _, NaN => NaN
  | Fin x, Fin y =>
      if is_zero y
      then (if is_zero x then NaN else if Qle_bool 0 x then PInf else NInf)
      else Fin (x / y)
  | Fin _, (PInf | NInf) => Fin 0
  | PInf, Fin y => if Qle_bool 0 y then PInf else NInf
  | NInf, Fin y => if Qle_bool 0 y then NInf else PInf
  | (PInf | NInf), (PInf | NInf) => NaN
  end.

(** [Series.round(d)] leaves the special values alone. *)
Definition cell_round (d : nat) (a : cell) : cell :=
  match a with
  | Fin x => Fin (round_dp d x)
  | c => c
  end.

(** [Series.fillna(v)]. *)
Definition fillna (v : Q) (a : cell) : cell :=
  match a with
  | NaN => Fin v
  | c => c
  end.

(** [np.where(cond, a, b)] on one row: both [a] and [b] have been
    computed, [cond] selects. *)
Definition np_where {A : Type} (cond : bool) (a b : A) : A :=
  if cond then a else b.

(** [Series.astype(int)] raises on a non-finite value. *)
Inductive outcome (A : Type) : Type :=
| Ok (a : A)
| IntCastingNaNError.
Arguments Ok {A} a.
Arguments IntCastingNaNError {A}.

Definition bind {A B : Type} (m : outcome A) (k : A -> outcome B) : outcome B :=
  match m with
  | Ok a => k a
  | IntCastingNaNError => IntCastingNaNError
  end.

Fixpoint traverse {A B : Type} (f : A -> outcome B) (l : list A) : outcome (list B) :=
  match l with
  | [] => Ok []
  | a :: l' => bind (f a) (fun b => bind (traverse f l') (fun bs => Ok (b :: bs)))
  end.

(** [np.sqrt(c).round(0).astype(int)] on one cell: the square root of a
    negative number is [NaN], and [NaN] and the infinities do not cast. *)
Definition sqrt_round_int (c : cell) : outcome Z :=
  match c with
  | Fin x => if Qle_bool 0 x then Ok (round_sqrt x) else IntCastingNaNError
  | _ => IntCastingNaNError
  end.

(** [np.sqrt(c).round(d)], the column stays float. *)
Definition sqrt_round_dp (d : nat) (c : cell) : cell :=
  match c with
  | Fin x =>
      if Qle_bool 0 x
      then Fin (inject_Z (round_sqrt (x * pow10 d * pow10 d)) / pow10 d)
      else NaN
  | PInf => PInf
  | _ => NaN
  end.

Definition sumQ (l : list Q) : Q := fold_left Qplus l 0.
Definition sumN (l : list N) : N := fold_left N.add l 0%N.

(** [Series.mean()]: [NaN] on an empty series. *)
Definition mean (l : list Q) : cell :=
  match l with
  | [] => NaN
  | _ => Fin (sumQ l / inject_Z (Z.of_nat (List.length l)))
  end.

(** Sample variance ([ddof = 1]), whose square root is [Series.std()]:
    [NaN] with fewer than two observations. *)
Definition var (l : list Q) : cell :=
  match l with
  | [] | [_] => NaN
  | _ =>
      let m := sumQ l / inject_Z (Z.of_nat (List.length l)) in
      Fin (sumQ (map (fun x => (x - m) * (x - m)) l)
           / inject_Z (Z.of_nat (List.length l) - 1))
  end.

End Num.

(** ** Data frames *)

Module Frame.

(** [left.merge(right, on=...)], an inner join: for every left row, in
    order, the right rows with the same key, in order. *)
Definition merge {A B : Type} (on : A -> B -> bool) (left : list A) (right : list B)
  : list (A * B) :=
  flat_map (fun a => map (pair a) (filter (on a) right)) left.

(** [left.merge(right, on=..., how='left')]: a left row without a match
    is kept, with missing values ([None]) for the right columns. *)
Definition merge_left {A B : Type} (on : A -> B -> bool) (left : list A) (right : list B)
  : list (A * option B) :=
  flat_map (fun a =>
              match filter (on a) right with
              | [] => [(a, None)]
              | bs => map (fun b => (a, Some b)) bs
              end) left.

Section GroupBy.
Context {K R : Type}.
Variable cmp : K -> K -> comparison.

Fixpoint insert_group (k : K) (r : R) (gs : list (K * list R)) : list (K * list R) :=
  match gs with
  | [] => [(k, [r])]
  | (k', rs) :: gs' =>
      match cmp k k' with
      | Lt => (k, [r]) :: gs
      | Eq => (k', rs ++ [r]) :: gs'
      | Gt => (k', rs) :: insert_group k r gs'
      end
  end.

(** [df.groupby(key)]: one group per key, keys ascending, the rows of
    a group in frame order. *)
Definition groupby (key : R -> K) (rows : list R) : list (K * list R) :=
  fold_left (fun gs r => insert_group (key r) r gs) rows [].
End GroupBy.

Definition cmp_pair {A B : Type} (ca : A -> A -> comparison) (cb : B -> B -> comparison)
  (x y : A * B) : comparison :=
  match ca (fst x) (fst y) with
  | Eq => cb (snd x) (snd y)
  | c => c
  end.

Section SortValues.
Context {R : Type}.
Variable by_col : R -> Q.

Fixpoint insert_desc (r : R) (sorted : list R) : list R :=
  match sorted with
  | [] => [r]
  | r' :: rest =>
      if Qle_bool (by_col r') (by_col r)
      then r :: sorted
      else r' :: insert_desc r rest
  end.

(** [df.sort_values(col, ascending=False)].  Rows with equal values
    keep their frame order here; pandas leaves the order of ties to the
    sorting algorithm. *)
Definition sort_values_desc (rows : list R) : list R :=
  fold_right insert_desc [] rows.
End SortValues.

(** [Series.cumsum()]. *)
Fixpoint cumsum (acc : Q) (l : list Q) : list Q :=
  match l with
  | [] => []
  | x :: l' => (acc + x) :: cumsum (acc + x) l'
  end.

(** [Series.max()] of a date column: [NaT] on an empty column. *)
Definition max_date (l : list Z) : option Z :=
  match l with
  | [] => None
  | d :: l' => Some (fold_left Z.max l' d)
  end.

(** Python truthiness of an [Optional[int]] argument, as in
    [if warehouse_id:] - [None] and [0] are both false. *)
Definition truthy (o : option Z) : bool :=
  match o with
  | Some v => negb (v =? 0)%Z
  | None => false
  end.

(** [df[df[col] == v]] for an [Optional[int]] [v]. *)
Definition eq_filter (o : option Z) (x : Z) : bool :=
  match o with
  | Some v => (x =? v)%Z
  | None => false
  end.

End Frame.

(** ** The tables of a snapshot (schema of section 6 of the specification) *)

Module Product.
Record t : Type := mk {
  product_id : Z; sku : string; product_name : string; category_id : Z;
  unit_cost : Q; unit_price : Q; lead_time_days : N }.
End Product.

Module Warehouse.
Record t : Type := mk {
  warehouse_id : Z; warehouse_code : string; warehouse_name : string }.
End Warehouse.

Module Category.
Record t : Type := mk { category_id : Z; category_name : string }.
End Category.

Module Inventory.
Record t : Type := mk {
  warehouse_id : Z; product_id : Z; quantity_on_hand : N;
  quantity_reserved : N; reorder_point : N; reorder_quantity : N }.
End Inventory.

Module SalesOrder.
Record t : Type := mk {
  so_id : Z; warehouse_id : Z; order_date : Z; status : string }.
End SalesOrder.

Module SalesOrderItem.
Record t : Type := mk {
  so_id : Z; product_id : Z; quantity_ordered : N; unit_price : Q }.
End SalesOrderItem.

Module PurchaseOrder.
Record t : Type := mk {
  po_id : Z; supplier_id : Z; warehouse_id : Z; order_date : Z;
  expected_delivery_date : Z; actual_delivery_date : option Z;
  status : string }.
End PurchaseOrder.

(** What [_load_data] reads ([product_categories] is read by
    [calculate_carrying_costs] itself). *)
Record Snapshot : Type := mkSnapshot {
  products : list Product.t;
  inventory : list Inventory.t;
  sales_orders : list SalesOrder.t;
  sales_order_items : list SalesOrderItem.t;
  purchase_orders : list PurchaseOrder.t;
  warehouses : list Warehouse.t;
  product_categories : list Category.t }.

Import Num Frame.

(** ** Pieces shared by the analyses *)

Definition not_cancelled (o : SalesOrder.t) : bool :=
  negb (String.eqb (SalesOrder.status o) "Cancelled").

Definition on_so_id (o : SalesOrder.t) (i : SalesOrderItem.t) : bool :=
  (SalesOrder.so_id o =? SalesOrderItem.so_id i)%Z.

(** [self.sales_orders['order_date'].max() - timedelta(days=lookback_days)],
    over every order of the table. *)
Definition cutoff_date (orders : list SalesOrder.t) (lookback_days : Z) : option Z :=
  option_map (fun m => (m - lookback_days)%Z)
             (max_date (map SalesOrder.order_date orders)).

(** [order_date >= cutoff_date]: false for every row when the cutoff is
    [NaT]. *)
Definition since (cutoff : option Z) (o : SalesOrder.t) : bool :=
  match cutoff with
  | Some c => (c <=? SalesOrder.order_date o)%Z
  | None => false
  end.

(** [self.sales_orders.merge(self.sales_order_items, on='so_id')] followed
    by the filter on [status]. *)
Definition sales_with_items (s : Snapshot) : list (SalesOrder.t * SalesOrderItem.t) :=
  filter (fun r => not_cancelled (fst r))
         (merge on_so_id (sales_orders s) (sales_order_items s)).

(** The orders of the trailing window that are not cancelled, merged with
    their items. *)
Definition recent_sales (s : Snapshot) (lookback_days : Z)
  : list (SalesOrder.t * SalesOrderItem.t) :=
  let cutoff := cutoff_date (sales_orders s) lookback_days in
  merge on_so_id
        (filter (fun o => since cutoff o && not_cancelled o) (sales_orders s))
        (sales_order_items s).

Definition item_qty (r : SalesOrder.t * SalesOrderItem.t) : N :=
  SalesOrderItem.quantity_ordered (snd r).

(** ** [class InventoryAnalytics] *)

Module InventoryAnalytics.

(** *** [calculate_abc_classification] *)

Record revenue : Type := mkRevenue {
  r_product_id : Z;
  r_quantity_ordered : N;      (* sum *)
  r_unit_price : Q;            (* mean *)
  r_total_revenue : Q }.

Record classified : Type := mkClassified {
  c_revenue : revenue;
  c_cumulative_revenue : Q;
  c_cumulative_pct : cell;
  c_abc_class : string }.

Record abc_row : Type := mkAbcRow {
  abc_product_id : Z; abc_sku : string; abc_product_name : string;
  abc_quantity_ordered : N; abc_total_revenue : Q;
  abc_cumulative_pct : cell; abc_class : string }.

Definition assign_class (a_threshold b_threshold : Q) (pct : cell) : string :=
  if cell_leb pct (Fin a_threshold) then "A"
  else if cell_leb pct (Fin b_threshold) then "B"
  else "C".

(** [groupby('product_id').agg({'quantity_ordered': 'sum', 'unit_price':
    'mean'})] and the [total_revenue] column. *)
Definition product_revenue (sales : list (SalesOrder.t * SalesOrderItem.t))
  : list revenue :=
  map (fun g =>
         let qty := sumN (map item_qty (snd g)) in
         let price := sumQ (map (fun r => SalesOrderItem.unit_price (snd r)) (snd g))
                      / inject_Z (Z.of_nat (List.length (snd g))) in
         mkRevenue (fst g) qty price (of_N qty * price))
      (groupby Z.compare (fun r => SalesOrderItem.product_id (snd r)) sales).

(** The sorted frame with its cumulative columns and classes, before the
    product details are merged in. *)
Definition classify_revenue (a_threshold b_threshold : Q) (revs : list revenue)
  : list classified :=
  let sorted := sort_values_desc r_total_revenue revs in
  let total_revenue := sumQ (map r_total_revenue sorted) in
  map (fun rc =>
         let pct := cell_mul (cell_div (Fin (snd rc)) (Fin total_revenue)) (Fin 100) in
         mkClassified (fst rc) (snd rc) pct (assign_class a_threshold b_threshold pct))
      (combine sorted (cumsum 0 (map r_total_revenue sorted))).

Definition calculate_abc_classification
  (s : Snapshot) (lookback_days : Z) (a_threshold b_threshold : Q) : list abc_row :=
  let product_revenue :=
    classify_revenue a_threshold b_threshold
                     (product_revenue (recent_sales s lookback_days)) in
  map (fun cp =>
         let c := fst cp in
         let p := snd cp in
         mkAbcRow (r_product_id (c_revenue c)) (Product.sku p) (Product.product_name p)
                  (r_quantity_ordered (c_revenue c)) (r_total_revenue (c_revenue c))
                  (c_cumulative_pct c) (c_abc_class c))
      (merge (fun c p => (r_product_id (c_revenue c) =? Product.product_id p)%Z)
             product_revenue (products s)).

(** *** [calculate_inventory_turnover] *)

Record cogs_row : Type := mkCogs {
  cg_warehouse_id : Z; cg_product_id : Z; cg_quantity_ordered : N;
  cg_unit_cost : Q; cg_cogs_annual : Q }.

Record turnover_row : Type := mkTurnover {
  t_warehouse_code : string; t_sku : string; t_product_name : string;
  t_quantity_on_hand : N; t_inventory_value : cell; t_cogs_annual : cell;
  t_turnover_ratio : cell; t_days_of_supply : cell;
  t_turnover_category : string }.

Definition classify_turnover (ratio : cell) : string :=
  if cell_geb ratio (Fin 12) then "Fast Moving"
  else if cell_geb ratio (Fin 4) then "Normal"
  else if cell_geb ratio (Fin 1) then "Slow Moving"
  else "Dead Stock".

(** The [cogs] frame: quantity sold per warehouse and product, merged
    with the unit cost of the product. *)
Definition cogs (s : Snapshot) : list cogs_row :=
  let sums :=
    map (fun g => (fst g, sumN (map item_qty (snd g))))
        (groupby (cmp_pair Z.compare Z.compare)
                 (fun r => (SalesOrder.warehouse_id (fst r),
                            SalesOrderItem.product_id (snd r)))
                 (sales_with_items s)) in
  map (fun gp =>
         let k := fst (fst gp) in
         let qty := snd (fst gp) in
         let p := snd gp in
         mkCogs (fst k) (snd k) qty (Product.unit_cost p)
                (of_N qty * Product.unit_cost p))
      (merge (fun g p => (snd (fst g) =? Product.product_id p)%Z) sums (products s)).

(** [turnover['turnover_ratio']] of one row. *)
Definition turnover_ratio_of (inventory_value cogs_annual : cell) : cell :=
  np_where (cell_gtb inventory_value (Fin 0))
           (cell_div cogs_annual inventory_value)
           (Fin 0).

(** [turnover['days_of_supply']] of one row. *)
Definition days_of_supply_of (turnover_ratio : cell) : cell :=
  np_where (cell_gtb turnover_ratio (Fin 0))
           (cell_div (Fin 365) turnover_ratio)
           PInf.

Definition turnover_row_of
  (r : Inventory.t * option cogs_row * Product.t * Warehouse.t) : turnover_row :=
  let '(i, c, p, w) := r in
  (* the columns that come from [cogs] are missing without a match *)
  let unit_cost := match c with Some c => Fin (cg_unit_cost c) | None => NaN end in
  let cogs_annual := match c with Some c => Fin (cg_cogs_annual c) | None => NaN end in
  let inventory_value := cell_mul (Fin (of_N (Inventory.quantity_on_hand i))) unit_cost in
  let cogs_annual := fillna 0 cogs_annual in
  let turnover_ratio := turnover_ratio_of inventory_value cogs_annual in
  let days_of_supply := days_of_supply_of turnover_ratio in
  mkTurnover (Warehouse.warehouse_code w) (Product.sku p) (Product.product_name p)
             (Inventory.quantity_on_hand i) inventory_value cogs_annual
             turnover_ratio days_of_supply (classify_turnover turnover_ratio).

Definition calculate_inventory_turnover (s : Snapshot) (warehouse_id : option Z)
  : list turnover_row :=
  let inv := inventory s in
  let inv := if truthy warehouse_id
             then filter (fun i => eq_filter warehouse_id (Inventory.warehouse_id i)) inv
             else inv in
  let turnover :=
    merge_left (fun i c => (Inventory.warehouse_id i =? cg_warehouse_id c)%Z
                           && (Inventory.product_id i =? cg_product_id c)%Z)
               inv (cogs s) in
  let turnover :=
    merge (fun ic p => (Inventory.product_id (fst ic) =? Product.product_id p)%Z)
          turnover (products s) in
  let turnover :=
    merge (fun icp w => (Inventory.warehouse_id (fst (fst icp)) =? Warehouse.warehouse_id w)%Z)
          turnover (warehouses s) in
  map turnover_row_of turnover.

(** *** [calculate_reorder_points] *)

(** A standard-deviation column.  [Series.std()] is the square root of
    the sample variance ([Root v]); [fillna] puts a plain number in the
    place of a missing one ([Lit q]).  The code only ever squares the
    column. *)
Inductive stdev : Type :=
| Root (v : Q)
| Lit (q : Q).

Definition sq (s : stdev) : Q :=
  match s with
  | Root v => v
  | Lit q => q * q
  end.

(** [Series.std()]: missing with fewer than two observations. *)
Definition std (l : list Q) : option stdev :=
  match var l with
  | Fin v => Some (Root v)
  | _ => None
  end.

Definition fillna_std (fill : Q) (o : option stdev) : stdev :=
  match o with
  | Some s => s
  | None => Lit fill
  end.

Record demand_stat : Type := mkDemandStat {
  ds_warehouse_id : Z; ds_product_id : Z;
  ds_avg_daily_demand : Q; ds_std_daily_demand : stdev;
  ds_days_with_demand : nat }.

(** [daily_demand]: units per warehouse, product and day. *)
Definition daily_demand (sales : list (SalesOrder.t * SalesOrderItem.t))
  : list (Z * Z * Z * N) :=
  map (fun g => (fst g, sumN (map item_qty (snd g))))
      (groupby (cmp_pair (cmp_pair Z.compare Z.compare) Z.compare)
               (fun r => (SalesOrder.warehouse_id (fst r),
                          SalesOrderItem.product_id (snd r),
                          SalesOrder.order_date (fst r)))
               sales).

(** [demand_stats], after the missing deviations have been filled with
    30% of the mean. *)
Definition demand_stats (sales : list (SalesOrder.t * SalesOrderItem.t))
  : list demand_stat :=
  map (fun g =>
         let qs := map (fun r => of_N (snd r)) (snd g) in
         let avg := sumQ qs / inject_Z (Z.of_nat (List.length qs)) in
         mkDemandStat (fst (fst g)) (snd (fst g)) avg
                      (fillna_std (avg * 0.3) (std qs)) (List.length qs))
      (groupby (cmp_pair Z.compare Z.compare)
               (fun r => (fst (fst (fst r)), snd (fst (fst r))))
               (daily_demand sales)).

Record lead_time_stat : Type := mkLeadTimeStat {
  lt_supplier_id : Z; lt_avg_lead_time : cell; lt_std_lead_time : option stdev }.

Definition delivered (po : PurchaseOrder.t) : bool :=
  String.eqb (PurchaseOrder.status po) "Delivered".

(** [actual_lead_time]: missing when the delivery date is. *)
Definition actual_lead_time (po : PurchaseOrder.t) : option Q :=
  option_map (fun a => inject_Z (a - PurchaseOrder.order_date po))
             (PurchaseOrder.actual_delivery_date po).

Definition present {A : Type} (l : list (option A)) : list A :=
  flat_map (fun o => match o with Some a => [a] | None => [] end) l.

(** [lead_time_stats]: mean and deviation of the actual lead time of the
    delivered purchase orders of each supplier (missing values skipped). *)
Definition lead_time_stats (pos : list PurchaseOrder.t) : list lead_time_stat :=
  let delivered_pos := filter delivered pos in
  map (fun g =>
         let lts := present (map actual_lead_time (snd g)) in
         let avg := mean lts in
         let sd := match std lts, avg with
                   | Some s, _ => Some s
                   | None, Fin a => Some (Lit (a * 0.2))
                   | None, _ => None
                   end in
         mkLeadTimeStat (fst g) avg sd)
      (groupby Z.compare PurchaseOrder.supplier_id delivered_pos).

Record reorder_row : Type := mkReorder {
  ro_warehouse_code : string; ro_sku : string; ro_product_name : string;
  ro_quantity_on_hand : N; ro_avg_daily_demand : Q; ro_avg_lead_time : N;
  ro_safety_stock : Z; ro_current_rop : N; ro_calculated_rop : Z;
  ro_recommendation : string }.

Definition recommend (rop_adjustment : Z) (current_rop : N) : string :=
  if negb (Qle_bool (inject_Z rop_adjustment) (of_N current_rop * 0.2))
  then "Increase ROP"
  else if negb (Qle_bool (- of_N current_rop * 0.2) (inject_Z rop_adjustment))
  then "Decrease ROP"
  else "Optimal".

(** [avg_lead_time * std_daily_demand**2 + avg_daily_demand**2 *
    std_lead_time**2], the number under the square root. *)
Definition lead_time_demand_variance
  (avg_lead_time : Q) (std_daily_demand : stdev) (avg_daily_demand std_lead_time : Q) : Q :=
  avg_lead_time * sq std_daily_demand
  + (avg_daily_demand * avg_daily_demand) * (std_lead_time * std_lead_time).

(** [z_score * np.sqrt(...)], before rounding. *)
Definition safety_stock_of
  (z_score avg_lead_time : Q) (std_daily_demand : stdev)
  (avg_daily_demand std_lead_time : Q) : surd :=
  mkSurd 0 z_score
         (lead_time_demand_variance avg_lead_time std_daily_demand
                                    avg_daily_demand std_lead_time).

(** [avg_daily_demand * avg_lead_time + safety_stock], before rounding. *)
Definition calculated_rop_of
  (z_score avg_lead_time : Q) (std_daily_demand : stdev)
  (avg_daily_demand std_lead_time : Q) : surd :=
  mkSurd (avg_daily_demand * avg_lead_time) z_score
         (lead_time_demand_variance avg_lead_time std_daily_demand
                                    avg_daily_demand std_lead_time).

Definition reorder_row_of (z_score : Q)
  (r : demand_stat * Inventory.t * Product.t * Warehouse.t) : reorder_row :=
  let '(d, i, p, w) := r in
  (* "Use default lead time if no historical data" *)
  let avg_lead_time := Product.lead_time_days p in
  let std_lead_time := of_N (Product.lead_time_days p) * 0.2 in
  let safety_stock :=
    safety_stock_of z_score (of_N avg_lead_time) (ds_std_daily_demand d)
                    (ds_avg_daily_demand d) std_lead_time in
  let calculated_rop :=
    calculated_rop_of z_score (of_N avg_lead_time) (ds_std_daily_demand d)
                      (ds_avg_daily_demand d) std_lead_time in
  let safety_stock := rint_surd safety_stock in
  let calculated_rop := rint_surd calculated_rop in
  let current_rop := Inventory.reorder_point i in
  let rop_adjustment := (calculated_rop - Z.of_N current_rop)%Z in
  mkReorder (Warehouse.warehouse_code w) (Product.sku p) (Product.product_name p)
            (Inventory.quantity_on_hand i) (ds_avg_daily_demand d) avg_lead_time
            safety_stock current_rop calculated_rop
            (recommend rop_adjustment current_rop).

(** [z_score] is [stats.norm.ppf(service_level)]; SciPy's quantile
    function is taken as given, the analysis receives its value, a
    finite number for a service level strictly between 0 and 1
    ([1.6448536269514722] for the default [0.95], [0] for [0.5],
    negative below). *)
Definition calculate_reorder_points (s : Snapshot) (z_score : Q) (lookback_days : Z)
  : list reorder_row :=
  let demand_stats := demand_stats (recent_sales s lookback_days) in
  (* computed by the code and not used afterwards *)
  let lead_time_stats := lead_time_stats (purchase_orders s) in
  let result :=
    merge (fun d i => (ds_warehouse_id d =? Inventory.warehouse_id i)%Z
                      && (ds_product_id d =? Inventory.product_id i)%Z)
          demand_stats (inventory s) in
  let result :=
    merge (fun di p => (ds_product_id (fst di) =? Product.product_id p)%Z)
          result (products s) in
  let result :=
    merge (fun dip w => (ds_warehouse_id (fst (fst dip)) =? Warehouse.warehouse_id w)%Z)
          result (warehouses s) in
  map (reorder_row_of z_score) result.

(** *** [calculate_eoq] *)

Record eoq_row : Type := mkEoq {
  e_sku : string; e_product_name : string; e_unit_cost : Q;
  e_annual_demand : N; e_eoq : Z; e_orders_per_year : cell;
  e_days_between_orders : cell; e_annual_inventory_cost : cell }.

(** [annual_demand] merged with the products. *)
Definition annual_demand (s : Snapshot) : list (Z * N * Product.t) :=
  merge (fun g p => (fst g =? Product.product_id p)%Z)
        (map (fun g => (fst g, sumN (map item_qty (snd g))))
             (groupby Z.compare (fun r => SalesOrderItem.product_id (snd r))
                      (sales_with_items s)))
        (products s).

Definition holding_cost_per_unit (holding_cost_rate : Q) (p : Product.t) : Q :=
  Product.unit_cost p * holding_cost_rate.

(** [2 * annual_demand * ordering_cost / holding_cost_per_unit]. *)
Definition eoq_radicand (annual_demand : N) (ordering_cost holding_cost : Q) : cell :=
  cell_div (Fin (2 * of_N annual_demand * ordering_cost)) (Fin holding_cost).

Definition eoq_row_of (ordering_cost holding_cost_rate : Q) (r : Z * N * Product.t)
  : outcome eoq_row :=
  let '(_, annual_demand, p) := r in
  let h := holding_cost_per_unit holding_cost_rate p in
  bind (sqrt_round_int (eoq_radicand annual_demand ordering_cost h)) (fun eoq =>
  let orders_per_year :=
    cell_round 1 (cell_div (Fin (of_N annual_demand)) (Fin (inject_Z eoq))) in
  let days_between_orders := cell_round 0 (cell_div (Fin 365) orders_per_year) in
  let annual_inventory_cost :=
    sqrt_round_dp 2 (Fin (2 * of_N annual_demand * ordering_cost * h)) in
  Ok (mkEoq (Product.sku p) (Product.product_name p) (Product.unit_cost p)
            annual_demand eoq orders_per_year days_between_orders
            annual_inventory_cost)).

(** The cast of the [eoq] column is a cast of the whole column: one
    non-finite value makes the call raise. *)
Definition calculate_eoq (s : Snapshot) (ordering_cost holding_cost_rate : Q)
  : outcome (list eoq_row) :=
  traverse (eoq_row_of ordering_cost holding_cost_rate) (annual_demand s).

(** *** [calculate_carrying_costs] *)

Record carrying_row : Type := mkCarrying {
  k_warehouse_code : string; k_warehouse_name : string; k_category_name : string;
  k_product_count : nat; k_total_units : N; k_inventory_value : Q;
  k_capital_cost : Q; k_storage_cost : Q; k_insurance_cost : Q;
  k_obsolescence_cost : Q; k_handling_cost : Q;
  k_total_carrying_cost : Q; k_monthly_carrying_cost : Q }.

Definition cmp_key3 : string * string * string -> string * string * string -> comparison :=
  cmp_pair (cmp_pair String.compare String.compare) String.compare.

(** The inventory rows with product, warehouse and category, and their
    [inventory_value]; a row whose category is unknown has no group. *)
Definition valued_inventory (s : Snapshot)
  : list (string * string * string * (N * Q)) :=
  let inv :=
    merge (fun i p => (Inventory.product_id i =? Product.product_id p)%Z)
          (inventory s) (products s) in
  let inv :=
    merge (fun ip w => (Inventory.warehouse_id (fst ip) =? Warehouse.warehouse_id w)%Z)
          inv (warehouses s) in
  let inv :=
    merge_left (fun ipw c => (Product.category_id (snd (fst ipw)) =? Category.category_id c)%Z)
               inv (product_categories s) in
  flat_map (fun r =>
              let '(i, p, w, c) := r in
              match c with
              | Some c =>
                  [(Warehouse.warehouse_code w, Warehouse.warehouse_name w,
                    Category.category_name c,
                    (Inventory.quantity_on_hand i,
                     of_N (Inventory.quantity_on_hand i) * Product.unit_cost p))]
              | None => []
              end) inv.

(** The [summary] frame with its cost columns, before the money columns
    are rounded. *)
Definition carrying_summary (s : Snapshot) : list carrying_row :=
  map (fun g =>
         let '(code, name, cat) := fst g in
         let inventory_value := sumQ (map (fun r => snd (snd r)) (snd g)) in
         let total_carrying_cost := inventory_value * 0.20 in
         mkCarrying code name cat (List.length (snd g))
                    (sumN (map (fun r => fst (snd r)) (snd g)))
                    inventory_value
                    (inventory_value * 0.08) (inventory_value * 0.05)
                    (inventory_value * 0.03) (inventory_value * 0.02)
                    (inventory_value * 0.02) total_carrying_cost
                    (total_carrying_cost / 12))
      (groupby cmp_key3 fst (valued_inventory s)).

(** [summary[money_cols] = summary[money_cols].round(2)]. *)
Definition round_money (r : carrying_row) : carrying_row :=
  mkCarrying (k_warehouse_code r) (k_warehouse_name r) (k_category_name r)
             (k_product_count r) (k_total_units r)
             (round_dp 2 (k_inventory_value r))
             (round_dp 2 (k_capital_cost r)) (round_dp 2 (k_storage_cost r))
             (round_dp 2 (k_insurance_cost r)) (round_dp 2 (k_obsolescence_cost r))
             (round_dp 2 (k_handling_cost r)) (round_dp 2 (k_total_carrying_cost r))
             (round_dp 2 (k_monthly_carrying_cost r)).

Definition calculate_carrying_costs (s : Snapshot) : list carrying_row :=
  map round_money (carrying_summary s).

End InventoryAnalytics.

(** ** [class SupplierAnalytics] *)

Module SupplierAnalytics.

Inductive tier : Type := Bronze | Silver | Gold | Platinum.

(** The two columns of a [scores] row that [assign_tier] reads. *)
Record score_row : Type := mkScore { on_time_rate : cell; fill_rate : cell }.

Definition assign_tier (row : score_row) : tier :=
  if cell_geb (on_time_rate row) (Fin 95) && cell_geb (fill_rate row) (Fin 98)
  then Platinum
  else if cell_geb (on_time_rate row) (Fin 90) && cell_geb (fill_rate row) (Fin 95)
  then Gold
  else if cell_geb (on_time_rate row) (Fin 80) && cell_geb (fill_rate row) (Fin 90)
  then Silver
  else Bronze.

(** The rates are rounded to two decimals once the tier is assigned:
    the two columns as the returned table shows them. *)
Definition returned_rates (row : score_row) : score_row :=
  mkScore (cell_round 2 (on_time_rate row)) (cell_round 2 (fill_rate row)).

Definition tier_name (t : tier) : string :=
  match t with
  | Bronze => "Bronze" | Silver => "Silver" | Gold => "Gold" | Platinum => "Platinum"
  end.

(** Bronze < Silver < Gold < Platinum. *)
Definition tier_rank (t : tier) : nat :=
  match t with
  | Bronze => 0 | Silver => 1 | Gold => 2 | Platinum => 3
  end.

End SupplierAnalytics.

(** ** [class DemandForecaster] *)

Module DemandForecaster.

(** [prepare_demand_data]: the daily series, one row per day and product. *)
Definition prepare_demand_data (s : Snapshot) (product_id warehouse_id : option Z)
  : list (Z * Z * N) :=
  let demand := sales_with_items s in
  let demand :=
    if truthy product_id
    then filter (fun r => eq_filter product_id (SalesOrderItem.product_id (snd r))) demand
    else demand in
  let demand :=
    if truthy warehouse_id
    then filter (fun r => eq_filter warehouse_id (SalesOrder.warehouse_id (fst r))) demand
    else demand in
  map (fun g => (fst g, sumN (map item_qty (snd g))))
      (groupby (cmp_pair Z.compare Z.compare)
               (fun r => (SalesOrder.order_date (fst r),
                          SalesOrderItem.product_id (snd r)))
               demand).

End DemandForecaster.

(** ** The vocabulary of the specification *)

Module Spec.

Import InventoryAnalytics.

(** Total cost of ordering [q] units at a time (section 8: "EOQ is a
    local minimum of total cost"): [cost(Q) = D*S/Q + H*Q/2], evaluated as
    the code evaluates its own quotients, so that [cost(0)] is infinite. *)
Definition total_cost (D S H : Q) (q : Z) : cell :=
  cell_add (cell_div (Fin (D * S)) (Fin (inject_Z q)))
           (Fin (H * inject_Z q / 2)).

Definition local_minimum (D S H : Q) (q : Z) : Prop :=
  cell_leb (total_cost D S H q) (total_cost D S H (q - 1)) = true
  /\ cell_leb (total_cost D S H q) (total_cost D S H (q + 1)) = true.

(** The numbers [calculate_eoq] divides by, one per product with sales. *)
Definition eoq_divisors (s : Snapshot) (holding_cost_rate : Q) : list Q :=
  map (fun r => holding_cost_per_unit holding_cost_rate (snd r)) (annual_demand s).

Definition eoq_division_guarded (s : Snapshot) (holding_cost_rate : Q) : Prop :=
  Forall (fun h => 0 < h) (eoq_divisors s holding_cost_rate).

(** The decomposition of section 4.1 on one row of the carrying-cost
    table. *)
Definition carrying_identities (r : carrying_row) : Prop :=
  k_capital_cost r == k_inventory_value r * 0.08
  /\ k_storage_cost r == k_inventory_value r * 0.05
  /\ k_insurance_cost r == k_inventory_value r * 0.03
  /\ k_obsolescence_cost r == k_inventory_value r * 0.02
  /\ k_handling_cost r == k_inventory_value r * 0.02
  /\ k_capital_cost r + k_storage_cost r + k_insurance_cost r
     + k_obsolescence_cost r + k_handling_cost r == k_total_carrying_cost r
  /\ k_total_carrying_cost r == k_inventory_value r * 0.20
  /\ k_monthly_carrying_cost r == k_total_carrying_cost r / 12.

(** Two rows whose money columns differ by at most half a cent. *)
Definition within_half_cent (r u : carrying_row) : Prop :=
  Forall (fun col => Qabs (col r - col u) <= 1 # 200)
         [k_inventory_value; k_capital_cost; k_storage_cost; k_insurance_cost;
          k_obsolescence_cost; k_handling_cost; k_total_carrying_cost;
          k_monthly_carrying_cost].

(** Is [so_id] the identifier of a cancelled order? *)
Definition cancelled_id (orders : list SalesOrder.t) (so_id : Z) : bool :=
  existsb (fun o => (SalesOrder.so_id o =? so_id)%Z && negb (not_cancelled o)) orders.

(** The snapshot without its cancelled sales orders and their items. *)
Definition drop_cancelled (s : Snapshot) : Snapshot :=
  mkSnapshot (products s) (inventory s)
             (filter not_cancelled (sales_orders s))
             (filter (fun i => negb (cancelled_id (sales_orders s) (SalesOrderItem.so_id i)))
                     (sales_order_items s))
             (purchase_orders s) (warehouses s) (product_categories s).

(** [so_id] is the key of the sales-order table. *)
Definition so_id_key (s : Snapshot) : Prop :=
  NoDup (map SalesOrder.so_id (sales_orders s)).

(** The latest order date is that of an order that is not cancelled. *)
Definition latest_order_kept (s : Snapshot) : Prop :=
  max_date (map SalesOrder.order_date (filter not_cancelled (sales_orders s)))
  = max_date (map SalesOrder.order_date (sales_orders s)).

End Spec.

(** ** Snapshots used below *)

Module Examples.

Open Scope string_scope.

Definition main_warehouse : Warehouse.t := Warehouse.mk 1 "WH-01" "Main".

(** [stats.norm.ppf(0.95)] and [stats.norm.ppf(0.3)]. *)
Definition z_95 : Q := 1.6448536269514722.
Definition z_30 : Q := -0.5244005127080407.

(** One product with a static lead time of 5 days, sold on two days; its
    supplier has delivered two purchase orders, after 8 and 12 days. *)
Definition lamp : Snapshot :=
  mkSnapshot
    [Product.mk 1 "SKU-00001" "Basic Lamp" 6 10 15 5]
    [Inventory.mk 1 1 100 0 20 50]
    [SalesOrder.mk 1 1 100 "Delivered"; SalesOrder.mk 2 1 101 "Delivered"]
    [SalesOrderItem.mk 1 1 4 15; SalesOrderItem.mk 2 1 6 15]
    [PurchaseOrder.mk 1 1 1 50 57 (Some 58%Z) "Delivered";
     PurchaseOrder.mk 2 1 1 60 67 (Some 72%Z) "Delivered"]
    [main_warehouse] [Category.mk 6 "Lighting"].

(** A product that costs nothing (a free sample), sold once. *)
Definition free_sample : Snapshot :=
  mkSnapshot
    [Product.mk 1 "SKU-00001" "Sample Folder" 6 0 0 7]
    [Inventory.mk 1 1 100 0 2 50]
    [SalesOrder.mk 1 1 100 "Delivered"]
    [SalesOrderItem.mk 1 1 1 0]
    [] [main_warehouse] [Category.mk 6 "Office"].

(** One unit a year of a product that costs 190. *)
Definition laptop : Snapshot :=
  mkSnapshot
    [Product.mk 1 "SKU-00001" "Premium Laptop" 6 190 300 7]
    [Inventory.mk 1 1 100 0 2 50]
    [SalesOrder.mk 1 1 100 "Delivered"]
    [SalesOrderItem.mk 1 1 1 300]
    [] [main_warehouse] [Category.mk 6 "Computers"].

(** Thirty days of sales of one product with a lead time of one day: one
    unit a day, two on the last day. *)
Definition slow_mover : Snapshot :=
  mkSnapshot
    [Product.mk 1 "SKU-00001" "Basic Stapler" 6 10 15 1]
    [Inventory.mk 1 1 100 0 2 50]
    (map (fun d => SalesOrder.mk (Z.of_nat d) 1 (Z.of_nat d) "Delivered") (seq 1 30))
    (map (fun d => SalesOrderItem.mk (Z.of_nat d) 1 (if Nat.eqb d 30 then 2%N else 1%N) 15)
         (seq 1 30))
    [] [main_warehouse] [Category.mk 6 "Office"].

(** One unit on hand of a product that costs 5.13. *)
Definition pen_set : Snapshot :=
  mkSnapshot
    [Product.mk 1 "SKU-00001" "Pen Set" 6 5.13 8 7]
    [Inventory.mk 1 1 1 0 2 50]
    [] [] [] [main_warehouse] [Category.mk 6 "Office"].

(** Two delivered orders, on days 0 and 300, and a cancelled one on day
    400, all of the same product. *)
Definition late_cancel : Snapshot :=
  mkSnapshot
    [Product.mk 1 "SKU-00001" "Pen Set" 6 5 8 7]
    [Inventory.mk 1 1 10 0 2 50]
    [SalesOrder.mk 1 1 0 "Delivered"; SalesOrder.mk 2 1 300 "Delivered";
     SalesOrder.mk 3 1 400 "Cancelled"]
    [SalesOrderItem.mk 1 1 7 8; SalesOrderItem.mk 2 1 5 8; SalesOrderItem.mk 3 1 9 8]
    [] [main_warehouse] [Category.mk 6 "Office"].

(** Two products in two warehouses, one order cancelled before the last
    delivered one. *)
Definition two_products : Snapshot :=
  mkSnapshot
    [Product.mk 1 "SKU-00001" "Basic Lamp" 6 10 15 5;
     Product.mk 2 "SKU-00002" "Ultra Desk" 7 120 200 9]
    [Inventory.mk 1 1 100 0 20 50; Inventory.mk 1 2 8 0 3 5;
     Inventory.mk 2 1 0 0 20 50]
    [SalesOrder.mk 1 1 100 "Delivered"; SalesOrder.mk 2 1 101 "Cancelled";
     SalesOrder.mk 3 2 102 "Shipped"; SalesOrder.mk 4 1 103 "Delivered"]
    [SalesOrderItem.mk 1 1 4 15; SalesOrderItem.mk 1 2 1 200;
     SalesOrderItem.mk 2 1 50 15; SalesOrderItem.mk 3 1 6 15;
     SalesOrderItem.mk 4 2 2 180]
    [PurchaseOrder.mk 1 1 1 50 57 (Some 58%Z) "Delivered"]
    [main_warehouse; Warehouse.mk 2 "WH-02" "East"]
    [Category.mk 6 "Lighting"; Category.mk 7 "Furniture"].

(** The scenario of section 8: an annual demand of 1200 units of a
    product with a unit cost of 20, hence a holding cost of 5 at 25%. *)
Definition bulk_seller : Snapshot :=
  mkSnapshot
    [Product.mk 1 "SKU-00001" "Paper Ream" 6 20 30 7]
    [Inventory.mk 1 1 300 0 100 200]
    [SalesOrder.mk 1 1 10 "Delivered"; SalesOrder.mk 2 1 200 "Cancelled"]
    [SalesOrderItem.mk 1 1 1200 30; SalesOrderItem.mk 2 1 500 30]
    [] [main_warehouse] [Category.mk 6 "Office"].

(** Every order of the window cancelled. *)
Definition all_cancelled : Snapshot :=
  mkSnapshot
    [Product.mk 1 "SKU-00001" "Paper Ream" 6 20 30 7]
    [Inventory.mk 1 1 300 0 100 200]
    [SalesOrder.mk 1 1 10 "Cancelled"; SalesOrder.mk 2 1 200 "Cancelled"]
    [SalesOrderItem.mk 1 1 1200 30; SalesOrderItem.mk 2 1 500 30]
    [] [main_warehouse] [Category.mk 6 "Office"].

End Examples.


(** ** Orders used to state properties of the tables *)

Module Order.

(** Lexicographic order on pairs of integers, the order of the keys of a
    group-by on two integer columns. *)
Definition lex_lt (x y : Z * Z) : Prop :=
  (fst x < fst y)%Z \/ (fst x = fst y /\ (snd x < snd y)%Z).

(** A < B < C. *)
Definition class_rank (c : string) : nat :=
  if String.eqb c "A" then 0 else if String.eqb c "B" then 1 else 2.

End Order.

(** ** What a group-by returns *)

Module Groups.

(** The rows of all groups, in group order. *)
Definition rows_of {K R : Type} (gs : list (K * list R)) : list R :=
  List.concat (map snd gs).

(** Every group is non-empty and holds rows of its own key. *)
Definition well_keyed {K R : Type} (key : R -> K) (gs : list (K * list R)) : Prop :=
  Forall (fun g => snd g <> [] /\ Forall (fun r => key r = fst g) (snd g)) gs.

End Groups.

(** A count as a float. *)
Definition of_nat (n : nat) : Q := inject_Z (Z.of_nat n).

(** ** [class SupplierAnalytics]: the tables it loads and its two analyses *)

Module Supplier.
Record t : Type := mk {
  supplier_id : Z; supplier_code : string; supplier_name : string;
  quality_rating : Q }.
End Supplier.

Module PurchaseOrderItem.
Record t : Type := mk {
  po_id : Z; product_id : Z; quantity_ordered : N; quantity_received : N;
  unit_cost : Q }.
End PurchaseOrderItem.

Module SupplierScoring.

Import Num Frame InventoryAnalytics SupplierAnalytics.

(** What [SupplierAnalytics._load_data] reads. *)
Record SupplierData : Type := mkSupplierData {
  sd_suppliers : list Supplier.t;
  sd_purchase_orders : list PurchaseOrder.t;
  sd_purchase_order_items : list PurchaseOrderItem.t }.

(** *** [calculate_supplier_scores] *)

(** [self.purchase_orders['order_date'].max() - timedelta(days=lookback_days)]. *)
Definition po_cutoff_date (pos : list PurchaseOrder.t) (lookback_days : Z) : option Z :=
  option_map (fun m => (m - lookback_days)%Z)
             (max_date (map PurchaseOrder.order_date pos)).

Definition po_since (cutoff : option Z) (po : PurchaseOrder.t) : bool :=
  match cutoff with
  | Some c => (c <=? PurchaseOrder.order_date po)%Z
  | None => false
  end.

(** [recent_pos]: the delivered orders of the trailing window. *)
Definition recent_pos (d : SupplierData) (lookback_days : Z) : list PurchaseOrder.t :=
  let cutoff := po_cutoff_date (sd_purchase_orders d) lookback_days in
  filter (fun po => po_since cutoff po && delivered po) (sd_purchase_orders d).

(** [actual_delivery_date <= expected_delivery_date]: false when the
    delivery date is missing. *)
Definition is_on_time (po : PurchaseOrder.t) : bool :=
  match PurchaseOrder.actual_delivery_date po with
  | Some a => (a <=? PurchaseOrder.expected_delivery_date po)%Z
  | None => false
  end.

(** [(actual_delivery_date - expected_delivery_date).dt.days]. *)
Definition delivery_variance (po : PurchaseOrder.t) : option Q :=
  option_map (fun a => inject_Z (a - PurchaseOrder.expected_delivery_date po))
             (PurchaseOrder.actual_delivery_date po).

Record delivery_metric : Type := mkDeliveryMetric {
  dm_supplier_id : Z; dm_total_orders : nat; dm_on_time_orders : nat;
  dm_avg_variance : cell; dm_std_variance : option stdev;
  dm_on_time_rate : cell }.

(** [x / y * 100] on two counts. *)
Definition rate (x y : Q) : cell :=
  cell_mul (cell_div (Fin x) (Fin y)) (Fin 100).

Definition delivery_metrics (pos : list PurchaseOrder.t) : list delivery_metric :=
  map (fun g =>
         let total_orders := List.length (snd g) in
         let on_time_orders := List.length (filter is_on_time (snd g)) in
         let variances := present (map delivery_variance (snd g)) in
         mkDeliveryMetric (fst g) total_orders on_time_orders
                          (mean variances) (std variances)
                          (rate (of_nat on_time_orders) (of_nat total_orders)))
      (groupby Z.compare PurchaseOrder.supplier_id pos).

Record fill_metric : Type := mkFillMetric {
  fm_supplier_id : Z; fm_quantity_ordered : N; fm_quantity_received : N;
  fm_fill_rate : cell }.

(** [po_items] grouped by supplier, with the fill rate. *)
Definition fill_metrics (items : list PurchaseOrderItem.t) (pos : list PurchaseOrder.t)
  : list fill_metric :=
  let po_items :=
    merge (fun i po => (PurchaseOrderItem.po_id i =? PurchaseOrder.po_id po)%Z)
          items pos in
  map (fun g =>
         let ordered := sumN (map (fun r => PurchaseOrderItem.quantity_ordered (fst r))
                                  (snd g)) in
         let received := sumN (map (fun r => PurchaseOrderItem.quantity_received (fst r))
                                   (snd g)) in
         mkFillMetric (fst g) ordered received (rate (of_N received) (of_N ordered)))
      (groupby Z.compare (fun r => PurchaseOrder.supplier_id (snd r)) po_items).

(** [std <= c] for a standard deviation and a bound [c >= 0]. *)
Definition stdev_leb (s : stdev) (c : Q) : bool :=
  match s with
  | Root v => Qle_bool v (c * c)
  | Lit q => Qle_bool q c
  end.

Definition consistency_score (variance_std : option stdev) : Q :=
  match variance_std with
  | None => 20
  | Some sd =>
      if stdev_leb sd 1 then 20
      else if stdev_leb sd 3 then 15
      else if stdev_leb sd 7 then 10
      else 5
  end.

(** [on_time_rate * 0.4 + fill_rate * 0.4 + consistency_score]. *)
Definition reliability_score_of (on_time_rate fill_rate : cell) (consistency : Q) : cell :=
  cell_add (cell_add (cell_mul on_time_rate (Fin 0.4)) (cell_mul fill_rate (Fin 0.4)))
           (Fin consistency).

Record supplier_score : Type := mkSupplierScore {
  ss_supplier_code : string; ss_supplier_name : string; ss_total_orders : nat;
  ss_on_time_rate : cell; ss_fill_rate : cell; ss_avg_variance : cell;
  ss_quality_rating : Q; ss_reliability_score : cell; ss_tier : tier }.

(** One row of [scores]: the score and the tier are computed first, the
    columns rounded afterwards. *)
Definition supplier_score_of (r : delivery_metric * fill_metric * Supplier.t)
  : supplier_score :=
  let '(dm, fm, sup) := r in
  let consistency := consistency_score (dm_std_variance dm) in
  let reliability :=
    reliability_score_of (dm_on_time_rate dm) (fm_fill_rate fm) consistency in
  let tier := assign_tier (mkScore (dm_on_time_rate dm) (fm_fill_rate fm)) in
  mkSupplierScore (Supplier.supplier_code sup) (Supplier.supplier_name sup)
                  (dm_total_orders dm)
                  (cell_round 2 (dm_on_time_rate dm)) (cell_round 2 (fm_fill_rate fm))
                  (cell_round 1 (dm_avg_variance dm)) (Supplier.quality_rating sup)
                  (cell_round 1 reliability) tier.

(** [calculate_supplier_scores].  Without a scored supplier the table
    is empty: the row-wise [apply] has no row to work on, and what it
    hands back then is left to the library. *)
Definition calculate_supplier_scores (d : SupplierData) (lookback_days : Z)
  : list supplier_score :=
  let recent_pos := recent_pos d lookback_days in
  let delivery_metrics := delivery_metrics recent_pos in
  let fill_metrics := fill_metrics (sd_purchase_order_items d) recent_pos in
  let scores :=
    merge (fun dm fm => (dm_supplier_id dm =? fm_supplier_id fm)%Z)
          delivery_metrics fill_metrics in
  let scores :=
    merge (fun df sup => (dm_supplier_id (fst df) =? Supplier.supplier_id sup)%Z)
          scores (sd_suppliers d) in
  map supplier_score_of scores.

(** *** [analyze_lead_time_variability] *)

(** A float cell whose finite values are kept exactly as surds: the
    coefficient of variation is a rational multiple of a square root. *)
Inductive scell : Type :=
| SFin (s : surd)
| SPInf
| SNInf
| SNaN.

(** [Series.min()] and [Series.max()], missing values skipped: [NaN] on
    an empty series. *)
Definition min_of (l : list Q) : cell :=
  match l with
  | [] => NaN
  | x :: l' => Fin (fold_left (fun a b => if Qle_bool a b then a else b) l' x)
  end.

Definition max_of (l : list Q) : cell :=
  match l with
  | [] => NaN
  | x :: l' => Fin (fold_left (fun a b => if Qle_bool a b then b else a) l' x)
  end.

(** [std_lead_time / avg_lead_time * 100], the deviation being the
    square root of the sample variance ([var] and [mean] give a number
    or [NaN]).  A zero mean divides a positive deviation to [inf] and a
    zero deviation to [NaN]. *)
Definition cv_pct_of (variance avg : cell) : scell :=
  match variance, avg with
  | Fin v, Fin m =>
      if is_zero m
      then (if is_zero v then SNaN else SPInf)
      else SFin (mkSurd 0 (100 / m) v)
  | _, _ => SNaN
  end.

Definition classify_reliability (cv : scell) : string :=
  match cv with
  | SNaN => "Highly Reliable"
  | SNInf => "Highly Reliable"
  | SPInf => "Unreliable"
  | SFin s =>
      if surd_leb s 10 then "Highly Reliable"
      else if surd_leb s 25 then "Reliable"
      else if surd_leb s 40 then "Variable"
      else "Unreliable"
  end.

(** [Series.round(d)] on a surd cell. *)
Definition surd_round (d : nat) (s : surd) : Q :=
  inject_Z (rint_surd (mkSurd (s_rat s * pow10 d) (s_coef s * pow10 d) (s_rad s)))
  / pow10 d.

Definition scell_round (d : nat) (c : scell) : cell :=
  match c with
  | SFin s => Fin (surd_round d s)
  | SPInf => PInf
  | SNInf => NInf
  | SNaN => NaN
  end.

Record variability_stat : Type := mkVariabilityStat {
  vs_supplier_id : Z; vs_delivery_count : nat;
  vs_avg_lead_time : cell; vs_var_lead_time : cell;
  vs_min_lead_time : cell; vs_max_lead_time : cell }.

Record variability_row : Type := mkVariability {
  lv_supplier_code : string; lv_supplier_name : string; lv_delivery_count : nat;
  lv_avg_lead_time : cell; lv_std_lead_time : cell;
  lv_min_lead_time : cell; lv_max_lead_time : cell;
  lv_cv_pct : cell; lv_reliability_category : string }.

(** [lead_time_stats] of this analysis; the deviation is kept as the
    variance it is the square root of. *)
Definition variability_stats (pos : list PurchaseOrder.t) : list variability_stat :=
  map (fun g =>
         let lts := present (map actual_lead_time (snd g)) in
         mkVariabilityStat (fst g) (List.length (snd g))
                           (mean lts) (var lts) (min_of lts) (max_of lts))
      (groupby Z.compare PurchaseOrder.supplier_id (filter delivered pos)).

(** One returned row: the category is read off the unrounded
    coefficient, the three float columns are rounded afterwards. *)
Definition variability_row_of (r : variability_stat * Supplier.t) : variability_row :=
  let '(st, sup) := r in
  let cv := cv_pct_of (vs_var_lead_time st) (vs_avg_lead_time st) in
  mkVariability (Supplier.supplier_code sup) (Supplier.supplier_name sup)
                (vs_delivery_count st)
                (cell_round 2 (vs_avg_lead_time st))
                (sqrt_round_dp 2 (vs_var_lead_time st))
                (vs_min_lead_time st) (vs_max_lead_time st)
                (scell_round 2 cv) (classify_reliability cv).

Definition analyze_lead_time_variability (d : SupplierData) : list variability_row :=
  map variability_row_of
      (merge (fun st sup => (vs_supplier_id st =? Supplier.supplier_id sup)%Z)
             (variability_stats (sd_purchase_orders d)) (sd_suppliers d)).

End SupplierScoring.

(** ** [class DemandForecaster]: the two forecasts *)

Module Forecasting.

Import Num Frame DemandForecaster.

(** The exceptions the two forecasts can end in. *)
Inductive error : Type := ValueError | IndexError | OverflowError.

Inductive result (A : Type) : Type :=
| Returned (a : A)
| Raised (e : error).
Arguments Returned {A} a.
Arguments Raised {A} e.

Definition and_then {A B : Type} (m : result A) (k : A -> result B) : result B :=
  match m with
  | Returned a => k a
  | Raised e => Raised e
  end.

Record forecast_row : Type := mkForecast {
  fc_date : Z; fc_forecasted_quantity : Z; fc_method : string }.

(** [Series.min()] of a date column: [NaT] on an empty column. *)
Definition min_date (l : list Z) : option Z :=
  match l with
  | [] => None
  | d :: l' => Some (fold_left Z.min l' d)
  end.

(** [n] consecutive days from [start] on. *)
Definition days_from (start : Z) (n : nat) : list Z :=
  map (fun i => (start + Z.of_nat i)%Z) (seq 0 n).

(** [pd.date_range(lo, hi)]: every day from [lo] to [hi]; [NaT] is
    refused. *)
Definition date_range (lo hi : option Z) : result (list Z) :=
  match lo, hi with
  | Some lo, Some hi => Returned (days_from lo (Z.to_nat (hi - lo + 1)))
  | _, _ => Raised ValueError
  end.

(** [pd.date_range(start, periods=n)]: [n] days from [start] on.  The
    number of periods is a count: what a negative one gives is left to
    the library and not modelled. *)
Definition date_range_periods (start : option Z) (periods : N) : result (list Z) :=
  match start with
  | Some d => Returned (days_from d (N.to_nat periods))
  | None => Raised ValueError
  end.

(** [Index.is_unique]. *)
Fixpoint is_unique (l : list Z) : bool :=
  match l with
  | [] => true
  | x :: l' => negb (existsb (Z.eqb x) l') && is_unique l'
  end.

Definition order_date (r : Z * Z * N) : Z := fst (fst r).

(** The units of the row labelled [d], 0 ([fill_value]) without one. *)
Definition units_on (demand : list (Z * Z * N)) (d : Z) : Q :=
  match find (fun r => (order_date r =? d)%Z) demand with
  | Some r => of_N (snd r)
  | None => 0
  end.

(** [demand.set_index('order_date').reindex(dates, fill_value=0)], the
    index and the [quantity_ordered] column.  [reindex] raises on an
    index that labels two rows with one date. *)
Definition reindex (demand : list (Z * Z * N)) (dates : list Z) : result (list (Z * Q)) :=
  if is_unique (map order_date demand)
  then Returned (map (fun d => (d, units_on demand d)) dates)
  else Raised ValueError.

(** The frame [daily] of both forecasts. *)
Definition daily (demand : list (Z * Z * N)) : result (list (Z * Q)) :=
  let dates := map order_date demand in
  and_then (date_range (min_date dates) (max_date dates)) (reindex demand).

Definition last_n {A : Type} (n : nat) (l : list A) : list A :=
  skipn (List.length l - n) l.

(** [Series.rolling(window, min_periods=1).mean()]: at each position the
    mean of the [window] values that end there, of fewer at the start.
    A window below 1 is refused. *)
Definition rolling_mean (window : Z) (values : list Q) : result (list cell) :=
  if (window <? 1)%Z then Raised ValueError
  else Returned
         (map (fun i => mean (last_n (Z.to_nat window) (firstn (S i) values)))
              (seq 0 (List.length values))).

(** [Series.iloc[-1]]. *)
Definition iloc_last {A : Type} (l : list A) : result A :=
  match rev l with
  | x :: _ => Returned x
  | [] => Raised IndexError
  end.

(** The built-in [round] of a float: nearest integer, ties to even; it
    raises on [NaN] and on the infinities. *)
Definition py_round (c : cell) : result Z :=
  match c with
  | Fin x => Returned (rint x)
  | NaN => Raised ValueError
  | PInf | NInf => Raised OverflowError
  end.

(** The returned frame: the same quantity on every forecast day. *)
Definition forecast_frame (forecast_dates : list Z) (quantity : Z) (method : string)
  : list forecast_row :=
  map (fun d => mkForecast d quantity method) forecast_dates.

Definition next_day (d : option Z) : option Z := option_map (fun d => (d + 1)%Z) d.

(** [moving_average_forecast].  [pd.DataFrame()], the empty frame, is
    the empty list of rows. *)
Definition moving_average_forecast (s : Snapshot) (product_id window : Z)
  (forecast_days : N) : result (list forecast_row) :=
  let demand := prepare_demand_data s (Some product_id) None in
  match demand with
  | [] => Returned []
  | _ =>
      and_then (daily demand) (fun daily =>
      and_then (rolling_mean window (map snd daily)) (fun ma =>
      and_then (iloc_last ma) (fun last_ma =>
      and_then (date_range_periods (next_day (max_date (map fst daily))) forecast_days)
               (fun forecast_dates =>
      and_then (py_round last_ma) (fun quantity =>
      Returned (forecast_frame forecast_dates quantity "Moving Average"))))))
  end.

(** The loop of [exponential_smoothing_forecast]: [prev] is
    [smoothed[-1]]. *)
Fixpoint smooth (alpha : Q) (prev : Q) (values : list Q) : list Q :=
  match values with
  | [] => []
  | v :: values' =>
      let s := alpha * v + (1 - alpha) * prev in
      s :: smooth alpha s values'
  end.

(** [smoothed]: [values[0]] raises on an empty array. *)
Definition smoothed (alpha : Q) (values : list Q) : result (list Q) :=
  match values with
  | [] => Raised IndexError
  | v0 :: values' => Returned (v0 :: smooth alpha v0 values')
  end.

Definition exponential_smoothing_forecast (s : Snapshot) (product_id : Z) (alpha : Q)
  (forecast_days : N) : result (list forecast_row) :=
  let demand := prepare_demand_data s (Some product_id) None in
  match demand with
  | [] => Returned []
  | _ =>
      and_then (daily demand) (fun daily =>
      and_then (smoothed alpha (map snd daily)) (fun smoothed =>
      and_then (iloc_last smoothed) (fun last_smoothed =>
      and_then (date_range_periods (next_day (max_date (map fst daily))) forecast_days)
               (fun forecast_dates =>
      Returned (forecast_frame forecast_dates (rint last_smoothed)
                               "Exponential Smoothing")))))
  end.

End Forecasting.

(** ** [class StockoutAnalyzer] *)

Module StockoutEvent.
Record t : Type := mk {
  stockout_id : Z; warehouse_id : Z; product_id : Z;
  stockout_start_date : Z; stockout_end_date : Z;
  demand_during_stockout : N; lost_sales_amount : Q; root_cause : string }.
End StockoutEvent.

Module StockoutAnalyzer.

Import Num Frame.

(** What [StockoutAnalyzer._load_data] reads. *)
Record StockoutData : Type := mkStockoutData {
  so_stockout_events : list StockoutEvent.t;
  so_products : list Product.t;
  so_warehouses : list Warehouse.t }.

Definition duration_days (e : StockoutEvent.t) : Q :=
  inject_Z (StockoutEvent.stockout_end_date e - StockoutEvent.stockout_start_date e).

Record impact : Type := mkImpact {
  im_warehouse_id : Z; im_product_id : Z; im_stockout_count : nat;
  im_avg_duration_days : Q; im_total_lost_units : N; im_total_lost_revenue : Q }.

Record impact_row : Type := mkImpactRow {
  ir_warehouse_code : string; ir_sku : string; ir_product_name : string;
  ir_stockout_count : nat; ir_avg_duration_days : Q; ir_total_lost_units : N;
  ir_total_lost_revenue : Q; ir_severity_score : Q }.

(** [impact]: one row per warehouse and product with an event. *)
Definition impact_of (events : list StockoutEvent.t) : list impact :=
  map (fun g =>
         let n := List.length (snd g) in
         mkImpact (fst (fst g)) (snd (fst g)) n
                  (sumQ (map duration_days (snd g)) / of_nat n)
                  (sumN (map StockoutEvent.demand_during_stockout (snd g)))
                  (sumQ (map StockoutEvent.lost_sales_amount (snd g))))
      (groupby (cmp_pair Z.compare Z.compare)
               (fun e => (StockoutEvent.warehouse_id e, StockoutEvent.product_id e))
               events).

(** [stockout_count * 30 + avg_duration_days * 10 + total_lost_revenue / 100]. *)
Definition severity_score_of (i : impact) : Q :=
  of_nat (im_stockout_count i) * 30 + im_avg_duration_days i * 10
  + im_total_lost_revenue i / 100.

Definition impact_row_of (r : impact * Product.t * Warehouse.t) : impact_row :=
  let '(i, p, w) := r in
  mkImpactRow (Warehouse.warehouse_code w) (Product.sku p) (Product.product_name p)
              (im_stockout_count i)
              (round_dp 1 (im_avg_duration_days i))
              (im_total_lost_units i)
              (round_dp 2 (im_total_lost_revenue i))
              (round_dp 0 (severity_score_of i)).

Definition analyze_stockout_impact (d : StockoutData) : list impact_row :=
  let impact := impact_of (so_stockout_events d) in
  let impact :=
    merge (fun i p => (im_product_id i =? Product.product_id p)%Z)
          impact (so_products d) in
  let impact :=
    merge (fun ip w => (im_warehouse_id (fst ip) =? Warehouse.warehouse_id w)%Z)
          impact (so_warehouses d) in
  sort_values_desc ir_severity_score (map impact_row_of impact).

Record cause_row : Type := mkCause {
  cr_root_cause : string; cr_occurrence_count : nat; cr_total_lost_revenue : Q;
  cr_total_lost_units : N; cr_pct_of_stockouts : cell }.

(** [get_root_cause_analysis]. *)
Definition get_root_cause_analysis (d : StockoutData) : list cause_row :=
  let cause_analysis :=
    map (fun g =>
           (fst g, List.length (snd g),
            sumQ (map StockoutEvent.lost_sales_amount (snd g)),
            sumN (map StockoutEvent.demand_during_stockout (snd g))))
        (groupby String.compare StockoutEvent.root_cause (so_stockout_events d)) in
  let total_events :=
    fold_left Nat.add (map (fun c => snd (fst (fst c))) cause_analysis) 0%nat in
  sort_values_desc
    (fun r => of_nat (cr_occurrence_count r))
    (map (fun c =>
            let '(cause, count, revenue, units) := c in
            mkCause cause count (round_dp 2 revenue) units
                    (cell_round 2 (cell_mul (cell_div (Fin (of_nat count))
                                                      (Fin (of_nat total_events)))
                                            (Fin 100))))
         cause_analysis).

End StockoutAnalyzer.

(** ** Further example data *)

Module SupplierExamples.

Import SupplierScoring.

Open Scope string_scope.

(** Supplier 1 has delivered two orders, one a day early and one three
    days late and short of two units; supplier 2 one order, on the day. *)
Definition two_suppliers : SupplierData :=
  mkSupplierData
    [Supplier.mk 1 "SUP-001" "Acme Metals" 4.5; Supplier.mk 2 "SUP-002" "Bolt Works" 3.9]
    [PurchaseOrder.mk 1 1 1 10 17 (Some 16%Z) "Delivered";
     PurchaseOrder.mk 2 1 1 20 27 (Some 30%Z) "Delivered";
     PurchaseOrder.mk 3 2 1 30 37 (Some 37%Z) "Delivered"]
    [PurchaseOrderItem.mk 1 1 10 10 6; PurchaseOrderItem.mk 2 1 20 18 6;
     PurchaseOrderItem.mk 3 2 5 5 8].

(** The same, the order of supplier 2 holding one line of zero units. *)
Definition empty_line : SupplierData :=
  mkSupplierData
    (sd_suppliers two_suppliers) (sd_purchase_orders two_suppliers)
    [PurchaseOrderItem.mk 1 1 10 10 6; PurchaseOrderItem.mk 2 1 20 18 6;
     PurchaseOrderItem.mk 3 2 0 0 8].

End SupplierExamples.

Module StockoutExamples.

Import StockoutAnalyzer.

Open Scope string_scope.

(** Three events in one warehouse: two of product 1, of three and five
    days, and one of product 2, of one day. *)
Definition three_events : StockoutData :=
  mkStockoutData
    [StockoutEvent.mk 1 1 1 100 103 12 180 "Supplier delay";
     StockoutEvent.mk 2 1 1 200 205 20 300 "Demand spike";
     StockoutEvent.mk 3 1 2 150 151 1 200 "Supplier delay"]
    [Product.mk 1 "SKU-00001" "Basic Lamp" 6 10 15 5;
     Product.mk 2 "SKU-00002" "Ultra Desk" 7 120 200 9]
    [Examples.main_warehouse].

End StockoutExamples.
(** * Properties *)

(** ** Comparisons of cells *)

Section CellFacts.

Import Num.

Lemma Qle_bool_false (x y : Q) : Qle_bool x y = false <-> y < x.
Proof.
  split; intros H.
  - apply Qnot_le_lt. intros Hle. apply Qle_bool_iff in Hle. congruence.
  - destruct (Qle_bool x y) eqn:E; [|reflexivity].
    apply Qle_bool_iff in E. exfalso. apply (Qlt_not_le _ _ H E).
Qed.

Lemma Qle_bool_trans (x y z : Q) :
  Qle_bool x y = true -> Qle_bool y z = true -> Qle_bool x z = true.
Proof.
  rewrite !Qle_bool_iff. apply Qle_trans.
Qed.

Lemma cell_geb_trans (a b c : cell) :
  cell_geb a b = true -> cell_geb b c = true -> cell_geb a c = true.
Proof.
  destruct a, b, c; simpl; try congruence.
  intros H1 H2. exact (Qle_bool_trans _ _ _ H2 H1).
Qed.

Lemma cell_gtb_fin (x y : Q) : cell_gtb (Fin x) (Fin y) = true <-> y < x.
Proof.
  simpl. rewrite negb_true_iff. apply Qle_bool_false.
Qed.

Lemma cell_gtb_zero_inv (c : cell) :
  cell_gtb c (Fin 0) = true -> c = PInf \/ exists q, c = Fin q /\ 0 < q.
Proof.
  destruct c; simpl; try discriminate; auto.
  intros H. right. exists q. split; [reflexivity|].
  apply Qle_bool_false. now apply negb_true_iff.
Qed.

Lemma is_zero_false (q : Q) : ~ q == 0 -> is_zero q = false.
Proof.
  intros H. unfold is_zero. destruct (Qeq_bool q 0) eqn:E; [|reflexivity].
  apply Qeq_bool_eq in E. contradiction.
Qed.

Lemma cell_div_fin (x y : Q) : ~ y == 0 -> cell_div (Fin x) (Fin y) = Fin (x / y).
Proof.
  intros H. simpl. now rewrite (is_zero_false _ H).
Qed.

End CellFacts.

(** ** Supplier tiers *)

Module TierFacts.

Import Num SupplierAnalytics.

Lemma threshold_mono (a b : cell) (t : Q) :
  cell_geb a b = true -> cell_geb b (Fin t) = true -> cell_geb a (Fin t) = true.
Proof.
  apply cell_geb_trans.
Qed.

(** C6. [assign_tier] is monotonic: a supplier whose on-time rate and fill
    rate are both at least those of another supplier is never assigned a
    lower tier (Bronze < Silver < Gold < Platinum). *)
Theorem assign_tier_monotonic (r1 r2 : score_row) :
  cell_geb (on_time_rate r1) (on_time_rate r2) = true ->
  cell_geb (fill_rate r1) (fill_rate r2) = true ->
  (tier_rank (assign_tier r2) <= tier_rank (assign_tier r1))%nat.
Proof.
  intros Ho Hf.
  pose proof (threshold_mono _ _ 95 Ho) as O95.
  pose proof (threshold_mono _ _ 90 Ho) as O90.
  pose proof (threshold_mono _ _ 80 Ho) as O80.
  pose proof (threshold_mono _ _ 98 Hf) as F98.
  pose proof (threshold_mono _ _ 95 Hf) as F95.
  pose proof (threshold_mono _ _ 90 Hf) as F90.
  unfold assign_tier.
  destruct (cell_geb (on_time_rate r2) (Fin 95)) eqn:A1;
  destruct (cell_geb (fill_rate r2) (Fin 98)) eqn:B1;
  destruct (cell_geb (on_time_rate r2) (Fin 90)) eqn:A2;
  destruct (cell_geb (fill_rate r2) (Fin 95)) eqn:B2;
  destruct (cell_geb (on_time_rate r2) (Fin 80)) eqn:A3;
  destruct (cell_geb (fill_rate r2) (Fin 90)) eqn:B3;
  simpl;
  repeat match goal with
         | H : true = true -> _ |- _ => specialize (H eq_refl); rewrite H
         end;
  simpl; try lia;
  repeat match goal with
         | |- context [if ?b then _ else _] => destruct b; simpl
         end; lia.
Qed.

Lemma assign_tier_monotonic_witness :
  cell_geb (Fin 96) (Fin 91) = true
  /\ cell_geb (Fin 99) (Fin 96) = true
  /\ (tier_rank (assign_tier (mkScore (Fin 91) (Fin 96)))
      <= tier_rank (assign_tier (mkScore (Fin 96) (Fin 99))))%nat.
Proof.
  split; [reflexivity|]. split; [reflexivity|].
  apply (assign_tier_monotonic (mkScore (Fin 96) (Fin 99)) (mkScore (Fin 91) (Fin 96)));
    reflexivity.
Defined.

(** The scenario of section 8: 96% on time, 99% filled is Platinum. *)
Example tier_scenario : assign_tier (mkScore (Fin 96) (Fin 99)) = Platinum.
Proof. reflexivity. Qed.

(** The tier is read off the rates before they are rounded for display:
    968 deliveries on time out of 1019 are 94.995...%, shown as 95.00 and
    below the Platinum threshold. *)
Example tier_before_rounding :
  assign_tier (mkScore (Fin (inject_Z 968 / inject_Z 1019 * 100)) (Fin 99)) = Gold
  /\ returned_rates (mkScore (Fin (inject_Z 968 / inject_Z 1019 * 100)) (Fin 99))
     = mkScore (Fin 95.00) (Fin 99.00).
Proof. split; reflexivity. Qed.

(** A missing fill rate ([0/0]) compares false with every threshold. *)
Example tier_nan : assign_tier (mkScore (Fin 100) NaN) = Bronze.
Proof. reflexivity. Qed.

End TierFacts.

(** ** Optional filters *)

Module FilterFacts.

Import Num Frame InventoryAnalytics DemandForecaster.

(** C9. Passing [0] as a filter identifier is the same as passing no
    filter: [prepare_demand_data] with [product_id = 0] or
    [warehouse_id = 0], and [calculate_inventory_turnover] with
    [warehouse_id = 0], return what the call without the argument returns,
    which is computed over every row. *)
Theorem zero_filter_is_no_filter (s : Snapshot) (product_id warehouse_id : option Z) :
  prepare_demand_data s (Some 0%Z) warehouse_id = prepare_demand_data s None warehouse_id
  /\ prepare_demand_data s product_id (Some 0%Z) = prepare_demand_data s product_id None
  /\ prepare_demand_data s (Some 0%Z) (Some 0%Z) = prepare_demand_data s None None
  /\ calculate_inventory_turnover s (Some 0%Z) = calculate_inventory_turnover s None
  /\ prepare_demand_data s None None
     = map (fun g => (fst g, sumN (map item_qty (snd g))))
           (groupby (cmp_pair Z.compare Z.compare)
                    (fun r => (SalesOrder.order_date (fst r),
                               SalesOrderItem.product_id (snd r)))
                    (sales_with_items s)).
Proof.
  repeat split; reflexivity.
Qed.

(** A non-zero identifier does filter. *)
Example nonzero_filter :
  prepare_demand_data Examples.two_products (Some 2%Z) None
  = [(100%Z, 2%Z, 1%N); (103%Z, 2%Z, 2%N)]
  /\ prepare_demand_data Examples.two_products (Some 0%Z) None
     = [(100%Z, 1%Z, 4%N); (100%Z, 2%Z, 1%N); (102%Z, 1%Z, 6%N); (103%Z, 2%Z, 2%N)].
Proof. split; reflexivity. Qed.

End FilterFacts.

(** ** Joins *)

Section FrameFacts.

Import Frame.

Context {A B : Type}.
Variable on : A -> B -> bool.

Lemma in_merge (a : A) (b : B) (l : list A) (r : list B) :
  In (a, b) (merge on l r) <-> In a l /\ In b r /\ on a b = true.
Proof.
  unfold merge. rewrite in_flat_map. split.
  - intros [a' [Ha Hin]]. apply in_map_iff in Hin. destruct Hin as [b' [E Hb]].
    inversion E; subst. apply filter_In in Hb. tauto.
  - intros [Ha [Hb Hon]]. exists a. split; [assumption|].
    apply in_map. apply filter_In. tauto.
Qed.

Lemma in_merge_left (a : A) (o : option B) (l : list A) (r : list B) :
  In (a, o) (merge_left on l r) ->
  In a l /\ match o with
            | Some b => In b r /\ on a b = true
            | None => True
            end.
Proof.
  unfold merge_left. rewrite in_flat_map. intros [a' [Ha Hin]].
  destruct (filter (on a') r) as [|b0 bs] eqn:F.
  - destruct Hin as [E|[]]. inversion E; subst. auto.
  - apply in_map_iff in Hin. destruct Hin as [b' [E Hb]].
    inversion E; subst. rewrite <- F in Hb. apply filter_In in Hb. tauto.
Qed.

(** Filtering the left frame before or after a join is the same. *)
Lemma filter_merge (f : A -> bool) (l : list A) (r : list B) :
  filter (fun p => f (fst p)) (merge on l r) = merge on (filter f l) r.
Proof.
  unfold merge. induction l as [|a l IH]; simpl; [reflexivity|].
  rewrite filter_app, IH. destruct (f a) eqn:E; simpl.
  - f_equal. induction (filter (on a) r) as [|b bs IHb]; simpl; [reflexivity|].
    rewrite E. now f_equal.
  - induction (filter (on a) r) as [|b bs IHb]; simpl; [reflexivity|].
    now rewrite E.
Qed.

Lemma filter_filter_keep (keep : B -> bool) (a : A) (r : list B) :
  (forall b, In b r -> on a b = true -> keep b = true) ->
  filter (on a) (filter keep r) = filter (on a) r.
Proof.
  induction r as [|b r IH]; simpl; intros H; [reflexivity|].
  assert (IH' : filter (on a) (filter keep r) = filter (on a) r)
    by (apply IH; intros b' Hb'; apply H; auto).
  destruct (keep b) eqn:K; simpl.
  - now rewrite IH'.
  - destruct (on a b) eqn:O; [|exact IH'].
    rewrite (H b (or_introl eq_refl) O) in K. discriminate.
Qed.

(** A join only looks at the right rows that match some left row. *)
Lemma merge_filter_right (keep : B -> bool) (l : list A) (r : list B) :
  (forall a b, In a l -> In b r -> on a b = true -> keep b = true) ->
  merge on l (filter keep r) = merge on l r.
Proof.
  unfold merge. induction l as [|a l IH]; simpl; intros H; [reflexivity|].
  f_equal.
  - f_equal. apply filter_filter_keep. intros b Hb. apply H; auto.
  - apply IH. intros a' b Ha'. apply H; auto.
Qed.

End FrameFacts.

(** ** Inventory turnover *)

Module TurnoverFacts.

Import Num Frame InventoryAnalytics Spec.

Lemma of_N_nonneg (n : N) : 0 <= of_N n.
Proof.
  unfold of_N. change 0 with (inject_Z 0). rewrite <- Zle_Qle. lia.
Qed.

Lemma cogs_annual_def (s : Snapshot) (c : cogs_row) :
  In c (cogs s) -> cg_cogs_annual c = of_N (cg_quantity_ordered c) * cg_unit_cost c.
Proof.
  unfold cogs. intros H. apply in_map_iff in H.
  destruct H as [[[k qty] p] [E _]]. subst c. reflexivity.
Qed.

(** Where a turnover row comes from. *)
Lemma turnover_row_origin (s : Snapshot) (warehouse_id : option Z) (r : turnover_row) :
  In r (calculate_inventory_turnover s warehouse_id) ->
  exists i c p w,
    r = turnover_row_of (i, c, p, w)
    /\ match c with Some c => In c (cogs s) | None => True end.
Proof.
  unfold calculate_inventory_turnover. intros H. apply in_map_iff in H.
  destruct H as [[[[i c] p] w] [E H]]. exists i, c, p, w. split; [now symmetry|].
  apply in_merge in H. destruct H as [H _].
  apply in_merge in H. destruct H as [H _].
  apply in_merge_left in H. destruct H as [_ H].
  destruct c; tauto.
Qed.

Lemma turnover_ratio_guarded (inventory_value cogs_annual : cell) :
  (cell_gtb inventory_value (Fin 0) = true
   /\ turnover_ratio_of inventory_value cogs_annual = cell_div cogs_annual inventory_value)
  \/ (cell_gtb inventory_value (Fin 0) = false
      /\ turnover_ratio_of inventory_value cogs_annual = Fin 0).
Proof.
  unfold turnover_ratio_of, np_where.
  destruct (cell_gtb inventory_value (Fin 0)); auto.
Qed.

Lemma days_of_supply_guarded (turnover_ratio : cell) :
  (cell_gtb turnover_ratio (Fin 0) = true
   /\ days_of_supply_of turnover_ratio = cell_div (Fin 365) turnover_ratio)
  \/ (cell_gtb turnover_ratio (Fin 0) = false
      /\ days_of_supply_of turnover_ratio = PInf).
Proof.
  unfold days_of_supply_of, np_where.
  destruct (cell_gtb turnover_ratio (Fin 0)); auto.
Qed.

(** The shape of the three computed columns of a row. *)
Lemma turnover_row_shape (s : Snapshot) (warehouse_id : option Z) (r : turnover_row) :
  In r (calculate_inventory_turnover s warehouse_id) ->
  t_turnover_ratio r = turnover_ratio_of (t_inventory_value r) (t_cogs_annual r)
  /\ t_days_of_supply r = days_of_supply_of (t_turnover_ratio r)
  /\ ((t_inventory_value r = NaN /\ t_cogs_annual r = Fin 0)
      \/ exists qty unit_cost : Q,
           0 <= qty
           /\ (exists on_hand, 0 <= on_hand /\ t_inventory_value r = Fin (on_hand * unit_cost))
           /\ t_cogs_annual r = Fin (qty * unit_cost)).
Proof.
  intros H. apply turnover_row_origin in H.
  destruct H as [i [c [p [w [E Hc]]]]]. subst r. simpl.
  split; [reflexivity|]. split; [reflexivity|].
  destruct c as [c|]; simpl.
  - right. exists (of_N (cg_quantity_ordered c)), (cg_unit_cost c).
    split; [apply of_N_nonneg|]. split.
    + exists (of_N (Inventory.quantity_on_hand i)). split; [apply of_N_nonneg|reflexivity].
    + now rewrite (cogs_annual_def s c Hc).
  - left. split; reflexivity.
Qed.

(** A ratio selected by the guard is a quotient by a positive number, of
    a non-negative number. *)
Lemma turnover_ratio_nonneg (s : Snapshot) (warehouse_id : option Z) (r : turnover_row) :
  In r (calculate_inventory_turnover s warehouse_id) ->
  exists q, t_turnover_ratio r = Fin q /\ 0 <= q.
Proof.
  intros H. destruct (turnover_row_shape s warehouse_id r H) as [Hr [_ Hs]].
  rewrite Hr. destruct Hs as [[Hv Hc]|[qty [uc [Hq [[oh [Hoh Hv]] Hc]]]]].
  - rewrite Hv. exists 0. split; [reflexivity|apply Qle_refl].
  - rewrite Hv, Hc. unfold turnover_ratio_of, np_where.
    destruct (cell_gtb (Fin (oh * uc)) (Fin 0)) eqn:G.
    + apply cell_gtb_fin in G.
      assert (Huc : 0 < uc) by nra.
      rewrite cell_div_fin by (intro E; rewrite E in G; apply (Qlt_irrefl _ G)).
      eexists. split; [reflexivity|].
      apply Qle_shift_div_l; [assumption|]. nra.
    + exists 0. split; [reflexivity|apply Qle_refl].
Qed.

(** C5. In every row of [calculate_inventory_turnover] the turnover ratio
    is a finite number that is at least 0; it is 0 when the inventory
    value is 0; the days of supply are exactly [365 / turnover_ratio] when
    the ratio is positive and infinite when it is 0.  The function is
    total: no input makes a division fail. *)
Theorem turnover_columns (s : Snapshot) (warehouse_id : option Z) (r : turnover_row) :
  In r (calculate_inventory_turnover s warehouse_id) ->
  exists ratio : Q,
    t_turnover_ratio r = Fin ratio
    /\ 0 <= ratio
    /\ (forall v, t_inventory_value r = Fin v -> v == 0 -> t_turnover_ratio r = Fin 0)
    /\ (0 < ratio -> t_days_of_supply r = Fin (365 / ratio))
    /\ (ratio == 0 -> t_days_of_supply r = PInf).
Proof.
  intros H. destruct (turnover_ratio_nonneg s warehouse_id r H) as [q [Hq Hpos]].
  destruct (turnover_row_shape s warehouse_id r H) as [Hr [Hd _]].
  exists q. split; [assumption|]. split; [assumption|]. split; [|split].
  - intros v Hv Hz. rewrite Hr, Hv. unfold turnover_ratio_of, np_where.
    destruct (cell_gtb (Fin v) (Fin 0)) eqn:G; [|reflexivity].
    apply cell_gtb_fin in G. rewrite Hz in G. exfalso. apply (Qlt_irrefl _ G).
  - intros Hlt. rewrite Hd, Hq. unfold days_of_supply_of, np_where.
    replace (cell_gtb (Fin q) (Fin 0)) with true by (symmetry; now apply cell_gtb_fin).
    apply cell_div_fin. intro E. rewrite E in Hlt. apply (Qlt_irrefl _ Hlt).
  - intros Hz. rewrite Hd, Hq. unfold days_of_supply_of, np_where.
    destruct (cell_gtb (Fin q) (Fin 0)) eqn:G; [|reflexivity].
    apply cell_gtb_fin in G. rewrite Hz in G. exfalso. apply (Qlt_irrefl _ G).
Qed.

Lemma turnover_columns_witness :
  let r := mkTurnover "WH-01" "SKU-00001" "Basic Lamp" 100 (Fin 1000) (Fin 40)
                      (Fin (40 # 1000)) (Fin (365000 # 40)) "Dead Stock" in
  In r (calculate_inventory_turnover Examples.two_products None)
  /\ exists ratio : Q,
       t_turnover_ratio r = Fin ratio
       /\ 0 <= ratio
       /\ (forall v, t_inventory_value r = Fin v -> v == 0 -> t_turnover_ratio r = Fin 0)
       /\ (0 < ratio -> t_days_of_supply r = Fin (365 / ratio))
       /\ (ratio == 0 -> t_days_of_supply r = PInf).
Proof.
  intros r. split.
  - vm_compute. left. reflexivity.
  - apply (turnover_columns Examples.two_products None r).
    vm_compute. left. reflexivity.
Defined.

(** A row without stock: ratio 0, infinite days of supply. *)
Example turnover_empty_shelf :
  map (fun r => (t_inventory_value r, t_turnover_ratio r, t_days_of_supply r))
      (calculate_inventory_turnover Examples.two_products (Some 2%Z))
  = [(Fin 0, Fin 0, PInf)].
Proof. reflexivity. Qed.

(** The quotient column is computed for every row, the guard selects:
    with nothing on hand the quotient [60 / 0] is infinite and the ratio
    returned is 0. *)
Example turnover_quotient_masked :
  cell_div (Fin 60) (Fin 0) = PInf
  /\ turnover_ratio_of (Fin 0) (Fin 60) = Fin 0.
Proof. split; reflexivity. Qed.

(** A product that was never sold has no unit cost after the left join:
    its inventory value is missing, its ratio 0. *)
Example turnover_never_sold :
  map (fun r => (t_inventory_value r, t_turnover_ratio r, t_days_of_supply r))
      (calculate_inventory_turnover Examples.pen_set None)
  = [(NaN, Fin 0, PInf)].
Proof. reflexivity. Qed.

End TurnoverFacts.

(** ** Casts that may raise *)

Section OutcomeFacts.

Import Num.

Context {A B : Type}.
Variable f : A -> outcome B.

Lemma traverse_ok (l : list A) :
  (forall a, In a l -> exists b, f a = Ok b) -> exists bs, traverse f l = Ok bs.
Proof.
  induction l as [|a l IH]; simpl; intros H.
  - now exists [].
  - destruct (H a (or_introl eq_refl)) as [b Hb].
    destruct IH as [bs Hbs]; [intros; apply H; auto|].
    exists (b :: bs). now rewrite Hb, Hbs.
Qed.

Lemma traverse_in (l : list A) (bs : list B) (b : B) :
  traverse f l = Ok bs -> In b bs -> exists a, In a l /\ f a = Ok b.
Proof.
  revert bs. induction l as [|a l IH]; simpl; intros bs H Hin.
  - inversion H; subst. destruct Hin.
  - destruct (f a) as [b0|] eqn:Fa; simpl in H; [|discriminate].
    destruct (traverse f l) as [bs0|] eqn:T; simpl in H; [|discriminate].
    inversion H; subst. destruct Hin as [E|Hin].
    + subst. exists a. auto.
    + destruct (IH bs0 eq_refl Hin) as [a' [Ha' Fa']]. exists a'. auto.
Qed.

End OutcomeFacts.

(** ** Guards on the divisions *)

Module GuardFacts.

Import Num Frame InventoryAnalytics Spec TurnoverFacts.

Lemma annual_demand_product (s : Snapshot) (k : Z) (d : N) (p : Product.t) :
  In (k, d, p) (annual_demand s) -> In p (products s).
Proof.
  unfold annual_demand. intros H. apply in_merge in H. tauto.
Qed.

Lemma eoq_radicand_fin (d : N) (ordering_cost h : Q) :
  0 < h ->
  eoq_radicand d ordering_cost h = Fin (2 * of_N d * ordering_cost / h).
Proof.
  intros Hh. unfold eoq_radicand. apply cell_div_fin.
  intro E. rewrite E in Hh. apply (Qlt_irrefl _ Hh).
Qed.

Lemma eoq_row_ok (ordering_cost holding_cost_rate : Q) (k : Z) (d : N) (p : Product.t) :
  0 <= ordering_cost ->
  0 < holding_cost_per_unit holding_cost_rate p ->
  exists r, eoq_row_of ordering_cost holding_cost_rate (k, d, p) = Ok r.
Proof.
  intros HS Hh. unfold eoq_row_of. rewrite (eoq_radicand_fin _ _ _ Hh).
  unfold sqrt_round_int.
  assert (Hq : 0 <= 2 * of_N d * ordering_cost / holding_cost_per_unit holding_cost_rate p).
  { apply Qle_shift_div_l; [assumption|]. pose proof (of_N_nonneg d). nra. }
  apply Qle_bool_iff in Hq. rewrite Hq. unfold bind. eexists. reflexivity.
Qed.

(** C2, as the code has it.  The two divisions of
    [calculate_inventory_turnover] are guarded: a turnover ratio is either
    a quotient by a positive inventory value or the constant 0, the days
    of supply either a quotient by a positive ratio or infinite.
    [calculate_eoq] has no guard of its own: its division is by a positive
    number, and the call returns a table, when the ordering cost is not
    negative and every product has a positive holding cost. *)
Theorem division_guards
  (s : Snapshot) (warehouse_id : option Z) (ordering_cost holding_cost_rate : Q) :
  (forall r, In r (calculate_inventory_turnover s warehouse_id) ->
     ((exists v c, t_inventory_value r = Fin v /\ 0 < v /\ t_cogs_annual r = Fin c
                   /\ t_turnover_ratio r = Fin (c / v))
      \/ (cell_gtb (t_inventory_value r) (Fin 0) = false /\ t_turnover_ratio r = Fin 0))
     /\ ((exists q, t_turnover_ratio r = Fin q /\ 0 < q
                    /\ t_days_of_supply r = Fin (365 / q))
         \/ (cell_gtb (t_turnover_ratio r) (Fin 0) = false /\ t_days_of_supply r = PInf)))
  /\ (0 <= ordering_cost ->
      (forall p, In p (products s) -> 0 < holding_cost_per_unit holding_cost_rate p) ->
      eoq_division_guarded s holding_cost_rate
      /\ exists rows, calculate_eoq s ordering_cost holding_cost_rate = Ok rows).
Proof.
  split.
  - intros r H.
    destruct (turnover_row_shape s warehouse_id r H) as [Hr [Hd Hs]].
    destruct (turnover_ratio_nonneg s warehouse_id r H) as [q [Hq _]].
    split.
    + destruct (turnover_ratio_guarded (t_inventory_value r) (t_cogs_annual r))
        as [[G E]|[G E]]; [left|right; rewrite Hr; auto].
      destruct Hs as [[Hv _]|[qty [uc [_ [[oh [_ Hv]] Hc]]]]].
      * rewrite Hv in G. discriminate.
      * rewrite Hv in G. apply cell_gtb_fin in G.
        exists (oh * uc), (qty * uc). repeat split; try assumption.
        rewrite Hr, E, Hv, Hc. apply cell_div_fin.
        intro Z. rewrite Z in G. apply (Qlt_irrefl _ G).
    + destruct (days_of_supply_guarded (t_turnover_ratio r)) as [[G E]|[G E]];
        [left|right; rewrite Hd; auto].
      rewrite Hq in G. apply cell_gtb_fin in G.
      exists q. repeat split; try assumption.
      rewrite Hd, E, Hq. apply cell_div_fin.
      intro Z. rewrite Z in G. apply (Qlt_irrefl _ G).
  - intros HS Hh. split.
    + unfold eoq_division_guarded, eoq_divisors. apply Forall_forall.
      intros h Hin. apply in_map_iff in Hin. destruct Hin as [[[k d] p] [E Hin]].
      subst h. apply Hh. exact (annual_demand_product s k d p Hin).
    + unfold calculate_eoq. apply traverse_ok. intros [[k d] p] Hin.
      apply eoq_row_ok; [assumption|].
      apply Hh. exact (annual_demand_product s k d p Hin).
Qed.

Lemma division_guards_witness :
  let r := mkTurnover "WH-01" "SKU-00001" "Basic Lamp" 100 (Fin 1000) (Fin 40)
                      (Fin (40 # 1000)) (Fin (365000 # 40)) "Dead Stock" in
  (In r (calculate_inventory_turnover Examples.two_products None)
   /\ ((exists v c, t_inventory_value r = Fin v /\ 0 < v /\ t_cogs_annual r = Fin c
                     /\ t_turnover_ratio r = Fin (c / v))
        \/ (cell_gtb (t_inventory_value r) (Fin 0) = false /\ t_turnover_ratio r = Fin 0))
   /\ ((exists q, t_turnover_ratio r = Fin q /\ 0 < q
                   /\ t_days_of_supply r = Fin (365 / q))
        \/ (cell_gtb (t_turnover_ratio r) (Fin 0) = false /\ t_days_of_supply r = PInf)))
  /\ 0 <= 50
  /\ (forall p, In p (products Examples.two_products) ->
                 0 < holding_cost_per_unit 0.25 p)
  /\ eoq_division_guarded Examples.two_products 0.25
  /\ exists rows, calculate_eoq Examples.two_products 50 0.25 = Ok rows.
Proof.
  intros r.
  assert (Hin : In r (calculate_inventory_turnover Examples.two_products None))
    by (vm_compute; left; reflexivity).
  assert (H0 : 0 <= 50) by (vm_compute; discriminate).
  assert (Hp : forall p, In p (products Examples.two_products) ->
                         0 < holding_cost_per_unit 0.25 p).
  { intros p [E|[E|[]]]; subst p; reflexivity. }
  split; [split; [exact Hin|]|].
  - exact (proj1 (division_guards Examples.two_products None 50 0.25) r Hin).
  - split; [exact H0|]. split; [exact Hp|].
    exact (proj2 (division_guards Examples.two_products None 50 0.25) H0 Hp).
Defined.

(** C2, as stated, fails: for a product whose unit cost is 0,
    [calculate_eoq] divides by a holding cost of 0; the quotient is
    infinite and the integer cast of the column raises. *)
Lemma eoq_division_unguarded :
  ~ eoq_division_guarded Examples.free_sample 0.25
  /\ eoq_divisors Examples.free_sample 0.25 = [0 * 0.25]
  /\ eoq_radicand 1 50 (0 * 0.25) = PInf
  /\ calculate_eoq Examples.free_sample 50 0.25 = IntCastingNaNError.
Proof.
  split; [|repeat split; reflexivity].
  unfold eoq_division_guarded. intros H.
  change (eoq_divisors Examples.free_sample 0.25) with [0 * 0.25] in H.
  inversion H as [|h l Hh _]; subst. vm_compute in Hh. discriminate.
Qed.

End GuardFacts.

(** ** Rounding *)

Section RoundFacts.

Import Num.

Lemma rint_error (x : Q) : Qabs (inject_Z (rint x) - x) <= 1 # 2.
Proof.
  unfold rint.
  pose proof (Qfloor_le x) as Hlo. pose proof (Qlt_floor x) as Hhi.
  rewrite inject_Z_plus in Hhi. change (inject_Z 1) with 1 in Hhi.
  set (f := Qfloor x) in *.
  apply Qabs_Qle_condition.
  destruct (Qcompare (x - inject_Z f) (1 # 2)) eqn:C.
  - apply Qeq_alt in C.
    destruct (Z.even f);
      [|rewrite inject_Z_plus; change (inject_Z 1) with 1]; split; lra.
  - apply Qlt_alt in C. split; lra.
  - apply Qgt_alt in C. rewrite inject_Z_plus. change (inject_Z 1) with 1.
    split; lra.
Qed.

Lemma rint_ties_to_even (x : Q) :
  Qabs (inject_Z (rint x) - x) == 1 # 2 -> Z.even (rint x) = true.
Proof.
  unfold rint.
  pose proof (Qfloor_le x) as Hlo. pose proof (Qlt_floor x) as Hhi.
  rewrite inject_Z_plus in Hhi. change (inject_Z 1) with 1 in Hhi.
  set (f := Qfloor x) in *.
  destruct (Qcompare (x - inject_Z f) (1 # 2)) eqn:C.
  - intros _. destruct (Z.even f) eqn:E; [exact E|].
    rewrite Z.even_add, E. reflexivity.
  - apply Qlt_alt in C. intros H. exfalso.
    assert (K : Qabs (inject_Z f - x) == x - inject_Z f).
    { setoid_replace (inject_Z f - x) with (- (x - inject_Z f)) by ring.
      rewrite Qabs_opp. apply Qabs_pos. lra. }
    rewrite K in H. lra.
  - apply Qgt_alt in C. intros H. exfalso.
    rewrite inject_Z_plus in H. change (inject_Z 1) with 1 in H.
    assert (K : Qabs (inject_Z f + 1 - x) == inject_Z f + 1 - x)
      by (apply Qabs_pos; lra).
    rewrite K in H. lra.
Qed.

Lemma round_dp_2_error (x : Q) : Qabs (round_dp 2 x - x) <= 1 # 200.
Proof.
  unfold round_dp. change (pow10 2) with 100.
  pose proof (rint_error (x * 100)) as H.
  apply Qabs_Qle_condition in H. apply Qabs_Qle_condition.
  set (n := inject_Z (rint (x * 100))) in *.
  assert (E : n / 100 == n * (1 # 100)) by (unfold Qdiv; reflexivity).
  rewrite E. split; lra.
Qed.

End RoundFacts.

(** ** Carrying costs *)

Module CarryingFacts.

Import Num Frame InventoryAnalytics Spec.

(** Before the money columns are rounded the decomposition is exact. *)
Lemma carrying_summary_identities (s : Snapshot) (u : carrying_row) :
  In u (carrying_summary s) -> carrying_identities u.
Proof.
  unfold carrying_summary. intros H. apply in_map_iff in H.
  destruct H as [[[[code name] cat] rows] [E _]]. subst u.
  unfold carrying_identities. simpl.
  repeat split; try reflexivity. lra.
Qed.

Lemma round_money_within (u : carrying_row) : within_half_cent (round_money u) u.
Proof.
  unfold within_half_cent. repeat constructor; simpl; apply round_dp_2_error.
Qed.

(** C7, as the code has it.  Every returned row is the rounding to two
    decimals of a row on which the decomposition is exact: there the five
    components are 8%, 5%, 3%, 2% and 2% of the inventory value, they add
    up to the total, the total is 20% of the inventory value and the
    monthly cost is a twelfth of the total.  Each returned money value is
    within half a cent of the exact one. *)
Theorem carrying_costs_rounded (s : Snapshot) (r : carrying_row) :
  In r (calculate_carrying_costs s) ->
  exists u,
    In u (carrying_summary s)
    /\ r = round_money u
    /\ carrying_identities u
    /\ within_half_cent r u.
Proof.
  unfold calculate_carrying_costs. intros H. apply in_map_iff in H.
  destruct H as [u [E Hu]]. exists u. subst r.
  split; [assumption|]. split; [reflexivity|]. split.
  - exact (carrying_summary_identities s u Hu).
  - apply round_money_within.
Qed.

Lemma carrying_costs_rounded_witness :
  let r := mkCarrying "WH-01" "Main" "Office" 1 1 5.13 0.41 0.26 0.15 0.10 0.10 1.03 0.09 in
  In r (calculate_carrying_costs Examples.pen_set)
  /\ exists u,
       In u (carrying_summary Examples.pen_set)
       /\ r = round_money u
       /\ carrying_identities u
       /\ within_half_cent r u.
Proof.
  intros r. split.
  - vm_compute. left. reflexivity.
  - apply (carrying_costs_rounded Examples.pen_set r).
    vm_compute. left. reflexivity.
Defined.

(** C7, as stated, fails on the returned values: with one unit on hand
    of a product that costs 5.13, the capital cost 0.41 is not 8% of 5.13,
    the components add up to 1.02 and not to the total 1.03, and the
    monthly cost 0.09 is not a twelfth of 1.03. *)
Lemma carrying_identities_rounded_away :
  calculate_carrying_costs Examples.pen_set
  = [mkCarrying "WH-01" "Main" "Office" 1 1 5.13 0.41 0.26 0.15 0.10 0.10 1.03 0.09]
  /\ ~ carrying_identities
       (mkCarrying "WH-01" "Main" "Office" 1 1 5.13 0.41 0.26 0.15 0.10 0.10 1.03 0.09)
  /\ ~ 0.41 == 5.13 * 0.08
  /\ ~ 0.41 + 0.26 + 0.15 + 0.10 + 0.10 == 1.03
  /\ ~ 0.09 == 1.03 / 12.
Proof.
  split; [reflexivity|]. split; [|repeat split; intro H; vm_compute in H; discriminate].
  intros [H _]. vm_compute in H. discriminate.
Qed.

End CarryingFacts.

(** ** Lead times in the reorder points *)

Module LeadTimeFacts.

Import Num Frame InventoryAnalytics.

(** The purchase orders have no influence on the reorder points: the
    lead-time statistics are computed and then left aside. *)
Lemma reorder_points_ignore_purchase_orders
  (ps : list Product.t) (inv : list Inventory.t) (so : list SalesOrder.t)
  (soi : list SalesOrderItem.t) (pos pos' : list PurchaseOrder.t)
  (wh : list Warehouse.t) (cat : list Category.t) (z_score : Q) (lookback_days : Z) :
  calculate_reorder_points (mkSnapshot ps inv so soi pos wh cat) z_score lookback_days
  = calculate_reorder_points (mkSnapshot ps inv so soi pos' wh cat) z_score lookback_days.
Proof.
  reflexivity.
Qed.

(** Every row carries the static lead time of a product of the catalogue. *)
Lemma avg_lead_time_static (s : Snapshot) (z_score : Q) (lookback_days : Z) (r : reorder_row) :
  In r (calculate_reorder_points s z_score lookback_days) ->
  exists p, In p (products s) /\ ro_avg_lead_time r = Product.lead_time_days p.
Proof.
  unfold calculate_reorder_points. intros H. apply in_map_iff in H.
  destruct H as [[[[d i] p] w] [E H]]. exists p. subst r. split; [|reflexivity].
  apply in_merge in H. destruct H as [H _].
  apply in_merge in H. tauto.
Qed.

(** C1 on the snapshot [Examples.lamp].  The supplier has delivered two
    purchase orders, after 8 and 12 days: [lead_time_stats] finds a mean
    lead time of 10 days with variance 8.  The returned row nevertheless
    has the static lead time of 5 days (and a deviation of 20% of it): a
    safety stock of 10 and a reorder point of 35, where the mean and
    deviation of the actual lead times give 24 and 74. *)
Theorem static_lead_time_despite_history :
  (exists m v,
     lead_time_stats (purchase_orders Examples.lamp)
     = [mkLeadTimeStat 1 (Fin m) (Some (Root v))] /\ m == 10 /\ v == 8)
  /\ map (fun r => (ro_avg_lead_time r, ro_safety_stock r, ro_calculated_rop r))
         (calculate_reorder_points Examples.lamp Examples.z_95 90)
     = [(5%N, 10%Z, 35%Z)]
  /\ rint_surd (safety_stock_of Examples.z_95 5 (Root 2) 5 (5 * 0.2)) = 10%Z
  /\ rint_surd (mkSurd 0 Examples.z_95 (10 * 2 + 5 * 5 * 8)) = 24%Z
  /\ rint_surd (mkSurd (5 * 10) Examples.z_95 (10 * 2 + 5 * 5 * 8)) = 74%Z.
Proof.
  split.
  - eexists. eexists. split; [vm_compute; reflexivity|]. split; reflexivity.
  - repeat split; reflexivity.
Qed.

End LeadTimeFacts.

(** ** Sums, sorting and cumulative sums *)

Section SumFacts.

Import Num Frame.

Lemma fold_left_Qplus (l : list Q) (a : Q) : fold_left Qplus l a == a + sumQ l.
Proof.
  unfold sumQ. revert a. induction l as [|x l IH]; simpl; intros a.
  - lra.
  - rewrite (IH (a + x)), (IH (0 + x)). lra.
Qed.

Lemma sumQ_cons (x : Q) (l : list Q) : sumQ (x :: l) == x + sumQ l.
Proof.
  unfold sumQ at 1. simpl. rewrite fold_left_Qplus. lra.
Qed.

Lemma sumQ_perm (l l' : list Q) : Permutation l l' -> sumQ l == sumQ l'.
Proof.
  induction 1 as [|x l l' _ IH|x y l|l l' l'' _ IH1 _ IH2].
  - reflexivity.
  - rewrite !sumQ_cons, IH. reflexivity.
  - rewrite !sumQ_cons. lra.
  - now rewrite IH1.
Qed.

Lemma sumQ_snoc (l : list Q) (x : Q) : sumQ (l ++ [x]) = sumQ l + x.
Proof.
  unfold sumQ. now rewrite fold_left_app.
Qed.

Lemma cumsum_snoc (l : list Q) (x acc : Q) :
  cumsum acc (l ++ [x]) = cumsum acc l ++ [fold_left Qplus l acc + x].
Proof.
  revert acc. induction l as [|y l IH]; simpl; intros acc; [reflexivity|].
  now rewrite IH.
Qed.

Lemma cumsum_length (l : list Q) (acc : Q) : List.length (cumsum acc l) = List.length l.
Proof.
  revert acc. induction l as [|y l IH]; simpl; intros acc; [reflexivity|].
  now rewrite IH.
Qed.

Lemma combine_snoc {A B : Type} (l : list A) (l' : list B) (a : A) (b : B) :
  List.length l = List.length l' ->
  combine (l ++ [a]) (l' ++ [b]) = combine l l' ++ [(a, b)].
Proof.
  revert l'. induction l as [|x l IH]; intros [|y l'] H; simpl in *;
    try discriminate; [reflexivity|].
  f_equal. apply IH. now injection H.
Qed.

Context {R : Type}.
Variable by_col : R -> Q.

Lemma insert_desc_perm (r : R) (l : list R) :
  Permutation (insert_desc by_col r l) (r :: l).
Proof.
  induction l as [|x l IH]; simpl; [reflexivity|].
  destruct (Qle_bool (by_col x) (by_col r)); [reflexivity|].
  rewrite IH. apply perm_swap.
Qed.

Lemma sort_values_desc_perm (l : list R) : Permutation (sort_values_desc by_col l) l.
Proof.
  induction l as [|x l IH]; simpl; [reflexivity|].
  rewrite insert_desc_perm. now constructor.
Qed.

End SumFacts.

(** ** ABC classes *)

Module AbcFacts.

Import Num Frame InventoryAnalytics.

(** The last row of the sorted frame holds the whole revenue. *)
Lemma classify_revenue_last (a_threshold b_threshold : Q) (revs : list revenue) :
  revs <> [] ->
  exists init sorted_init last,
    sort_values_desc r_total_revenue revs = sorted_init ++ [last]
    /\ classify_revenue a_threshold b_threshold revs
       = init ++
         [let total := sumQ (map r_total_revenue sorted_init) + r_total_revenue last in
          let pct := cell_mul (cell_div (Fin total) (Fin total)) (Fin 100) in
          mkClassified last total pct (assign_class a_threshold b_threshold pct)].
Proof.
  intros Hne. unfold classify_revenue.
  pose proof (sort_values_desc_perm r_total_revenue revs) as P.
  destruct (exists_last (l := sort_values_desc r_total_revenue revs)) as [si [x E]].
  { intro E. rewrite E in P. apply Permutation_nil in P. contradiction. }
  rewrite E. exists
    (map (fun rc =>
            let pct := cell_mul (cell_div (Fin (snd rc))
                                          (Fin (sumQ (map r_total_revenue (si ++ [x])))))
                                (Fin 100) in
            mkClassified (fst rc) (snd rc) pct (assign_class a_threshold b_threshold pct))
         (combine si (cumsum 0 (map r_total_revenue si)))), si, x.
  split; [reflexivity|].
  assert (Em : map r_total_revenue (si ++ [x])
               = map r_total_revenue si ++ [r_total_revenue x]) by apply map_app.
  rewrite Em, cumsum_snoc.
  rewrite combine_snoc by (now rewrite cumsum_length, length_map).
  rewrite map_app. simpl. rewrite sumQ_snoc. reflexivity.
Qed.

Lemma pct_of_total (t : Q) :
  0 < t ->
  exists pct, cell_mul (cell_div (Fin t) (Fin t)) (Fin 100) = Fin pct /\ pct == 100.
Proof.
  intros H. rewrite cell_div_fin by (intro E; rewrite E in H; apply (Qlt_irrefl _ H)).
  simpl. eexists. split; [reflexivity|]. field.
  intro E. rewrite E in H. apply (Qlt_irrefl _ H).
Qed.

Lemma assign_class_100 (pct : Q) : pct == 100 -> assign_class 80 95 (Fin pct) = "C"%string.
Proof.
  intros E. unfold assign_class, cell_leb. simpl. rewrite !E. reflexivity.
Qed.

(** C10. When the revenue of the trailing window is positive, the last
    row of the frame sorted by descending revenue has a cumulative
    percentage of 100 and, with the default thresholds 80 and 95, the
    class "C"; the returned table has that row for every catalogue entry
    of its product.  In particular a product that is alone in the window
    is classed "C". *)
Theorem last_product_is_class_C (s : Snapshot) (lookback_days : Z) :
  let revs := product_revenue (recent_sales s lookback_days) in
  0 < sumQ (map r_total_revenue revs) ->
  exists init last pct,
    classify_revenue 80 95 revs = init ++ [last]
    /\ c_cumulative_pct last = Fin pct
    /\ pct == 100
    /\ c_abc_class last = "C"%string
    /\ (forall p, In p (products s) ->
                  Product.product_id p = r_product_id (c_revenue last) ->
                  In (mkAbcRow (r_product_id (c_revenue last)) (Product.sku p)
                               (Product.product_name p)
                               (r_quantity_ordered (c_revenue last))
                               (r_total_revenue (c_revenue last)) (Fin pct) "C")
                     (calculate_abc_classification s lookback_days 80 95))
    /\ (forall r, revs = [r] -> init = [] /\ c_revenue last = r).
Proof.
  intros revs Hpos.
  assert (Hne : revs <> []).
  { intro E. rewrite E in Hpos. vm_compute in Hpos. discriminate. }
  destruct (classify_revenue_last 80 95 revs Hne) as [init [si [x [Es Ec]]]].
  assert (Ht : 0 < sumQ (map r_total_revenue si) + r_total_revenue x).
  { rewrite <- sumQ_snoc, <- map_last, <- Es.
    rewrite (sumQ_perm _ (map r_total_revenue revs)); [assumption|].
    apply Permutation_map. apply sort_values_desc_perm. }
  destruct (pct_of_total _ Ht) as [pct [Ep E100]].
  cbv zeta in Ec. rewrite Ep, (assign_class_100 pct E100) in Ec.
  eexists init, _, pct. split; [exact Ec|]. simpl.
  split; [reflexivity|]. split; [assumption|]. split; [reflexivity|]. split.
  - intros p Hp Hid. unfold calculate_abc_classification. fold revs. rewrite Ec.
    apply in_map_iff.
    exists (mkClassified x (sumQ (map r_total_revenue si) + r_total_revenue x)
                         (Fin pct) "C", p).
    split; [reflexivity|]. apply in_merge. split; [|split].
    + apply in_or_app. right. left. reflexivity.
    + assumption.
    + simpl. rewrite Hid. apply Z.eqb_refl.
  - intros r Er.
    assert (Hs : sort_values_desc r_total_revenue revs = [r]) by (rewrite Er; reflexivity).
    rewrite Hs in Es.
    assert (Hl : List.length (init ++ [mkClassified x (sumQ (map r_total_revenue si) + r_total_revenue x) (Fin pct) "C"]) = 1%nat).
    { rewrite <- Ec. unfold classify_revenue. rewrite Hs. reflexivity. }
    destruct si as [|y si].
    + simpl in Es. inversion Es; subst x.
      destruct init as [|c init]; [split; reflexivity|].
      simpl in Hl. rewrite length_app in Hl. simpl in Hl. lia.
    + simpl in Es. inversion Es as [[E1 E2]]. destruct si; discriminate.
Qed.

Lemma last_product_is_class_C_witness :
  0 < sumQ (map r_total_revenue
                (product_revenue (recent_sales Examples.two_products 365)))
  /\ exists init last pct,
       classify_revenue 80 95 (product_revenue (recent_sales Examples.two_products 365))
       = init ++ [last]
       /\ c_cumulative_pct last = Fin pct
       /\ pct == 100
       /\ c_abc_class last = "C"%string
       /\ (forall p, In p (products Examples.two_products) ->
                     Product.product_id p = r_product_id (c_revenue last) ->
                     In (mkAbcRow (r_product_id (c_revenue last)) (Product.sku p)
                                  (Product.product_name p)
                                  (r_quantity_ordered (c_revenue last))
                                  (r_total_revenue (c_revenue last)) (Fin pct) "C")
                        (calculate_abc_classification Examples.two_products 365 80 95))
       /\ (forall r, product_revenue (recent_sales Examples.two_products 365) = [r] ->
                     init = [] /\ c_revenue last = r).
Proof.
  split; [reflexivity|].
  apply (last_product_is_class_C Examples.two_products 365). reflexivity.
Defined.

(** A product that is alone in the window: 100% of the revenue, class
    "C". *)
Example sole_product_class :
  map (fun r => (abc_product_id r, abc_class r))
      (calculate_abc_classification Examples.lamp 365 80 95)
  = [(1%Z, "C"%string)].
Proof. reflexivity. Qed.

(** The scenario of section 8: with every order of the window cancelled
    the classification is empty. *)
Example abc_all_cancelled :
  calculate_abc_classification Examples.all_cancelled 365 80 95 = [].
Proof. reflexivity. Qed.

End AbcFacts.

(** ** Cancelled orders *)

Module CancelFacts.

Import Num Frame InventoryAnalytics DemandForecaster Spec.

Lemma NoDup_map_inj {A B : Type} (f : A -> B) (l : list A) (x y : A) :
  NoDup (map f l) -> In x l -> In y l -> f x = f y -> x = y.
Proof.
  induction l as [|a l IH]; simpl; intros Hnd Hx Hy E; [destruct Hx|].
  inversion Hnd as [|? ? Hnotin Hnd']; subst.
  destruct Hx as [Hx|Hx], Hy as [Hy|Hy]; subst.
  - reflexivity.
  - exfalso. apply Hnotin. rewrite E. now apply in_map.
  - exfalso. apply Hnotin. rewrite <- E. now apply in_map.
  - now apply IH.
Qed.

Lemma filter_filter_and {A : Type} (f g : A -> bool) (l : list A) :
  filter (fun x => f x && g x) (filter g l) = filter (fun x => f x && g x) l.
Proof.
  induction l as [|a l IH]; simpl; [reflexivity|].
  destruct (g a) eqn:G; simpl; rewrite ?G, ?andb_false_r, ?IH; reflexivity.
Qed.

Lemma filter_idem {A : Type} (g : A -> bool) (l : list A) :
  filter g (filter g l) = filter g l.
Proof.
  induction l as [|a l IH]; simpl; [reflexivity|].
  destruct (g a) eqn:G; simpl; rewrite ?G, ?IH; reflexivity.
Qed.

(** The items of an order that is kept are kept. *)
Lemma items_of_kept_order (s : Snapshot) (o : SalesOrder.t) (i : SalesOrderItem.t) :
  so_id_key s ->
  In o (sales_orders s) -> not_cancelled o = true -> on_so_id o i = true ->
  negb (cancelled_id (sales_orders s) (SalesOrderItem.so_id i)) = true.
Proof.
  intros Hkey Ho Hnc Hon. apply negb_true_iff.
  destruct (cancelled_id (sales_orders s) (SalesOrderItem.so_id i)) eqn:C; [|reflexivity].
  unfold cancelled_id in C. apply existsb_exists in C.
  destruct C as [o' [Ho' Hc]]. apply andb_true_iff in Hc. destruct Hc as [Hid Hc].
  apply Z.eqb_eq in Hid. unfold on_so_id in Hon. apply Z.eqb_eq in Hon.
  assert (E : o' = o).
  { apply (NoDup_map_inj SalesOrder.so_id (sales_orders s)); try assumption. congruence. }
  subst o'. rewrite Hnc in Hc. discriminate.
Qed.

Lemma sales_with_items_merge (s : Snapshot) :
  sales_with_items s
  = merge on_so_id (filter not_cancelled (sales_orders s)) (sales_order_items s).
Proof.
  unfold sales_with_items. apply filter_merge.
Qed.

Lemma sales_with_items_drop (s : Snapshot) :
  so_id_key s -> sales_with_items (drop_cancelled s) = sales_with_items s.
Proof.
  intros Hkey. rewrite !sales_with_items_merge. simpl.
  rewrite filter_idem. apply merge_filter_right.
  intros o i Ho Hi Hon. apply filter_In in Ho. destruct Ho as [Ho Hnc].
  now apply (items_of_kept_order s o i).
Qed.

Lemma recent_sales_drop (s : Snapshot) (lookback_days : Z) :
  so_id_key s -> latest_order_kept s ->
  recent_sales (drop_cancelled s) lookback_days = recent_sales s lookback_days.
Proof.
  intros Hkey Hlast. unfold recent_sales, cutoff_date. simpl.
  unfold latest_order_kept in Hlast. rewrite Hlast.
  rewrite filter_filter_and. apply merge_filter_right.
  intros o i Ho Hi Hon. apply filter_In in Ho. destruct Ho as [Ho Hnc].
  apply andb_true_iff in Hnc. destruct Hnc as [_ Hnc].
  now apply (items_of_kept_order s o i).
Qed.

(** C8, as the code has it.  With [so_id] the key of the order table,
    deleting the cancelled orders and their items changes neither the
    COGS and the turnover table, nor the annual demand and the EOQ table,
    nor the daily series.  The two analyses with a trailing window, whose
    cutoff is taken from the latest order date of the whole table, are
    unchanged when that date is also the date of an order that is not
    cancelled. *)
Theorem cancelled_orders_excluded (s : Snapshot) :
  so_id_key s ->
  (cogs (drop_cancelled s) = cogs s
   /\ (forall w, calculate_inventory_turnover (drop_cancelled s) w
                 = calculate_inventory_turnover s w)
   /\ annual_demand (drop_cancelled s) = annual_demand s
   /\ (forall c h, calculate_eoq (drop_cancelled s) c h = calculate_eoq s c h)
   /\ (forall p w, prepare_demand_data (drop_cancelled s) p w = prepare_demand_data s p w))
  /\ (latest_order_kept s ->
      forall lookback_days,
        (forall a b, calculate_abc_classification (drop_cancelled s) lookback_days a b
                     = calculate_abc_classification s lookback_days a b)
        /\ demand_stats (recent_sales (drop_cancelled s) lookback_days)
           = demand_stats (recent_sales s lookback_days)
        /\ (forall z, calculate_reorder_points (drop_cancelled s) z lookback_days
                      = calculate_reorder_points s z lookback_days)).
Proof.
  intros Hkey.
  pose proof (sales_with_items_drop s Hkey) as E.
  assert (Ec : cogs (drop_cancelled s) = cogs s) by (unfold cogs; now rewrite E).
  assert (Ea : annual_demand (drop_cancelled s) = annual_demand s)
    by (unfold annual_demand; now rewrite E).
  split; [repeat split|].
  - exact Ec.
  - intros w. unfold calculate_inventory_turnover. now rewrite Ec.
  - exact Ea.
  - intros c h. unfold calculate_eoq. now rewrite Ea.
  - intros p w. unfold prepare_demand_data. now rewrite E.
  - intros Hlast lookback_days.
    pose proof (recent_sales_drop s lookback_days Hkey Hlast) as Er.
    repeat split.
    + intros a b. unfold calculate_abc_classification. now rewrite Er.
    + now rewrite Er.
    + intros z. unfold calculate_reorder_points. now rewrite Er.
Qed.

Lemma cancelled_orders_excluded_witness :
  so_id_key Examples.two_products
  /\ latest_order_kept Examples.two_products
  /\ calculate_inventory_turnover (drop_cancelled Examples.two_products) None
     = calculate_inventory_turnover Examples.two_products None
  /\ calculate_abc_classification (drop_cancelled Examples.two_products) 365 80 95
     = calculate_abc_classification Examples.two_products 365 80 95.
Proof.
  assert (Hkey : so_id_key Examples.two_products).
  { unfold so_id_key. simpl. repeat constructor; simpl; intuition lia. }
  assert (Hlast : latest_order_kept Examples.two_products) by reflexivity.
  split; [exact Hkey|]. split; [exact Hlast|]. split.
  - exact (proj1 (proj2 (proj1 (cancelled_orders_excluded Examples.two_products Hkey))) None).
  - exact (proj1 (proj2 (cancelled_orders_excluded Examples.two_products Hkey) Hlast 365%Z) 80 95).
Defined.

(** C8, as stated, fails for the analyses with a trailing window: in
    [Examples.late_cancel] the latest order, of day 400, is cancelled.
    With it the window of 365 days starts on day 35 and holds the order
    of day 300 only (5 units); without it the window is anchored on day
    300 and holds the order of day 0 as well (12 units).  The same shift
    changes the demand statistics over 90 days. *)
Lemma cancelled_order_moves_window :
  map abc_quantity_ordered
      (calculate_abc_classification Examples.late_cancel 365 80 95) = [5%N]
  /\ map abc_quantity_ordered
         (calculate_abc_classification (drop_cancelled Examples.late_cancel) 365 80 95)
     = [12%N]
  /\ calculate_abc_classification (drop_cancelled Examples.late_cancel) 365 80 95
     <> calculate_abc_classification Examples.late_cancel 365 80 95
  /\ demand_stats (recent_sales Examples.late_cancel 90) = []
  /\ demand_stats (recent_sales (drop_cancelled Examples.late_cancel) 90)
     <> demand_stats (recent_sales Examples.late_cancel 90).
Proof.
  split; [reflexivity|]. split; [reflexivity|]. split; [|split; [reflexivity|]].
  - intros H. apply (f_equal (map abc_quantity_ordered)) in H.
    vm_compute in H. discriminate.
  - intros H. apply (f_equal (@List.length _)) in H. vm_compute in H. discriminate.
Qed.

End CancelFacts.

(** ** Rounded square roots *)

Section SurdFacts.

Import Num.

Lemma inject_Z_succ (z : Z) : inject_Z (z + 1) == inject_Z z + 1.
Proof.
  rewrite inject_Z_plus. reflexivity.
Qed.

Lemma inject_Z_pred (z : Z) : inject_Z (z - 1) == inject_Z z - 1.
Proof.
  unfold Z.sub. rewrite inject_Z_plus. reflexivity.
Qed.

Lemma inject_Z_nonneg (z : Z) : (0 <= z)%Z -> 0 <= inject_Z z.
Proof.
  intros H. change 0 with (inject_Z 0). now rewrite <- Zle_Qle.
Qed.

Lemma inject_Z_ge_1 (z : Z) : (1 <= z)%Z -> 1 <= inject_Z z.
Proof.
  intros H. change 1 with (inject_Z 1). now rewrite <- Zle_Qle.
Qed.

(** The integer square root of the floor brackets a non-negative
    rational. *)
Lemma sqrt_floor_bracket (w : Q) :
  0 <= w ->
  let r := inject_Z (Z.sqrt (Qfloor w)) in
  0 <= r /\ r * r <= w /\ w < (r + 1) * (r + 1).
Proof.
  intros Hw r.
  assert (Hf : (0 <= Qfloor w)%Z).
  { change 0%Z with (Qfloor 0). now apply Qfloor_resp_le. }
  pose proof (Z.sqrt_spec (Qfloor w) Hf) as [Hlo Hhi]. cbv zeta in Hlo, Hhi.
  pose proof (Z.sqrt_nonneg (Qfloor w)) as Hr.
  pose proof (Qfloor_le w) as Fl. pose proof (Qlt_floor w) as Fh.
  split; [now apply inject_Z_nonneg|]. split.
  - apply Qle_trans with (inject_Z (Qfloor w)); [|assumption].
    unfold r. rewrite <- inject_Z_mult, <- Zle_Qle. assumption.
  - apply Qlt_le_trans with (inject_Z (Qfloor w + 1)); [assumption|].
    unfold r. rewrite <- inject_Z_succ, <- inject_Z_mult, <- Zle_Qle. lia.
Qed.

Lemma surd_geb_sqrt (x c : Q) :
  surd_geb (mkSurd 0 1 x) c = true <-> c <= 0 \/ c * c <= x.
Proof.
  unfold surd_geb. simpl. rewrite orb_true_iff, !Qle_bool_iff.
  split; intros [H|H]; [left|right|left|right]; lra.
Qed.

Lemma surd_leb_sqrt (x c : Q) :
  surd_leb (mkSurd 0 1 x) c = true <-> 0 <= c /\ x <= c * c.
Proof.
  unfold surd_leb, surd_geb. simpl. rewrite andb_true_iff, !Qle_bool_iff.
  split; intros [H1 H2]; split; lra.
Qed.

Lemma floor_surd_sqrt (x : Q) :
  0 <= x -> floor_surd (mkSurd 0 1 x) = Z.sqrt (Qfloor (1 * 1 * x)).
Proof.
  intros Hx. unfold floor_surd. simpl s_coef. simpl s_rat. simpl s_rad.
  change (Qle_bool 0 1) with true. change (Qfloor 0) with 0%Z. cbv iota.
  assert (Hw : 0 <= 1 * 1 * x) by lra.
  destruct (sqrt_floor_bracket _ Hw) as [H0 [_ Hhi]].
  set (r := Z.sqrt (Qfloor (1 * 1 * x))) in *.
  destruct (surd_geb (mkSurd 0 1 x) (inject_Z (0 + r + 1))) eqn:G; [|lia].
  exfalso. apply surd_geb_sqrt in G.
  replace (0 + r + 1)%Z with (r + 1)%Z in G by lia. rewrite inject_Z_succ in G.
  destruct G as [G|G]; lra.
Qed.

(** [round_sqrt x] is an integer nearest to the square root of [x]. *)
Lemma round_sqrt_spec (x : Q) :
  0 <= x ->
  let n := inject_Z (round_sqrt x) in
  0 <= n
  /\ x <= (n + (1 # 2)) * (n + (1 # 2))
  /\ (1 <= n -> (n - (1 # 2)) * (n - (1 # 2)) <= x).
Proof.
  intros Hx. unfold round_sqrt, rint_surd. rewrite (floor_surd_sqrt x Hx).
  assert (Hw : 0 <= 1 * 1 * x) by lra.
  destruct (sqrt_floor_bracket _ Hw) as [H0 [Hlo Hhi]].
  set (f := Z.sqrt (Qfloor (1 * 1 * x))) in *.
  set (F := inject_Z f) in *.
  destruct (surd_geb (mkSurd 0 1 x) (F + (1 # 2))) eqn:G.
  - apply surd_geb_sqrt in G. destruct G as [G|G]; [exfalso; lra|].
    destruct (surd_leb (mkSurd 0 1 x) (F + (1 # 2))) eqn:L.
    + apply surd_leb_sqrt in L. destruct L as [_ L].
      destruct (Z.even f); cbv zeta; [fold F|rewrite inject_Z_succ; fold F];
        (split; [|split; [|intro]]); nra.
    + cbv zeta. rewrite inject_Z_succ. fold F. (split; [|split; [|intro]]); nra.
  - cbv zeta. fold F.
    assert (G' : ~ (F + (1 # 2) <= 0 \/ (F + (1 # 2)) * (F + (1 # 2)) <= x)).
    { intro K. apply surd_geb_sqrt in K. congruence. }
    assert (x < (F + (1 # 2)) * (F + (1 # 2))).
    { apply Qnot_le_lt. intro K. apply G'. now right. }
    (split; [|split; [|intro]]); nra.
Qed.

End SurdFacts.

(** ** The real numbers behind the rounded square roots *)

Section SurdSemantics.

Import Num.

Local Open Scope R_scope.

Lemma Q2R_inject_Z (z : Z) : Q2R (inject_Z z) = IZR z.
Proof.
  unfold Q2R. simpl. field.
Qed.

Lemma Q2R_zero : Q2R 0 = 0.
Proof.
  unfold Q2R. simpl. field.
Qed.

Lemma Q2R_half : Q2R (1 # 2) = / 2.
Proof.
  unfold Q2R. simpl. field.
Qed.

Lemma Qle_bool_Rle (x y : Q) : Qle_bool x y = true <-> Q2R x <= Q2R y.
Proof.
  rewrite Qle_bool_iff. split; [apply Qle_Rle|apply Rle_Qle].
Qed.

Lemma Qle_bool_Rlt (x y : Q) : Qle_bool x y = false <-> Q2R y < Q2R x.
Proof.
  rewrite Qle_bool_false. split; [apply Qlt_Rlt|apply Rlt_Qlt].
Qed.

Lemma le_pos_root (t b S : R) :
  0 <= b -> 0 <= S -> (t <= b * S <-> t <= 0 \/ t * t <= b * b * (S * S)).
Proof.
  intros Hb HS. assert (0 <= b * S) by nra. split.
  - intros H0. destruct (Rle_dec t 0); [now left|right]. nra.
  - intros [H0|H0]; [lra|]. destruct (Rle_dec t (b * S)); [assumption|]. nra.
Qed.

Lemma le_neg_root (t b S : R) :
  b < 0 -> 0 <= S -> (t <= b * S <-> t <= 0 /\ b * b * (S * S) <= t * t).
Proof.
  intros Hb HS. assert (b * S <= 0) by nra. split.
  - intros H0. split; [lra|nra].
  - intros [H0 H1]. destruct (Rle_dec t (b * S)); [assumption|]. nra.
Qed.

Variable s : surd.
Hypothesis rad_nonneg : (0 <= s_rad s)%Q.

Local Abbreviation a := (Q2R (s_rat s)).
Local Abbreviation b := (Q2R (s_coef s)).

Lemma root_facts :
  0 <= sqrt (Q2R (s_rad s))
  /\ sqrt (Q2R (s_rad s)) * sqrt (Q2R (s_rad s)) = Q2R (s_rad s).
Proof.
  split; [apply sqrt_pos|]. apply sqrt_sqrt.
  rewrite <- Q2R_zero. now apply Qle_Rle.
Qed.

Lemma surd_value_eq : surd_value s = a + b * sqrt (Q2R (s_rad s)).
Proof.
  reflexivity.
Qed.

(** [surd_geb] and [surd_leb] compare a rational with the real value. *)
Lemma surd_geb_correct (c : Q) : surd_geb s c = true <-> Q2R c <= surd_value s.
Proof.
  rewrite surd_value_eq. destruct root_facts as [HS ES].
  set (S := sqrt (Q2R (s_rad s))) in *. unfold surd_geb.
  destruct (Qle_bool 0 (s_coef s)) eqn:B.
  - apply Qle_bool_Rle in B. rewrite Q2R_zero in B.
    rewrite orb_true_iff, !Qle_bool_Rle, Q2R_zero, !Q2R_mult, Q2R_minus.
    rewrite <- ES.
    rewrite <- (le_pos_root (Q2R c - a) b S B HS). split; lra.
  - apply Qle_bool_Rlt in B. rewrite Q2R_zero in B.
    rewrite andb_true_iff, !Qle_bool_Rle, Q2R_zero, !Q2R_mult, Q2R_minus.
    rewrite <- ES.
    rewrite <- (le_neg_root (Q2R c - a) b S B HS). split; lra.
Qed.

Lemma surd_leb_correct (c : Q) : surd_leb s c = true <-> surd_value s <= Q2R c.
Proof.
  rewrite surd_value_eq. destruct root_facts as [HS ES].
  set (S := sqrt (Q2R (s_rad s))) in *. unfold surd_leb, surd_geb.
  simpl s_rat. simpl s_coef. simpl s_rad.
  destruct (Qle_bool 0 (- s_coef s)) eqn:B.
  - apply Qle_bool_Rle in B. rewrite Q2R_zero, Q2R_opp in B.
    rewrite orb_true_iff, !Qle_bool_Rle, Q2R_zero, !Q2R_mult, Q2R_minus, !Q2R_opp.
    rewrite <- ES.
    assert (Hb : 0 <= - b) by lra.
    rewrite <- (le_pos_root (- Q2R c - - a) (- b) S Hb HS). split; lra.
  - apply Qle_bool_Rlt in B. rewrite Q2R_zero, Q2R_opp in B.
    rewrite andb_true_iff, !Qle_bool_Rle, Q2R_zero, !Q2R_mult, Q2R_minus, !Q2R_opp.
    rewrite <- ES.
    assert (Hb : - b < 0) by lra.
    rewrite <- (le_neg_root (- Q2R c - - a) (- b) S Hb HS). split; lra.
Qed.

Lemma floor_bracket_R (x : Q) : IZR (Qfloor x) <= Q2R x < IZR (Qfloor x) + 1.
Proof.
  split.
  - rewrite <- Q2R_inject_Z. apply Qle_Rle, Qfloor_le.
  - replace (IZR (Qfloor x) + 1) with (Q2R (inject_Z (Qfloor x + 1))).
    + apply Qlt_Rlt, Qlt_floor.
    + rewrite Q2R_inject_Z, plus_IZR. reflexivity.
Qed.

(** The integer square root brackets [|b| S]. *)
Lemma isqrt_bracket_R :
  let r := IZR (Z.sqrt (Qfloor (s_coef s * s_coef s * s_rad s))) in
  let S := sqrt (Q2R (s_rad s)) in
  0 <= r /\ r * r <= b * b * (S * S) /\ b * b * (S * S) < (r + 1) * (r + 1).
Proof.
  destruct root_facts as [HS ES]. intros r0 S0. subst r0.
  set (S := sqrt (Q2R (s_rad s))) in *. subst S0.
  assert (Hw : (0 <= s_coef s * s_coef s * s_rad s)%Q).
  { apply Qmult_le_0_compat; [|assumption].
    destruct (Qlt_le_dec (s_coef s) 0) as [L|L]; [|now apply Qmult_le_0_compat].
    apply Qlt_le_weak in L.
    setoid_replace (s_coef s * s_coef s)%Q with ((- s_coef s) * (- s_coef s))%Q by ring.
    apply Qmult_le_0_compat; lra. }
  destruct (sqrt_floor_bracket _ Hw) as [H0 [Hlo Hhi]].
  apply Qle_Rle in H0, Hlo. apply Qlt_Rlt in Hhi.
  rewrite !Q2R_mult in Hlo, Hhi. rewrite !Q2R_plus in Hhi.
  rewrite Q2R_zero, ?Q2R_inject_Z in H0.
  rewrite ?Q2R_inject_Z in Hlo, Hhi.
  replace (Q2R 1) with 1 in Hhi by (unfold Q2R; simpl; field).
  rewrite <- ES in Hlo, Hhi.
  cbv zeta. repeat split; assumption.
Qed.

(** [floor_surd] is the floor of the real value. *)
Lemma floor_surd_correct :
  IZR (floor_surd s) <= surd_value s < IZR (floor_surd s) + 1.
Proof.
  rewrite surd_value_eq.
  destruct root_facts as [HS ES]. destruct isqrt_bracket_R as [Hr [Hlo Hhi]].
  cbv zeta in Hr, Hlo, Hhi. set (S := sqrt (Q2R (s_rad s))) in *.
  pose proof (floor_bracket_R (s_rat s)) as [Fa Fb].
  unfold floor_surd.
  set (r := Z.sqrt (Qfloor (s_coef s * s_coef s * s_rad s))) in *.
  set (fa := Qfloor (s_rat s)) in *.
  destruct (Qle_bool 0 (s_coef s)) eqn:B.
  - apply Qle_bool_Rle in B. rewrite Q2R_zero in B.
    assert (Hb : IZR r <= b * S < IZR r + 1).
    { assert (0 <= b * S) by nra. split.
      - destruct (Rle_dec (IZR r) (b * S)); [assumption|]. nra.
      - destruct (Rlt_dec (b * S) (IZR r + 1)); [assumption|]. nra. }
    destruct (surd_geb s (inject_Z (fa + r + 1))) eqn:G.
    + apply surd_geb_correct in G. rewrite Q2R_inject_Z, surd_value_eq in G.
      fold S in G. rewrite !plus_IZR in *. lra.
    + assert (G' : ~ Q2R (inject_Z (fa + r + 1)) <= surd_value s).
      { intro K. apply surd_geb_correct in K. congruence. }
      rewrite Q2R_inject_Z, surd_value_eq in G'. fold S in G'.
      replace (fa + r + 1 - 1)%Z with (fa + r)%Z by lia.
      rewrite !plus_IZR in *. lra.
  - apply Qle_bool_Rlt in B. rewrite Q2R_zero in B.
    assert (Hb : - IZR r - 1 < b * S <= - IZR r).
    { assert (b * S <= 0) by nra. split.
      - destruct (Rlt_dec (- IZR r - 1) (b * S)); [assumption|]. nra.
      - destruct (Rle_dec (b * S) (- IZR r)); [assumption|]. nra. }
    destruct (surd_geb s (inject_Z (fa - r))) eqn:G.
    + apply surd_geb_correct in G. rewrite Q2R_inject_Z, surd_value_eq in G.
      fold S in G. rewrite !minus_IZR in *. lra.
    + assert (G' : ~ Q2R (inject_Z (fa - r)) <= surd_value s).
      { intro K. apply surd_geb_correct in K. congruence. }
      rewrite Q2R_inject_Z, surd_value_eq in G'. fold S in G'.
      rewrite !minus_IZR in *. simpl IZR. lra.
Qed.

(** [rint_surd] is an integer nearest to the real value, the even one of
    the two when the value is half-way. *)
Theorem rint_surd_nearest :
  Rabs (IZR (rint_surd s) - surd_value s) <= / 2
  /\ (Rabs (IZR (rint_surd s) - surd_value s) = / 2 -> Z.even (rint_surd s) = true).
Proof.
  pose proof floor_surd_correct as [Flo Fhi].
  unfold rint_surd. set (f := floor_surd s) in *.
  assert (Eh : Q2R (inject_Z f + (1 # 2)) = IZR f + / 2)
    by now rewrite Q2R_plus, Q2R_inject_Z, Q2R_half.
  destruct (surd_geb s (inject_Z f + (1 # 2))) eqn:G.
  - apply surd_geb_correct in G. rewrite Eh in G.
    destruct (surd_leb s (inject_Z f + (1 # 2))) eqn:L.
    + apply surd_leb_correct in L. rewrite Eh in L.
      assert (Ev : surd_value s = IZR f + / 2) by lra.
      destruct (Z.even f) eqn:E.
      * split; [|intros _; exact E]. rewrite Ev.
        replace (IZR f - (IZR f + / 2)) with (- / 2) by lra.
        rewrite Rabs_Ropp, Rabs_pos_eq; lra.
      * split.
        -- rewrite Ev, plus_IZR.
           replace (IZR f + 1 - (IZR f + / 2)) with (/ 2) by lra.
           rewrite Rabs_pos_eq; lra.
        -- intros _. rewrite Z.even_add, E. reflexivity.
    + assert (L' : ~ surd_value s <= Q2R (inject_Z f + (1 # 2))).
      { intro K. apply surd_leb_correct in K. congruence. }
      rewrite Eh in L'. rewrite plus_IZR. split.
      * apply Rabs_le. lra.
      * intros K. exfalso. revert K. unfold Rabs.
        destruct (Rcase_abs (IZR f + 1 - surd_value s)); lra.
  - assert (G' : ~ Q2R (inject_Z f + (1 # 2)) <= surd_value s).
    { intro K. apply surd_geb_correct in K. congruence. }
    rewrite Eh in G'. split.
    + apply Rabs_le. lra.
    + intros K. exfalso. revert K. unfold Rabs.
      destruct (Rcase_abs (IZR f - surd_value s)); lra.
Qed.

End SurdSemantics.

(** [round_sqrt x] is an integer nearest to the real square root. *)
Corollary round_sqrt_nearest (x : Q) :
  (0 <= x)%Q ->
  (Rabs (IZR (Num.round_sqrt x) - sqrt (Q2R x)) <= / 2)%R.
Proof.
  intros Hx. pose proof (rint_surd_nearest (Num.mkSurd 0 1 x) Hx) as [H _].
  unfold Num.round_sqrt. unfold Num.surd_value in H. simpl in H.
  replace (Q2R 0 + Q2R 1 * sqrt (Q2R x))%R with (sqrt (Q2R x)) in H; [exact H|].
  unfold Q2R at 2 3. simpl. field.
Qed.

(** ** Economic order quantity *)

Module EoqFacts.

Import Num Frame InventoryAnalytics Spec TurnoverFacts GuardFacts.

(** The quantity of a returned row is the rounded square root of
    [2 D S / H]. *)
Lemma eoq_row_quantity (s : Snapshot) (ordering_cost holding_cost_rate : Q)
  (rows : list eoq_row) (r : eoq_row) :
  calculate_eoq s ordering_cost holding_cost_rate = Ok rows ->
  In r rows ->
  0 < ordering_cost ->
  0 < e_unit_cost r * holding_cost_rate ->
  e_eoq r = round_sqrt (2 * of_N (e_annual_demand r) * ordering_cost
                        / (e_unit_cost r * holding_cost_rate)).
Proof.
  unfold calculate_eoq. intros Hc Hin HS Hh.
  destruct (traverse_in _ _ _ _ Hc Hin) as [[[k d] p] [_ Hr]].
  unfold eoq_row_of in Hr.
  destruct (sqrt_round_int (eoq_radicand d ordering_cost
                                         (holding_cost_per_unit holding_cost_rate p)))
    as [n|] eqn:E; simpl in Hr; [|discriminate].
  inversion Hr; subst r; clear Hr. simpl in *.
  unfold holding_cost_per_unit in E.
  rewrite (eoq_radicand_fin d ordering_cost _ Hh) in E. simpl in E.
  destruct (Qle_bool 0 (2 * of_N d * ordering_cost / (Product.unit_cost p * holding_cost_rate)));
    [|discriminate].
  now inversion E.
Qed.

Lemma total_cost_fin (D S H : Q) (q : Z) :
  (1 <= q)%Z ->
  total_cost D S H q = Fin (D * S / inject_Z q + H * inject_Z q / 2).
Proof.
  intros Hq. unfold total_cost. rewrite cell_div_fin; [reflexivity|].
  pose proof (inject_Z_ge_1 q Hq). intro E. rewrite E in H0. lra.
Qed.

Lemma total_cost_zero (D S H : Q) : 0 < D * S -> total_cost D S H 0 = PInf.
Proof.
  intros H0. unfold total_cost. simpl.
  replace (is_zero (D * S)) with false
    by (symmetry; apply is_zero_false; intro E; rewrite E in H0; apply (Qlt_irrefl _ H0)).
  replace (Qle_bool 0 (D * S)) with true
    by (symmetry; apply Qle_bool_iff; now apply Qlt_le_weak).
  reflexivity.
Qed.

(** Costs of neighbouring quantities [m] and [m' = m + 1]: the
    difference of the ordering parts is [D S / (m (m + 1))]. *)
Lemma cost_step (DS H m m' : Q) :
  0 < m -> m' == m + 1 ->
  (H * m * (m + 1) <= 2 * DS ->
   DS / m' + H * m' / 2 <= DS / m + H * m / 2)
  /\ (2 * DS <= H * m * (m + 1) + H * (1 # 4) ->
      DS / m + H * m / 2 <= DS / m' + H * m' / 2 + H / (8 * m * (m + 1)))
  /\ (2 * DS <= H * m * (m + 1) <->
      DS / m + H * m / 2 <= DS / m' + H * m' / 2).
Proof.
  intros Hm Em. rewrite Em.
  assert (Hmm : 0 < 2 * m * (m + 1)) by nra.
  split; [|split; [|split]]; intros K.
  - assert (E : DS / m + H * m / 2 - (DS / (m + 1) + H * (m + 1) / 2)
                == (2 * DS - H * m * (m + 1)) / (2 * m * (m + 1))) by (field; lra).
    assert (P : 0 <= (2 * DS - H * m * (m + 1)) / (2 * m * (m + 1)))
      by (apply Qle_shift_div_l; [exact Hmm|lra]).
    lra.
  - assert (E : DS / (m + 1) + H * (m + 1) / 2 + H / (8 * m * (m + 1))
                - (DS / m + H * m / 2)
                == (H * m * (m + 1) + H * (1 # 4) - 2 * DS) / (2 * m * (m + 1)))
      by (field; lra).
    assert (P : 0 <= (H * m * (m + 1) + H * (1 # 4) - 2 * DS) / (2 * m * (m + 1)))
      by (apply Qle_shift_div_l; [exact Hmm|lra]).
    lra.
  - assert (E : DS / (m + 1) + H * (m + 1) / 2 - (DS / m + H * m / 2)
                == (H * m * (m + 1) - 2 * DS) / (2 * m * (m + 1))) by (field; lra).
    assert (P : 0 <= (H * m * (m + 1) - 2 * DS) / (2 * m * (m + 1)))
      by (apply Qle_shift_div_l; [exact Hmm|lra]).
    lra.
  - assert (E : (DS / (m + 1) + H * (m + 1) / 2 - (DS / m + H * m / 2))
                * (2 * m * (m + 1))
                == H * m * (m + 1) - 2 * DS) by (field; lra).
    nra.
Qed.

(** C3, as the code has it.  For a row with [D > 0], [S > 0], [H > 0]
    and an order quantity of at least one unit, the quantity costs no
    more than one unit less.  One unit more may be cheaper, by at most
    [H / (8 eoq (eoq + 1))]: the quantity is the nearest integer to the
    minimiser [sqrt (2 D S / H)] of the cost, and it costs no more than
    one unit more exactly when [2 D S / H <= eoq (eoq + 1)]. *)
Theorem eoq_near_local_minimum
  (s : Snapshot) (ordering_cost holding_cost_rate : Q) (rows : list eoq_row) (r : eoq_row) :
  calculate_eoq s ordering_cost holding_cost_rate = Ok rows ->
  In r rows ->
  let D := of_N (e_annual_demand r) in
  let H := e_unit_cost r * holding_cost_rate in
  let q := e_eoq r in
  0 < D -> 0 < ordering_cost -> 0 < H -> (1 <= q)%Z ->
  cell_leb (total_cost D ordering_cost H q) (total_cost D ordering_cost H (q - 1)) = true
  /\ (exists c c',
        total_cost D ordering_cost H q = Fin c
        /\ total_cost D ordering_cost H (q + 1) = Fin c'
        /\ c <= c' + H / (8 * inject_Z q * (inject_Z q + 1)))
  /\ (2 * D * ordering_cost / H <= inject_Z q * (inject_Z q + 1) <->
      cell_leb (total_cost D ordering_cost H q) (total_cost D ordering_cost H (q + 1))
      = true).
Proof.
  intros Hc Hin D H q HD HS HH Hq.
  pose proof (eoq_row_quantity s ordering_cost holding_cost_rate rows r Hc Hin HS HH) as Eq.
  fold D H q in Eq.
  set (x := 2 * D * ordering_cost / H) in *.
  assert (Hx : 0 <= x) by (apply Qle_shift_div_l; [assumption|nra]).
  assert (ExH : x * H == 2 * (D * ordering_cost)) by (unfold x; field; lra).
  destruct (round_sqrt_spec x Hx) as [_ [Hup Hlo]]. cbv zeta in Hup, Hlo.
  rewrite <- Eq in Hup, Hlo.
  pose proof (inject_Z_ge_1 q Hq) as HN. specialize (Hlo HN).
  set (N := inject_Z q) in *.
  assert (Hlo' : H * ((N - (1 # 2)) * (N - (1 # 2))) <= 2 * (D * ordering_cost)) by nra.
  assert (Hup' : 2 * (D * ordering_cost) <= H * ((N + (1 # 2)) * (N + (1 # 2)))) by nra.
  rewrite (total_cost_fin D ordering_cost H q Hq). fold N.
  rewrite (total_cost_fin D ordering_cost H (q + 1)) by lia.
  pose proof (inject_Z_succ q) as Es. fold N in Es.
  destruct (cost_step (D * ordering_cost) H N (inject_Z (q + 1))) as [_ [Hslack Hright]];
    [lra|exact Es|].
  split; [|split].
  - destruct (Z.eq_dec q 1) as [E1|E1].
    + rewrite E1. change (1 - 1)%Z with 0%Z.
      rewrite total_cost_zero by nra. reflexivity.
    + rewrite (total_cost_fin D ordering_cost H (q - 1)) by lia.
      unfold cell_leb. simpl. apply Qle_bool_iff.
      pose proof (inject_Z_pred q) as Ep. fold N in Ep.
      assert (HN2 : 2 <= N).
      { unfold N. change 2 with (inject_Z 2). rewrite <- Zle_Qle. lia. }
      destruct (cost_step (D * ordering_cost) H (inject_Z (q - 1)) N) as [Hleft _];
        [lra|lra|].
      apply Hleft. rewrite Ep. nra.
  - eexists. eexists. split; [reflexivity|]. split; [reflexivity|].
    apply Hslack. nra.
  - unfold cell_leb. simpl. rewrite Qle_bool_iff, <- Hright.
    split; intros K; nra.
Qed.

Lemma eoq_near_local_minimum_witness :
  let r := mkEoq "SKU-00001" "Basic Lamp" 10 10 20 (Fin (5 # 10)) (Fin (730 # 1))
                 (Fin (5000 # 100)) in
  calculate_eoq Examples.lamp 50 0.25 = Ok [r]
  /\ In r [r]
  /\ 0 < of_N 10 /\ 0 < 50 /\ 0 < 10 * 0.25 /\ (1 <= 20)%Z
  /\ cell_leb (total_cost (of_N 10) 50 (10 * 0.25) 20)
              (total_cost (of_N 10) 50 (10 * 0.25) (20 - 1)) = true
  /\ (exists c c',
        total_cost (of_N 10) 50 (10 * 0.25) 20 = Fin c
        /\ total_cost (of_N 10) 50 (10 * 0.25) (20 + 1) = Fin c'
        /\ c <= c' + 10 * 0.25 / (8 * inject_Z 20 * (inject_Z 20 + 1)))
  /\ (2 * of_N 10 * 50 / (10 * 0.25) <= inject_Z 20 * (inject_Z 20 + 1) <->
      cell_leb (total_cost (of_N 10) 50 (10 * 0.25) 20)
               (total_cost (of_N 10) 50 (10 * 0.25) (20 + 1)) = true).
Proof.
  intros r.
  assert (Hc : calculate_eoq Examples.lamp 50 0.25 = Ok [r]) by (vm_compute; reflexivity).
  assert (Hin : In r [r]) by (left; reflexivity).
  split; [exact Hc|]. split; [exact Hin|].
  split; [reflexivity|]. split; [reflexivity|]. split; [reflexivity|].
  split; [vm_compute; discriminate|].
  apply (eoq_near_local_minimum Examples.lamp 50 0.25 [r] r Hc Hin);
    try reflexivity.
  vm_compute; discriminate.
Defined.

(** C3, as stated, fails: with an annual demand of one unit of a product
    that costs 190 (holding cost 47.5) and an ordering cost of 50,
    [sqrt (2 D S / H)] is about 1.45 and the returned quantity is 1, but
    ordering two units at a time costs 72.5 and one unit 73.75. *)
Lemma eoq_not_local_minimum :
  calculate_eoq Examples.laptop 50 0.25
  = Ok [mkEoq "SKU-00001" "Premium Laptop" 190 1 1 (Fin (10 # 10)) (Fin (365 # 1))
              (Fin (6892 # 100))]
  /\ ~ local_minimum (of_N 1) 50 (190 * 0.25) 1
  /\ (exists c1 c2,
        total_cost (of_N 1) 50 (190 * 0.25) 1 = Fin c1 /\ c1 == 73.75
        /\ total_cost (of_N 1) 50 (190 * 0.25) 2 = Fin c2 /\ c2 == 72.5).
Proof.
  split; [vm_compute; reflexivity|]. split.
  - intros [_ H]. vm_compute in H. discriminate.
  - eexists. eexists. split; [vm_compute; reflexivity|]. split; [reflexivity|].
    split; [vm_compute; reflexivity|reflexivity].
Qed.

(** The scenario of section 8: D = 1200, S = 50, H = 5 give 155 units,
    7.7 orders a year and 47 days between orders. *)
Example eoq_scenario :
  calculate_eoq Examples.bulk_seller 50 0.25
  = Ok [mkEoq "SKU-00001" "Paper Ream" 20 1200 155 (Fin (77 # 10)) (Fin (47 # 1))
              (Fin (77460 # 100))].
Proof. vm_compute. reflexivity. Qed.

End EoqFacts.

(** ** Reorder points *)

Module ReorderFacts.

Import Num Frame InventoryAnalytics Spec TurnoverFacts.

Lemma floor_surd_ge (s : surd) :
  0 <= s_coef s -> (Qfloor (s_rat s) <= floor_surd s)%Z.
Proof.
  intros Hb. unfold floor_surd. apply Qle_bool_iff in Hb. rewrite Hb.
  pose proof (Z.sqrt_nonneg (Qfloor (s_coef s * s_coef s * s_rad s))).
  destruct (surd_geb s _); lia.
Qed.

Lemma rint_surd_ge_floor (s : surd) : (floor_surd s <= rint_surd s)%Z.
Proof.
  unfold rint_surd.
  destruct (surd_geb s _); [|lia].
  destruct (surd_leb s _); [|lia].
  destruct (Z.even _); lia.
Qed.

(** With a non-negative coefficient the rounded value is at most one
    half below the rational part. *)
Lemma rint_surd_lower (s : surd) :
  0 <= s_coef s -> s_rat s - (1 # 2) <= inject_Z (rint_surd s).
Proof.
  intros Hb. pose proof (floor_surd_ge s Hb) as Hf.
  pose proof (Qlt_floor (s_rat s)) as Ha. rewrite inject_Z_succ in Ha.
  assert (HF : inject_Z (Qfloor (s_rat s)) <= inject_Z (floor_surd s))
    by now rewrite <- Zle_Qle.
  unfold rint_surd. set (f := floor_surd s) in *. set (F := inject_Z f) in *.
  destruct (surd_geb s (F + (1 # 2))) eqn:G.
  - destruct (surd_leb s (F + (1 # 2))) eqn:L.
    + assert (Hhalf : s_rat s <= F + (1 # 2)).
      { unfold surd_leb, surd_geb in L. simpl in L.
        destruct (Qle_bool 0 (- s_coef s)) eqn:C.
        - apply Qle_bool_iff in C. apply orb_true_iff in L.
          destruct L as [L|L]; apply Qle_bool_iff in L; [lra|].
          assert (Z0 : s_coef s == 0) by lra.
          rewrite Z0 in L. nra.
        - apply andb_true_iff in L. destruct L as [L _].
          apply Qle_bool_iff in L. lra. }
      destruct (Z.even f); [fold F|rewrite inject_Z_succ; fold F]; lra.
    + rewrite inject_Z_succ. fold F. lra.
  - fold F. unfold surd_geb in G. apply Qle_bool_iff in Hb. rewrite Hb in G.
    apply orb_false_iff in G. destruct G as [G _].
    apply Qle_bool_false in G. lra.
Qed.

(** Where a reorder row comes from. *)
Lemma reorder_row_origin (s : Snapshot) (z_score : Q) (lookback_days : Z) (r : reorder_row) :
  In r (calculate_reorder_points s z_score lookback_days) ->
  exists d i p w, r = reorder_row_of z_score (d, i, p, w).
Proof.
  unfold calculate_reorder_points. intros H. apply in_map_iff in H.
  destruct H as [[[[d i] p] w] [E _]]. exists d, i, p, w. now symmetry.
Qed.

(** C4, as the code has it.  When the z-score is not negative (a service
    level of at least 0.5), every returned row has a safety stock of at
    least 0 and a reorder point that is at least the integer part of
    [avg_daily_demand * avg_lead_time] and at most one half below that
    product: the reorder point is the sum rounded to the nearest
    integer. *)
Theorem reorder_point_bounds
  (s : Snapshot) (z_score : Q) (lookback_days : Z) (r : reorder_row) :
  0 <= z_score ->
  In r (calculate_reorder_points s z_score lookback_days) ->
  (0 <= ro_safety_stock r)%Z
  /\ ro_avg_daily_demand r * of_N (ro_avg_lead_time r) - (1 # 2)
     <= inject_Z (ro_calculated_rop r)
  /\ (Qfloor (ro_avg_daily_demand r * of_N (ro_avg_lead_time r))
      <= ro_calculated_rop r)%Z.
Proof.
  intros Hz H. destruct (reorder_row_origin s z_score lookback_days r H)
    as [d [i [p [w E]]]].
  subst r. simpl. split; [|split].
  - eapply Z.le_trans; [|apply rint_surd_ge_floor].
    exact (floor_surd_ge (safety_stock_of _ _ _ _ _) Hz).
  - exact (rint_surd_lower (calculated_rop_of _ _ _ _ _) Hz).
  - eapply Z.le_trans; [|apply rint_surd_ge_floor].
    exact (floor_surd_ge (calculated_rop_of _ _ _ _ _) Hz).
Qed.

Lemma reorder_point_bounds_witness :
  let r := mkReorder "WH-01" "SKU-00001" "Basic Lamp" 100 (10 # 2) 5 10 20 35
                     "Increase ROP" in
  0 <= Examples.z_95
  /\ In r (calculate_reorder_points Examples.lamp Examples.z_95 90)
  /\ (0 <= ro_safety_stock r)%Z
  /\ ro_avg_daily_demand r * of_N (ro_avg_lead_time r) - (1 # 2)
     <= inject_Z (ro_calculated_rop r)
  /\ (Qfloor (ro_avg_daily_demand r * of_N (ro_avg_lead_time r))
      <= ro_calculated_rop r)%Z.
Proof.
  intros r.
  assert (Hz : 0 <= Examples.z_95) by (vm_compute; discriminate).
  assert (Hin : In r (calculate_reorder_points Examples.lamp Examples.z_95 90))
    by (vm_compute; left; reflexivity).
  split; [exact Hz|]. split; [exact Hin|].
  exact (reorder_point_bounds Examples.lamp Examples.z_95 90 r Hz Hin).
Defined.

(** C4, as stated, fails.  At the default service level: thirty days of
    sales, one unit a day and two on the last, with a lead time of one
    day, give [avg_daily_demand * avg_lead_time = 31/30] and a sum of
    about 1.487 with the safety stock, which is rounded to a reorder
    point of 1.  Below a service level of 0.5 the z-score is negative
    and so is the safety stock. *)
Lemma reorder_point_below_demand :
  map (fun r => (Qred (ro_avg_daily_demand r), ro_avg_lead_time r, ro_calculated_rop r))
      (calculate_reorder_points Examples.slow_mover Examples.z_95 90)
  = [(31 # 30, 1%N, 1%Z)]
  /\ ~ (31 # 30) * of_N 1 <= inject_Z 1
  /\ map ro_safety_stock (calculate_reorder_points Examples.lamp Examples.z_30 90)
     = [(-3)%Z]
  /\ ~ (0 <= -3)%Z.
Proof.
  split; [vm_compute; reflexivity|]. split; [|split; [vm_compute; reflexivity|lia]].
  intros H. vm_compute in H. apply H. reflexivity.
Qed.

End ReorderFacts.

(** * Further properties of the analyses *)

(** ** Group-by *)

Section GroupByFacts.

Import Num Frame Groups.

Context {K R : Type}.
Variable cmp : K -> K -> comparison.
Variable key : R -> K.

Lemma insert_group_perm (k : K) (r : R) (gs : list (K * list R)) :
  Permutation (rows_of (insert_group cmp k r gs)) (r :: rows_of gs).
Proof.
  unfold rows_of. induction gs as [|[k' rs] gs IH]; simpl; [reflexivity|].
  destruct (cmp k k'); simpl.
  - rewrite <- app_assoc. simpl. symmetry. apply Permutation_middle.
  - reflexivity.
  - rewrite IH. symmetry. apply Permutation_middle.
Qed.

Lemma fold_insert_perm (rows : list R) (gs : list (K * list R)) :
  Permutation (rows_of (fold_left (fun gs r => insert_group cmp (key r) r gs) rows gs))
              (rows_of gs ++ rows).
Proof.
  revert gs. induction rows as [|r rows IH]; intros gs; simpl.
  - now rewrite app_nil_r.
  - rewrite IH, insert_group_perm. simpl. apply Permutation_middle.
Qed.

(** The groups hold the rows of the frame, each once. *)
Lemma groupby_perm (rows : list R) :
  Permutation (rows_of (groupby cmp key rows)) rows.
Proof.
  unfold groupby. now rewrite fold_insert_perm.
Qed.

Hypothesis cmp_eq : forall x y, cmp x y = Eq -> x = y.
Hypothesis cmp_gt : forall x y, cmp x y = Gt -> cmp y x = Lt.

Lemma insert_group_keyed (r : R) (gs : list (K * list R)) :
  well_keyed key gs -> well_keyed key (insert_group cmp (key r) r gs).
Proof.
  unfold well_keyed. induction gs as [|[k' rs] gs IH]; simpl; intros H.
  - repeat constructor. discriminate.
  - inversion H as [|? ? [Hne Hk] Hrest]; subst. simpl in *.
    destruct (cmp (key r) k') eqn:C.
    + apply cmp_eq in C. constructor; [|assumption]. simpl. split.
      * destruct rs; discriminate.
      * apply Forall_app. split; [assumption|]. now repeat constructor.
    + constructor; [|now constructor]. simpl. split; [discriminate|].
      now repeat constructor.
    + constructor; [now split|]. now apply IH.
Qed.

Lemma insert_group_sorted (r : R) (gs : list (K * list R)) :
  Sorted (fun a b => cmp a b = Lt) (map fst gs) ->
  Sorted (fun a b => cmp a b = Lt) (map fst (insert_group cmp (key r) r gs)).
Proof.
  induction gs as [|[k' rs] gs IH]; simpl; intros H.
  - repeat constructor.
  - inversion H as [|? ? Hs Hhd]; subst.
    destruct (cmp (key r) k') eqn:C; simpl.
    + constructor; assumption.
    + constructor; [assumption|]. now constructor.
    + constructor; [now apply IH|].
      destruct gs as [|[k'' rs'] gs]; simpl.
      * constructor. now apply cmp_gt.
      * inversion Hhd; subst. destruct (cmp (key r) k''); simpl; constructor;
          try assumption. now apply cmp_gt.
Qed.

(** Every group is non-empty and holds rows of its key; the keys are in
    strictly ascending order. *)
Lemma groupby_invariant (rows : list R) :
  well_keyed key (groupby cmp key rows)
  /\ Sorted (fun a b => cmp a b = Lt) (map fst (groupby cmp key rows)).
Proof.
  unfold groupby.
  assert (G : forall gs,
             well_keyed key gs /\ Sorted (fun a b => cmp a b = Lt) (map fst gs) ->
             well_keyed key (fold_left (fun gs r => insert_group cmp (key r) r gs) rows gs)
             /\ Sorted (fun a b => cmp a b = Lt)
                       (map fst (fold_left (fun gs r => insert_group cmp (key r) r gs)
                                           rows gs))).
  { induction rows as [|r rows IH]; intros gs [H1 H2]; simpl; [now split|].
    apply IH. split; [now apply insert_group_keyed|now apply insert_group_sorted]. }
  apply G. split; constructor.
Qed.

(** A group is not empty, and its rows are rows of the frame with the
    key of the group. *)
Lemma group_nonempty (rows : list R) (g : K * list R) :
  In g (groupby cmp key rows) ->
  snd g <> [] /\ forall r, In r (snd g) -> key r = fst g /\ In r rows.
Proof.
  intros Hin. destruct (groupby_invariant rows) as [Hk _].
  unfold well_keyed in Hk. rewrite Forall_forall in Hk.
  destruct (Hk g Hin) as [Hne Hall]. split; [assumption|].
  intros r Hr. rewrite Forall_forall in Hall. split; [now apply Hall|].
  apply (Permutation_in r (groupby_perm rows)).
  unfold rows_of. apply in_concat. exists (snd g). split; [|assumption].
  now apply in_map.
Qed.

(** Every row of the frame is in the group of its key. *)
Lemma groupby_complete (rows : list R) (r : R) :
  In r rows -> exists g, In g (groupby cmp key rows) /\ fst g = key r /\ In r (snd g).
Proof.
  intros Hr. apply (Permutation_in r (Permutation_sym (groupby_perm rows))) in Hr.
  unfold rows_of in Hr. apply in_concat in Hr. destruct Hr as [rs [Hrs Hr]].
  apply in_map_iff in Hrs. destruct Hrs as [g [E Hg]]. subst rs.
  exists g. split; [assumption|]. split; [|assumption].
  destruct (group_nonempty rows g Hg) as [_ Hall]. symmetry. now apply Hall.
Qed.

End GroupByFacts.

Section KeyOrders.

Import Frame Order.

Lemma Z_compare_eq (x y : Z) : Z.compare x y = Eq -> x = y.
Proof.
  apply Z.compare_eq.
Qed.

Lemma Z_compare_gt (x y : Z) : Z.compare x y = Gt -> Z.compare y x = Lt.
Proof.
  intros H. rewrite Z.compare_antisym, H. reflexivity.
Qed.

Lemma cmp_pair_ZZ_eq (x y : Z * Z) :
  cmp_pair Z.compare Z.compare x y = Eq -> x = y.
Proof.
  destruct x as [a b], y as [c d]. unfold cmp_pair. simpl.
  destruct (Z.compare a c) eqn:C; try discriminate.
  intros H. apply Z.compare_eq in C, H. now subst.
Qed.

Lemma cmp_pair_ZZ_gt (x y : Z * Z) :
  cmp_pair Z.compare Z.compare x y = Gt -> cmp_pair Z.compare Z.compare y x = Lt.
Proof.
  destruct x as [a b], y as [c d]. unfold cmp_pair. simpl.
  rewrite (Z.compare_antisym a c), (Z.compare_antisym b d).
  destruct (Z.compare a c), (Z.compare b d); simpl; congruence.
Qed.

Lemma cmp_pair_ZZ_lt (x y : Z * Z) :
  cmp_pair Z.compare Z.compare x y = Lt <-> lex_lt x y.
Proof.
  destruct x as [a b], y as [c d]. unfold cmp_pair, lex_lt. simpl.
  destruct (Z.compare a c) eqn:C.
  - apply Z.compare_eq in C. subst. rewrite Z.compare_lt_iff. split; [auto|].
    intros [H|[_ H]]; [lia|assumption].
  - apply Z.compare_lt_iff in C. split; [auto|reflexivity].
  - apply Z.compare_gt_iff in C. split; [discriminate|]. intros [H|[H _]]; lia.
Qed.

Lemma lex_lt_trans (x y z : Z * Z) : lex_lt x y -> lex_lt y z -> lex_lt x z.
Proof.
  unfold lex_lt. intros [H1|[H1 H1']] [H2|[H2 H2']]; [left|left|left|right]; lia.
Qed.

Lemma lex_lt_irrefl (x : Z * Z) : ~ lex_lt x x.
Proof.
  unfold lex_lt. intros [H|[_ H]]; lia.
Qed.

End KeyOrders.

(** ** Sums of unit counts *)

Section SumNFacts.

Import Num.

Lemma fold_left_Nadd (l : list N) (a : N) : fold_left N.add l a = (a + sumN l)%N.
Proof.
  unfold sumN. revert a. induction l as [|x l IH]; simpl; intros a; [lia|].
  rewrite (IH (a + x)%N), (IH x). lia.
Qed.

Lemma sumN_cons (x : N) (l : list N) : sumN (x :: l) = (x + sumN l)%N.
Proof.
  unfold sumN at 1. simpl. rewrite fold_left_Nadd. lia.
Qed.

Lemma sumN_app (l l' : list N) : sumN (l ++ l') = (sumN l + sumN l')%N.
Proof.
  induction l as [|x l IH]; simpl; [reflexivity|].
  rewrite !sumN_cons, IH. lia.
Qed.

Lemma sumN_perm (l l' : list N) : Permutation l l' -> sumN l = sumN l'.
Proof.
  induction 1 as [|x l l' _ IH|x y l|l l' l'' _ IH1 _ IH2].
  - reflexivity.
  - now rewrite !sumN_cons, IH.
  - rewrite !sumN_cons. lia.
  - congruence.
Qed.

(** Summing group by group is summing the frame. *)
Lemma sumN_groups {K R : Type} (f : R -> N) (gs : list (K * list R)) :
  sumN (map (fun g => sumN (map f (snd g))) gs) = sumN (map f (Groups.rows_of gs)).
Proof.
  unfold Groups.rows_of. induction gs as [|g gs IH]; simpl; [reflexivity|].
  now rewrite sumN_cons, map_app, sumN_app, IH.
Qed.

Lemma sumN_groupby {K R : Type} (cmp : K -> K -> comparison) (key : R -> K)
  (f : R -> N) (rows : list R) :
  sumN (map (fun g => sumN (map f (snd g))) (Frame.groupby cmp key rows))
  = sumN (map f rows).
Proof.
  rewrite sumN_groups. apply sumN_perm, Permutation_map, groupby_perm.
Qed.

End SumNFacts.

(** ** The daily demand series *)

Module SeriesFacts.

Import Num Frame Order InventoryAnalytics DemandForecaster.

Lemma sorted_keys_lex (gs : list (Z * Z)) :
  Sorted (fun a b => cmp_pair Z.compare Z.compare a b = Lt) gs ->
  StronglySorted lex_lt gs.
Proof.
  intros H. apply Sorted_StronglySorted.
  - intros x y z. apply lex_lt_trans.
  - induction H as [|a l Hs IH Hhd]; constructor; [assumption|].
    destruct Hhd; constructor. now apply cmp_pair_ZZ_lt.
Qed.

Lemma strongly_sorted_nodup (l : list (Z * Z)) : StronglySorted lex_lt l -> NoDup l.
Proof.
  induction 1 as [|a l Hs IH Hall]; constructor; [|assumption].
  intros Hin. rewrite Forall_forall in Hall.
  exact (lex_lt_irrefl a (Hall a Hin)).
Qed.

(** X1. The daily series of [prepare_demand_data] has one row per day and
    product: its (order_date, product_id) keys are in strictly ascending
    order, by date and then by product, whatever the filters. *)
Theorem daily_series_keys (s : Snapshot) (product_id warehouse_id : option Z) :
  StronglySorted lex_lt (map fst (prepare_demand_data s product_id warehouse_id))
  /\ NoDup (map fst (prepare_demand_data s product_id warehouse_id)).
Proof.
  assert (H : StronglySorted lex_lt
                (map fst (prepare_demand_data s product_id warehouse_id))).
  { unfold prepare_demand_data. rewrite map_map. simpl.
    apply sorted_keys_lex.
    apply (groupby_invariant (cmp_pair Z.compare Z.compare) _
                             cmp_pair_ZZ_eq cmp_pair_ZZ_gt). }
  split; [exact H|now apply strongly_sorted_nodup].
Qed.

(** X2. No unit is lost or counted twice by [prepare_demand_data]: the
    quantities of the series add up to the quantities of the line items
    of the orders that are not cancelled, and with a product filter to
    those of the items of that product. *)
Theorem daily_series_conserves_units (s : Snapshot) (pid : Z) :
  sumN (map snd (prepare_demand_data s None None))
  = sumN (map item_qty (sales_with_items s))
  /\ (pid <> 0%Z ->
      sumN (map snd (prepare_demand_data s (Some pid) None))
      = sumN (map item_qty
                  (filter (fun r => (SalesOrderItem.product_id (snd r) =? pid)%Z)
                          (sales_with_items s)))).
Proof.
  split.
  - unfold prepare_demand_data. simpl. rewrite map_map. simpl.
    apply sumN_groupby.
  - intros Hp. unfold prepare_demand_data. simpl.
    replace (pid =? 0)%Z with false by (symmetry; now apply Z.eqb_neq). simpl.
    rewrite map_map. simpl. apply sumN_groupby.
Qed.

Lemma daily_series_conserves_units_witness :
  2%Z <> 0%Z
  /\ sumN (map snd (prepare_demand_data Examples.two_products (Some 2%Z) None))
     = sumN (map item_qty
                 (filter (fun r => (SalesOrderItem.product_id (snd r) =? 2)%Z)
                         (sales_with_items Examples.two_products))).
Proof.
  assert (H : 2%Z <> 0%Z) by lia.
  split; [exact H|].
  exact (proj2 (daily_series_conserves_units Examples.two_products 2) H).
Defined.

End SeriesFacts.

(** ** Sorted frames *)

Section SortedFacts.

Import Num Frame.

Lemma strongly_sorted_map {A B : Type} (R : B -> B -> Prop) (h : A -> B) (l : list A) :
  StronglySorted (fun x y => R (h x) (h y)) l <-> StronglySorted R (map h l).
Proof.
  induction l as [|a l IH]; simpl; split; intros H; try constructor;
    inversion H; subst.
  - now apply IH.
  - rewrite Forall_map. assumption.
  - now apply IH.
  - rewrite <- Forall_map. assumption.
Qed.

Lemma strongly_sorted_weaken {A : Type} (R R' : A -> A -> Prop) (l : list A) :
  (forall x y, In x l -> In y l -> R x y -> R' x y) ->
  StronglySorted R l -> StronglySorted R' l.
Proof.
  intros H S. induction S as [|a l S IH Hall]; constructor.
  - apply IH. intros x y Hx Hy. apply H; now right.
  - rewrite Forall_forall in *. intros y Hy. apply H; simpl; auto.
Qed.

Lemma strongly_sorted_app {A : Type} (R : A -> A -> Prop) (l l' : list A) :
  StronglySorted R l -> StronglySorted R l' ->
  (forall x y, In x l -> In y l' -> R x y) ->
  StronglySorted R (l ++ l').
Proof.
  intros S S' H. induction S as [|a l S IH Hall]; simpl; [assumption|].
  constructor.
  - apply IH. intros x y Hx. apply H. now right.
  - apply Forall_app. split; [assumption|].
    apply Forall_forall. intros y Hy. apply H; simpl; auto.
Qed.

(** An inner join keeps the order of the left frame. *)
Lemma merge_sorted {A B : Type} (R : A -> A -> Prop) (on : A -> B -> bool)
  (l : list A) (r : list B) :
  (forall a, In a l -> R a a) ->
  StronglySorted R l ->
  StronglySorted (fun x y => R (fst x) (fst y)) (merge on l r).
Proof.
  intros Hrefl S. unfold merge. induction S as [|a l S IH Hall]; simpl; [constructor|].
  apply strongly_sorted_app.
  - induction (filter (on a) r) as [|b bs IHb]; simpl; constructor; [assumption|].
    apply Forall_forall. intros x Hx. apply in_map_iff in Hx.
    destruct Hx as [b' [E _]]. subst x. apply Hrefl. now left.
  - apply IH. intros a' Ha'. apply Hrefl. now right.
  - intros x y Hx Hy. apply in_map_iff in Hx. destruct Hx as [b [E _]]. subst x.
    apply in_flat_map in Hy. destruct Hy as [a' [Ha' Hy]].
    apply in_map_iff in Hy. destruct Hy as [b' [E _]]. subst y. simpl.
    rewrite Forall_forall in Hall. now apply Hall.
Qed.

Context {R : Type}.
Variable by_col : R -> Q.

Lemma insert_desc_sorted (r : R) (l : list R) :
  Sorted (fun x y => by_col y <= by_col x) l ->
  Sorted (fun x y => by_col y <= by_col x) (insert_desc by_col r l).
Proof.
  induction l as [|r' l IH]; simpl; intros H; [repeat constructor|].
  inversion H as [|? ? Hs Hhd]; subst.
  destruct (Qle_bool (by_col r') (by_col r)) eqn:C.
  - apply Qle_bool_iff in C. constructor; [assumption|]. now constructor.
  - apply Qle_bool_false in C. constructor; [now apply IH|].
    destruct l as [|r'' l]; simpl.
    + constructor. now apply Qlt_le_weak.
    + inversion Hhd; subst.
      destruct (Qle_bool (by_col r'') (by_col r)); constructor;
        [now apply Qlt_le_weak|assumption].
Qed.

(** [sort_values_desc] returns the rows in descending order. *)
Lemma sort_values_desc_sorted (l : list R) :
  StronglySorted (fun x y => by_col y <= by_col x) (sort_values_desc by_col l).
Proof.
  apply Sorted_StronglySorted.
  - intros x y z H1 H2. now apply Qle_trans with (by_col y).
  - induction l as [|r l IH]; simpl; [constructor|]. now apply insert_desc_sorted.
Qed.

End SortedFacts.

(** ** The ABC table *)

Module AbcOrderFacts.

Import Num Frame Order InventoryAnalytics.

Lemma combine_fst {A B : Type} (l : list A) (l' : list B) :
  List.length l = List.length l' -> map fst (combine l l') = l.
Proof.
  revert l'. induction l as [|a l IH]; intros [|b l'] H; simpl in *;
    try discriminate; [reflexivity|]. f_equal. apply IH. now injection H.
Qed.

Lemma combine_snd {A B : Type} (l : list A) (l' : list B) :
  List.length l = List.length l' -> map snd (combine l l') = l'.
Proof.
  revert l'. induction l as [|a l IH]; intros [|b l'] H; simpl in *;
    try discriminate; [reflexivity|]. f_equal. apply IH. now injection H.
Qed.

(** The classified frame is the sorted frame, row by row. *)
Lemma classify_revenue_rows (a b : Q) (revs : list revenue) :
  map c_revenue (classify_revenue a b revs) = sort_values_desc r_total_revenue revs.
Proof.
  unfold classify_revenue. rewrite map_map. simpl.
  apply combine_fst. now rewrite cumsum_length, length_map.
Qed.

Lemma classify_revenue_cums (a b : Q) (revs : list revenue) :
  map c_cumulative_revenue (classify_revenue a b revs)
  = cumsum 0 (map r_total_revenue (sort_values_desc r_total_revenue revs)).
Proof.
  unfold classify_revenue. rewrite map_map. simpl.
  apply combine_snd. now rewrite cumsum_length, length_map.
Qed.

(** X3. The table returned by [calculate_abc_classification] is in
    descending order of total revenue, for every snapshot, window and
    pair of thresholds. *)
Theorem abc_table_descending (s : Snapshot) (lookback_days : Z) (a b : Q) :
  StronglySorted (fun r1 r2 => abc_total_revenue r2 <= abc_total_revenue r1)
                 (calculate_abc_classification s lookback_days a b).
Proof.
  unfold calculate_abc_classification.
  apply (proj1 (strongly_sorted_map _ _ _)). simpl.
  apply (merge_sorted
           (fun c1 c2 => r_total_revenue (c_revenue c2) <= r_total_revenue (c_revenue c1))).
  - intros c _. apply Qle_refl.
  - apply (proj2 (strongly_sorted_map
                    (fun r1 r2 => r_total_revenue r2 <= r_total_revenue r1)
                    c_revenue _)).
    rewrite classify_revenue_rows. apply sort_values_desc_sorted.
Qed.

Lemma sumQ_nonneg (l : list Q) : Forall (fun x => 0 <= x) l -> 0 <= sumQ l.
Proof.
  induction 1 as [|x l Hx _ IH]; [apply Qle_refl|]. rewrite sumQ_cons. lra.
Qed.

(** Cumulative sums of non-negative numbers go up, from the start value
    to the total. *)
Lemma cumsum_sorted (l : list Q) (acc : Q) :
  Forall (fun x => 0 <= x) l ->
  StronglySorted Qle (cumsum acc l)
  /\ Forall (fun c => acc <= c /\ c <= acc + sumQ l) (cumsum acc l).
Proof.
  intros H. revert acc. induction H as [|x l Hx Hl IH]; intros acc; simpl.
  - split; constructor.
  - destruct (IH (acc + x)) as [S F]. pose proof (sumQ_nonneg l Hl) as Hs.
    split.
    + constructor; [assumption|]. eapply Forall_impl; [|exact F].
      intros c [Hc _]. exact Hc.
    + constructor.
      * rewrite sumQ_cons. split; lra.
      * eapply Forall_impl; [|exact F]. intros c [Hc1 Hc2].
        rewrite sumQ_cons. split; lra.
Qed.

(** The percentage and the class of every row of the classified frame. *)
Lemma classify_revenue_shape (a b : Q) (revs : list revenue) (c : classified) :
  In c (classify_revenue a b revs) ->
  c_cumulative_pct c
  = cell_mul (cell_div (Fin (c_cumulative_revenue c))
                       (Fin (sumQ (map r_total_revenue
                                       (sort_values_desc r_total_revenue revs)))))
             (Fin 100)
  /\ c_abc_class c = assign_class a b (c_cumulative_pct c).
Proof.
  unfold classify_revenue. intros H. apply in_map_iff in H.
  destruct H as [rc [E _]]. subst c. simpl. split; reflexivity.
Qed.

Lemma assign_class_mono (a b x y : Q) :
  x <= y ->
  (class_rank (assign_class a b (Fin x)) <= class_rank (assign_class a b (Fin y)))%nat.
Proof.
  intros H. unfold assign_class, cell_leb. simpl.
  destruct (Qle_bool y a) eqn:Ya.
  - apply Qle_bool_iff in Ya.
    replace (Qle_bool x a) with true
      by (symmetry; apply Qle_bool_iff; now apply Qle_trans with y).
    apply Nat.le_refl.
  - destruct (Qle_bool y b) eqn:Yb.
    + apply Qle_bool_iff in Yb.
      destruct (Qle_bool x a); [cbv; lia|].
      replace (Qle_bool x b) with true
        by (symmetry; apply Qle_bool_iff; now apply Qle_trans with y).
      apply Nat.le_refl.
    + destruct (Qle_bool x a); [cbv; lia|].
      destruct (Qle_bool x b); cbv; lia.
Qed.

(** Revenues are not negative when prices are not. *)
Lemma product_revenue_nonneg (s : Snapshot) (lookback_days : Z) :
  (forall i, In i (sales_order_items s) -> 0 <= SalesOrderItem.unit_price i) ->
  Forall (fun r => 0 <= r_total_revenue r)
         (product_revenue (recent_sales s lookback_days)).
Proof.
  intros Hp. unfold product_revenue. apply Forall_forall. intros r Hr.
  apply in_map_iff in Hr. destruct Hr as [g [E Hg]]. subst r. simpl.
  apply Qmult_le_0_compat; [apply TurnoverFacts.of_N_nonneg|].
  assert (Hsum : 0 <= sumQ (map (fun r => SalesOrderItem.unit_price (snd r)) (snd g))).
  { apply sumQ_nonneg. apply Forall_forall. intros x Hx.
    apply in_map_iff in Hx. destruct Hx as [row [E Hrow]]. subst x. apply Hp.
    assert (Hin : In row (Groups.rows_of
                            (groupby Z.compare
                                     (fun r => SalesOrderItem.product_id (snd r))
                                     (recent_sales s lookback_days)))).
    { unfold Groups.rows_of. apply in_concat. exists (snd g). split; [|assumption].
      now apply in_map. }
    apply (Permutation_in _ (groupby_perm _ _ _)) in Hin.
    unfold recent_sales in Hin. destruct row as [o i]. apply in_merge in Hin. tauto. }
  destruct (snd g) as [|x l]; [vm_compute; discriminate|].
  apply Qle_shift_div_l; [|lra].
  change 0 with (inject_Z 0). rewrite <- Zlt_Qlt. simpl List.length. lia.
Qed.

(** X4. When no unit price is negative and the revenue of the window is
    positive, the cumulative percentage never goes down along the table
    returned by [calculate_abc_classification], the classes appear in the
    order A, B, C, and every percentage lies between 0 and 100. *)
Theorem abc_cumulative_monotone (s : Snapshot) (lookback_days : Z) (a b : Q) :
  (forall i, In i (sales_order_items s) -> 0 <= SalesOrderItem.unit_price i) ->
  0 < sumQ (map r_total_revenue (product_revenue (recent_sales s lookback_days))) ->
  StronglySorted
    (fun r1 r2 =>
       cell_leb (abc_cumulative_pct r1) (abc_cumulative_pct r2) = true
       /\ (class_rank (abc_class r1) <= class_rank (abc_class r2))%nat)
    (calculate_abc_classification s lookback_days a b)
  /\ Forall (fun r => exists q, abc_cumulative_pct r = Fin q /\ 0 <= q /\ q <= 100)
            (calculate_abc_classification s lookback_days a b).
Proof.
  intros Hp Hpos.
  set (revs := product_revenue (recent_sales s lookback_days)) in *.
  set (sorted := sort_values_desc r_total_revenue revs).
  set (total := sumQ (map r_total_revenue sorted)).
  assert (Hrev : Forall (fun r => 0 <= r_total_revenue r) revs)
    by now apply product_revenue_nonneg.
  assert (Hsorted : Forall (fun x => 0 <= x) (map r_total_revenue sorted)).
  { apply Forall_map. apply Forall_forall. intros r Hr.
    rewrite Forall_forall in Hrev. apply Hrev.
    exact (Permutation_in _ (sort_values_desc_perm _ _) Hr). }
  assert (Htot : 0 < total).
  { unfold total. rewrite (sumQ_perm _ (map r_total_revenue revs)); [assumption|].
    apply Permutation_map, sort_values_desc_perm. }
  destruct (cumsum_sorted _ 0 Hsorted) as [Scum Fcum].
  (* every row of the classified frame *)
  assert (Hshape : forall c, In c (classify_revenue a b revs) ->
            exists q, c_cumulative_pct c = Fin q
                      /\ q == c_cumulative_revenue c / total * 100
                      /\ 0 <= c_cumulative_revenue c <= total
                      /\ c_abc_class c = assign_class a b (Fin q)).
  { intros c Hc. destruct (classify_revenue_shape a b revs c Hc) as [E1 E2].
    fold sorted total in E1.
    rewrite cell_div_fin in E1 by (intro Z; rewrite Z in Htot; apply (Qlt_irrefl _ Htot)).
    simpl in E1. eexists. split; [exact E1|]. split; [reflexivity|]. split.
    - assert (Hin : In (c_cumulative_revenue c)
                       (cumsum 0 (map r_total_revenue sorted))).
      { unfold sorted. rewrite <- (classify_revenue_cums a b revs). now apply in_map. }
      rewrite Forall_forall in Fcum. destruct (Fcum _ Hin) as [H1 H2].
      fold total in H2. split; lra.
    - now rewrite E2, E1. }
  assert (Hdiv : forall x y, x <= y -> x / total * 100 <= y / total * 100).
  { intros x y Hxy. apply Qmult_le_compat_r; [|lra].
    unfold Qdiv. apply Qmult_le_compat_r; [assumption|].
    apply Qlt_le_weak, Qinv_lt_0_compat, Htot. }
  assert (Scl : StronglySorted
                  (fun c1 c2 =>
                     cell_leb (c_cumulative_pct c1) (c_cumulative_pct c2) = true
                     /\ (class_rank (c_abc_class c1) <= class_rank (c_abc_class c2))%nat)
                  (classify_revenue a b revs)).
  { apply (strongly_sorted_weaken
             (fun c1 c2 => c_cumulative_revenue c1 <= c_cumulative_revenue c2)).
    - intros c1 c2 H1 H2 Hle.
      destruct (Hshape c1 H1) as [q1 [P1 [Q1 [_ C1]]]].
      destruct (Hshape c2 H2) as [q2 [P2 [Q2 [_ C2]]]].
      assert (Hq : q1 <= q2) by (rewrite Q1, Q2; now apply Hdiv).
      rewrite P1, P2, C1, C2. split.
      + unfold cell_leb. simpl. now apply Qle_bool_iff.
      + now apply assign_class_mono.
    - apply (proj2 (strongly_sorted_map Qle c_cumulative_revenue _)).
      rewrite classify_revenue_cums. exact Scum. }
  unfold calculate_abc_classification. fold revs. split.
  - apply (proj1 (strongly_sorted_map _ _ _)). simpl.
    apply (merge_sorted
             (fun c1 c2 =>
                cell_leb (c_cumulative_pct c1) (c_cumulative_pct c2) = true
                /\ (class_rank (c_abc_class c1) <= class_rank (c_abc_class c2))%nat));
      [|exact Scl].
    intros c Hc. destruct (Hshape c Hc) as [q [P _]]. rewrite P. split.
    + unfold cell_leb. simpl. apply Qle_bool_iff, Qle_refl.
    + apply Nat.le_refl.
  - apply Forall_forall. intros r Hr. apply in_map_iff in Hr.
    destruct Hr as [[c p] [E Hcp]]. subst r. simpl.
    apply in_merge in Hcp. destruct Hcp as [Hc _].
    destruct (Hshape c Hc) as [q [P [Q0 [[B1 B2] _]]]].
    exists q. split; [exact P|]. rewrite Q0. split.
    + apply Qmult_le_0_compat; [|lra]. apply Qle_shift_div_l; [assumption|lra].
    + apply Qle_trans with (total / total * 100); [now apply Hdiv|].
      assert (E : total / total * 100 == 100) by (field; lra). rewrite E. apply Qle_refl.
Qed.

Lemma abc_cumulative_monotone_witness :
  (forall i, In i (sales_order_items Examples.two_products) ->
             0 <= SalesOrderItem.unit_price i)
  /\ 0 < sumQ (map r_total_revenue
                   (product_revenue (recent_sales Examples.two_products 365)))
  /\ StronglySorted
       (fun r1 r2 =>
          cell_leb (abc_cumulative_pct r1) (abc_cumulative_pct r2) = true
          /\ (class_rank (abc_class r1) <= class_rank (abc_class r2))%nat)
       (calculate_abc_classification Examples.two_products 365 80 95)
  /\ Forall (fun r => exists q, abc_cumulative_pct r = Fin q /\ 0 <= q /\ q <= 100)
            (calculate_abc_classification Examples.two_products 365 80 95).
Proof.
  assert (Hp : forall i, In i (sales_order_items Examples.two_products) ->
                         0 <= SalesOrderItem.unit_price i).
  { intros i Hi. simpl in Hi.
    repeat (destruct Hi as [Hi|Hi]; [subst i; vm_compute; discriminate|]).
    destruct Hi. }
  assert (Hpos : 0 < sumQ (map r_total_revenue
                     (product_revenue (recent_sales Examples.two_products 365))))
    by reflexivity.
  split; [exact Hp|]. split; [exact Hpos|].
  exact (abc_cumulative_monotone Examples.two_products 365 80 95 Hp Hpos).
Defined.

End AbcOrderFacts.

(** ** Turnover categories and days of supply *)

Module TurnoverBandFacts.

Import Num Frame InventoryAnalytics TurnoverFacts.

Lemma turnover_category_def (s : Snapshot) (warehouse_id : option Z) (r : turnover_row) :
  In r (calculate_inventory_turnover s warehouse_id) ->
  t_turnover_category r = classify_turnover (t_turnover_ratio r).
Proof.
  intros H. destruct (turnover_row_origin s warehouse_id r H) as [i [c [p [w [E _]]]]].
  subst r. reflexivity.
Qed.

(** X5. In every row of [calculate_inventory_turnover] the category and
    the days of supply agree: Fast Moving rows have at most 365/12 days of
    supply, Normal rows more than that and at most 365/4, Slow Moving
    rows more than 365/4 and at most 365, and Dead Stock rows more than
    365 days or an infinite number of them.  A row whose inventory value
    is not positive (nothing on hand, or a product that was never sold) is
    Dead Stock with infinite days of supply. *)
Theorem turnover_category_days (s : Snapshot) (warehouse_id : option Z) (r : turnover_row) :
  In r (calculate_inventory_turnover s warehouse_id) ->
  (t_turnover_category r = "Fast Moving"%string ->
   exists d, t_days_of_supply r = Fin d /\ 0 < d /\ d <= 365 # 12)
  /\ (t_turnover_category r = "Normal"%string ->
      exists d, t_days_of_supply r = Fin d /\ 365 # 12 < d /\ d <= 365 # 4)
  /\ (t_turnover_category r = "Slow Moving"%string ->
      exists d, t_days_of_supply r = Fin d /\ 365 # 4 < d /\ d <= 365)
  /\ (t_turnover_category r = "Dead Stock"%string ->
      t_days_of_supply r = PInf \/ exists d, t_days_of_supply r = Fin d /\ 365 < d)
  /\ (cell_gtb (t_inventory_value r) (Fin 0) = false ->
      t_turnover_category r = "Dead Stock"%string /\ t_days_of_supply r = PInf).
Proof.
  intros H.
  pose proof (turnover_category_def s warehouse_id r H) as Ec.
  destruct (turnover_ratio_nonneg s warehouse_id r H) as [q [Eq Hq]].
  destruct (turnover_row_shape s warehouse_id r H) as [Er [Ed _]].
  rewrite Ec, Ed, Eq. unfold classify_turnover, days_of_supply_of, np_where.
  assert (Hlast : cell_gtb (t_inventory_value r) (Fin 0) = false -> q == 0).
  { intros G. rewrite Er in Eq. unfold turnover_ratio_of, np_where in Eq.
    rewrite G in Eq. inversion Eq. reflexivity. }
  simpl cell_geb.
  destruct (Qlt_le_dec 0 q) as [Hpos|Hzero].
  - assert (Hne : ~ q == 0) by (intro Z; rewrite Z in Hpos; apply (Qlt_irrefl _ Hpos)).
    replace (cell_gtb (Fin q) (Fin 0)) with true
      by (symmetry; now apply cell_gtb_fin).
    rewrite (cell_div_fin 365 q Hne).
    destruct (Qle_bool 12 q) eqn:B12; [apply Qle_bool_iff in B12|apply Qle_bool_false in B12];
    [|destruct (Qle_bool 4 q) eqn:B4; [apply Qle_bool_iff in B4|apply Qle_bool_false in B4];
      [|destruct (Qle_bool 1 q) eqn:B1; [apply Qle_bool_iff in B1|apply Qle_bool_false in B1]]];
    (split; [intros K; try discriminate K|
     split; [intros K; try discriminate K|
     split; [intros K; try discriminate K|
     split; [intros K; try discriminate K|
             intros K; exfalso; apply Hne; now apply Hlast]]]]).
    + eexists. split; [reflexivity|]. split.
      * apply Qlt_shift_div_l; [assumption|lra].
      * apply Qle_shift_div_r; [assumption|lra].
    + eexists. split; [reflexivity|]. split.
      * apply Qlt_shift_div_l; [assumption|lra].
      * apply Qle_shift_div_r; [assumption|lra].
    + eexists. split; [reflexivity|]. split.
      * apply Qlt_shift_div_l; [assumption|lra].
      * apply Qle_shift_div_r; [assumption|lra].
    + right. eexists. split; [reflexivity|].
      apply Qlt_shift_div_l; [assumption|lra].
  - assert (Z0 : q == 0) by lra.
    replace (cell_gtb (Fin q) (Fin 0)) with false
      by (symmetry; simpl; apply negb_false_iff, Qle_bool_iff; lra).
    replace (Qle_bool 12 q) with false by (symmetry; apply Qle_bool_false; lra).
    replace (Qle_bool 4 q) with false by (symmetry; apply Qle_bool_false; lra).
    replace (Qle_bool 1 q) with false by (symmetry; apply Qle_bool_false; lra).
    repeat split; try discriminate; auto.
Qed.

Lemma turnover_category_days_witness :
  let r := mkTurnover "WH-01" "SKU-00001" "Basic Lamp" 100 (Fin 1000) (Fin 40)
                      (Fin (40 # 1000)) (Fin (365000 # 40)) "Dead Stock" in
  In r (calculate_inventory_turnover Examples.two_products None)
  /\ (t_turnover_category r = "Dead Stock"%string ->
      t_days_of_supply r = PInf \/ exists d, t_days_of_supply r = Fin d /\ 365 < d).
Proof.
  intros r.
  assert (Hin : In r (calculate_inventory_turnover Examples.two_products None))
    by (vm_compute; left; reflexivity).
  split; [exact Hin|].
  exact (proj1 (proj2 (proj2 (proj2
           (turnover_category_days Examples.two_products None r Hin))))).
Defined.

End TurnoverBandFacts.

(** ** When the order quantities can be computed *)

Module EoqEdgeFacts.

Import Num Frame InventoryAnalytics Spec TurnoverFacts GuardFacts EoqFacts.

Lemma traverse_ok_inv {A B : Type} (f : A -> outcome B) (l : list A) (bs : list B) :
  traverse f l = Ok bs ->
  List.length bs = List.length l /\ forall a, In a l -> exists b, f a = Ok b.
Proof.
  revert bs. induction l as [|a l IH]; simpl; intros bs H.
  - inversion H; subst. split; [reflexivity|]. intros a [].
  - destruct (f a) as [b0|] eqn:Fa; simpl in H; [|discriminate].
    destruct (traverse f l) as [bs0|] eqn:T; simpl in H; [|discriminate].
    inversion H; subst. destruct (IH bs0 eq_refl) as [L F]. split.
    + simpl. now rewrite L.
    + intros a' [E|Hin]; [subst; eauto|now apply F].
Qed.

(** One row can be cast when its divisor is not zero and the quotient is
    not negative. *)
Lemma eoq_row_ok_iff (ordering_cost holding_cost_rate : Q) (k : Z) (d : N) (p : Product.t) :
  (exists r, eoq_row_of ordering_cost holding_cost_rate (k, d, p) = Ok r)
  <-> ~ holding_cost_per_unit holding_cost_rate p == 0
      /\ 0 <= 2 * of_N d * ordering_cost / holding_cost_per_unit holding_cost_rate p.
Proof.
  unfold eoq_row_of, eoq_radicand, sqrt_round_int, cell_div, is_zero.
  set (h := holding_cost_per_unit holding_cost_rate p).
  set (x := 2 * of_N d * ordering_cost).
  destruct (Qeq_bool h 0) eqn:Z.
  - apply Qeq_bool_eq in Z. split.
    + intros [r Hr]. destruct (Qeq_bool x 0); [discriminate|].
      destruct (Qle_bool 0 x); discriminate.
    + intros [Hne _]. contradiction.
  - assert (Hne : ~ h == 0).
    { intro E. apply Qeq_eq_bool in E. congruence. }
    destruct (Qle_bool 0 (x / h)) eqn:P.
    + apply Qle_bool_iff in P. split; [now split|]. intros _.
      unfold bind. eexists. reflexivity.
    + apply Qle_bool_false in P. split.
      * intros [r Hr]. discriminate.
      * intros [_ Hle]. exfalso. apply (Qlt_not_le _ _ P Hle).
Qed.

(** X6. [calculate_eoq] returns a table, with one row per product that
    has sales and a catalogue entry, exactly when every such product has
    a holding cost per unit different from 0 and a quotient [2 D S / H]
    that is not negative; otherwise the integer cast of the [eoq] column
    raises. *)
Theorem eoq_returns_iff (s : Snapshot) (ordering_cost holding_cost_rate : Q) :
  (exists rows,
     calculate_eoq s ordering_cost holding_cost_rate = Ok rows
     /\ List.length rows = List.length (annual_demand s))
  <-> (forall k d p,
         In (k, d, p) (annual_demand s) ->
         ~ holding_cost_per_unit holding_cost_rate p == 0
         /\ 0 <= 2 * of_N d * ordering_cost / holding_cost_per_unit holding_cost_rate p).
Proof.
  unfold calculate_eoq. split.
  - intros [rows [H _]] k d p Hin.
    destruct (traverse_ok_inv _ _ _ H) as [_ F].
    apply (proj1 (eoq_row_ok_iff ordering_cost holding_cost_rate k d p)).
    exact (F (k, d, p) Hin).
  - intros H.
    destruct (traverse_ok (eoq_row_of ordering_cost holding_cost_rate) (annual_demand s))
      as [rows Hr].
    + intros [[k d] p] Hin.
      apply (proj2 (eoq_row_ok_iff ordering_cost holding_cost_rate k d p)).
      exact (H k d p Hin).
    + exists rows. split; [assumption|].
      exact (proj1 (traverse_ok_inv _ _ _ Hr)).
Qed.

(** The columns that are derived from the quantity. *)
Lemma eoq_row_shape (s : Snapshot) (ordering_cost holding_cost_rate : Q)
  (rows : list eoq_row) (r : eoq_row) :
  calculate_eoq s ordering_cost holding_cost_rate = Ok rows ->
  In r rows ->
  e_orders_per_year r
  = cell_round 1 (cell_div (Fin (of_N (e_annual_demand r))) (Fin (inject_Z (e_eoq r))))
  /\ e_days_between_orders r = cell_round 0 (cell_div (Fin 365) (e_orders_per_year r))
  /\ e_annual_inventory_cost r
     = sqrt_round_dp 2 (Fin (2 * of_N (e_annual_demand r) * ordering_cost
                             * (e_unit_cost r * holding_cost_rate))).
Proof.
  unfold calculate_eoq. intros Hc Hin.
  destruct (traverse_in _ _ _ _ Hc Hin) as [[[k d] p] [_ Hr]].
  unfold eoq_row_of in Hr.
  destruct (sqrt_round_int _) as [n|]; unfold bind in Hr; [|discriminate].
  inversion Hr; subst r. unfold holding_cost_per_unit.
  split; [reflexivity|]. split; reflexivity.
Qed.

(** X7. A product whose [2 D S / H] is below 1/4 gets an order quantity
    of 0, and for a row with a quantity of 0 and a positive demand the
    division by the quantity is not guarded: [orders_per_year] is
    infinite and [days_between_orders] is 0. *)
Theorem eoq_zero_quantity
  (s : Snapshot) (ordering_cost holding_cost_rate : Q) (rows : list eoq_row) (r : eoq_row) :
  calculate_eoq s ordering_cost holding_cost_rate = Ok rows ->
  In r rows ->
  let D := of_N (e_annual_demand r) in
  let H := e_unit_cost r * holding_cost_rate in
  0 < D -> 0 < ordering_cost -> 0 < H ->
  (2 * D * ordering_cost / H < 1 # 4 -> e_eoq r = 0%Z)
  /\ (e_eoq r = 0%Z ->
      2 * D * ordering_cost / H <= 1 # 4
      /\ e_orders_per_year r = PInf
      /\ e_days_between_orders r = Fin 0).
Proof.
  intros Hc Hin D H HD HS HH.
  pose proof (eoq_row_quantity s ordering_cost holding_cost_rate rows r Hc Hin HS HH) as Eq.
  destruct (eoq_row_shape s ordering_cost holding_cost_rate rows r Hc Hin) as [Eo [Ed _]].
  fold D H in Eq. fold D in Eo.
  set (x := 2 * D * ordering_cost / H) in *.
  assert (Hx : 0 <= x) by (apply Qle_shift_div_l; [assumption|nra]).
  destruct (round_sqrt_spec x Hx) as [Hn [Hup Hlo]]. cbv zeta in Hn, Hup, Hlo.
  rewrite <- Eq in Hn, Hup, Hlo. split.
  - intros Hsmall.
    destruct (Z_lt_le_dec (e_eoq r) 1) as [L|L].
    + change 0 with (inject_Z 0) in Hn. rewrite <- Zle_Qle in Hn. lia.
    + exfalso. pose proof (inject_Z_ge_1 _ L) as H1. specialize (Hlo H1). nra.
  - intros Ez. rewrite Ez in Hup, Eo. split; [|split].
    + change (inject_Z 0) with 0 in Hup. lra.
    + rewrite Eo. unfold cell_div, is_zero.
      change (Qeq_bool (inject_Z 0) 0) with true. cbv iota.
      replace (Qeq_bool D 0) with false.
      * replace (Qle_bool 0 D) with true; [reflexivity|].
        symmetry. apply Qle_bool_iff. now apply Qlt_le_weak.
      * symmetry. destruct (Qeq_bool D 0) eqn:Z; [|reflexivity].
        apply Qeq_bool_eq in Z. rewrite Z in HD. exfalso. apply (Qlt_irrefl _ HD).
    + rewrite Ed, Eo. unfold cell_div at 2, is_zero.
      change (Qeq_bool (inject_Z 0) 0) with true. cbv iota.
      replace (Qeq_bool D 0) with false.
      * replace (Qle_bool 0 D) with true; [reflexivity|].
        symmetry. apply Qle_bool_iff. now apply Qlt_le_weak.
      * symmetry. destruct (Qeq_bool D 0) eqn:Z; [|reflexivity].
        apply Qeq_bool_eq in Z. rewrite Z in HD. exfalso. apply (Qlt_irrefl _ HD).
Qed.

Lemma eoq_zero_quantity_witness :
  let r := mkEoq "SKU-00001" "Premium Laptop" 190 1 0 PInf (Fin 0) (Fin (975 # 100)) in
  calculate_eoq Examples.laptop 1 0.25 = Ok [r]
  /\ In r [r]
  /\ 0 < of_N 1 /\ 0 < 1 /\ 0 < 190 * 0.25
  /\ (2 * of_N 1 * 1 / (190 * 0.25) < 1 # 4 -> e_eoq r = 0%Z)
  /\ (e_eoq r = 0%Z ->
      2 * of_N 1 * 1 / (190 * 0.25) <= 1 # 4
      /\ e_orders_per_year r = PInf
      /\ e_days_between_orders r = Fin 0).
Proof.
  intros r.
  assert (Hc : calculate_eoq Examples.laptop 1 0.25 = Ok [r]) by (vm_compute; reflexivity).
  assert (Hin : In r [r]) by (left; reflexivity).
  split; [exact Hc|]. split; [exact Hin|].
  split; [reflexivity|]. split; [reflexivity|]. split; [reflexivity|].
  apply (eoq_zero_quantity Examples.laptop 1 0.25 [r] r Hc Hin); reflexivity.
Defined.

(** X8. Wilson's formula: for a row with [S > 0] and [H > 0] the order
    quantity is within one half of the real number [sqrt (2 D S / H)],
    and the annual inventory cost within half a cent of
    [sqrt (2 D S H)]. *)
Theorem eoq_is_rounded_wilson
  (s : Snapshot) (ordering_cost holding_cost_rate : Q) (rows : list eoq_row) (r : eoq_row) :
  calculate_eoq s ordering_cost holding_cost_rate = Ok rows ->
  In r rows ->
  let D := of_N (e_annual_demand r) in
  let H := e_unit_cost r * holding_cost_rate in
  0 < ordering_cost -> 0 < H ->
  (Rabs (IZR (e_eoq r) - sqrt (Q2R (2 * D * ordering_cost / H))) <= / 2)%R
  /\ exists c,
       e_annual_inventory_cost r = Fin c
       /\ (Rabs (Q2R c - sqrt (Q2R (2 * D * ordering_cost * H))) <= / 200)%R.
Proof.
  intros Hc Hin D H HS HH.
  pose proof (eoq_row_quantity s ordering_cost holding_cost_rate rows r Hc Hin HS HH) as Eq.
  destruct (eoq_row_shape s ordering_cost holding_cost_rate rows r Hc Hin) as [_ [_ Ea]].
  fold D H in Eq, Ea.
  assert (HD : 0 <= D) by apply of_N_nonneg.
  split.
  - rewrite Eq. apply round_sqrt_nearest.
    apply Qle_shift_div_l; [assumption|nra].
  - set (y := 2 * D * ordering_cost * H) in *.
    assert (Hy : 0 <= y).
    { unfold y. apply Qmult_le_0_compat; [nra|now apply Qlt_le_weak]. }
    unfold sqrt_round_dp in Ea.
    replace (Qle_bool 0 y) with true in Ea by (symmetry; now apply Qle_bool_iff).
    eexists. split; [exact Ea|].
    change (pow10 2) with 100.
    assert (Hy' : 0 <= y * 100 * 100) by nra.
    pose proof (round_sqrt_nearest (y * 100 * 100) Hy') as Hn.
    assert (Es : sqrt (Q2R (y * 100 * 100)) = (100 * sqrt (Q2R y))%R).
    { rewrite !Q2R_mult.
      replace (Q2R 100) with 100%R by (unfold Q2R; simpl; field).
      replace (Q2R y * 100 * 100)%R with ((100 * 100) * Q2R y)%R by ring.
      rewrite sqrt_mult_alt by lra. rewrite sqrt_square by lra. reflexivity. }
    rewrite Es in Hn.
    assert (Ec : Q2R (inject_Z (round_sqrt (y * 100 * 100)) / 100)
                 = (IZR (round_sqrt (y * 100 * 100)) / 100)%R).
    { rewrite Q2R_div by (intro K; discriminate K).
      rewrite Q2R_inject_Z.
      replace (Q2R 100) with 100%R by (unfold Q2R; simpl; field). reflexivity. }
    rewrite Ec.
    apply Rabs_le. unfold Rabs in Hn.
    destruct (Rcase_abs (IZR (round_sqrt (y * 100 * 100)) - 100 * sqrt (Q2R y)));
      lra.
Qed.

Lemma eoq_is_rounded_wilson_witness :
  let r := mkEoq "SKU-00001" "Premium Laptop" 190 1 0 PInf (Fin 0) (Fin (975 # 100)) in
  calculate_eoq Examples.laptop 1 0.25 = Ok [r]
  /\ In r [r]
  /\ 0 < 1 /\ 0 < 190 * 0.25
  /\ (Rabs (IZR (e_eoq r) - sqrt (Q2R (2 * of_N 1 * 1 / (190 * 0.25)))) <= / 2)%R
  /\ exists c,
       e_annual_inventory_cost r = Fin c
       /\ (Rabs (Q2R c - sqrt (Q2R (2 * of_N 1 * 1 * (190 * 0.25)))) <= / 200)%R.
Proof.
  intros r.
  assert (Hc : calculate_eoq Examples.laptop 1 0.25 = Ok [r]) by (vm_compute; reflexivity).
  assert (Hin : In r [r]) by (left; reflexivity).
  split; [exact Hc|]. split; [exact Hin|].
  split; [reflexivity|]. split; [reflexivity|].
  apply (eoq_is_rounded_wilson Examples.laptop 1 0.25 [r] r Hc Hin); reflexivity.
Defined.

End EoqEdgeFacts.

(** ** Nothing sold *)

Module NoSalesFacts.

Import Num Frame InventoryAnalytics DemandForecaster TurnoverFacts CancelFacts.






End NoSalesFacts.

(** ** Rounding is monotone *)

Section RoundOrder.

Import Num.

Lemma pow10_pos (d : nat) : 0 < pow10 d.
Proof.
  unfold pow10. change 0 with (inject_Z 0). rewrite <- Zlt_Qlt.
  apply Z.pow_pos_nonneg; lia.
Qed.

Lemma rint_bounds (x : Q) : (Qfloor x <= rint x <= Qfloor x + 1)%Z.
Proof.
  unfold rint. cbv zeta.
  destruct (Qcompare (x - inject_Z (Qfloor x)) (1 # 2)); [destruct (Z.even _)|..]; lia.
Qed.

Lemma rint_mono (x y : Q) : x <= y -> (rint x <= rint y)%Z.
Proof.
  intros H. pose proof (Qfloor_resp_le _ _ H) as Hf.
  destruct (Z.eq_dec (Qfloor x) (Qfloor y)) as [E|NE].
  - unfold rint. cbv zeta. rewrite <- E.
    destruct (Qcompare (x - inject_Z (Qfloor x)) (1 # 2)) eqn:Cx;
      destruct (Qcompare (y - inject_Z (Qfloor x)) (1 # 2)) eqn:Cy;
      try (destruct (Z.even (Qfloor x))); try lia; exfalso;
      repeat match goal with
             | C : Qcompare _ _ = Eq |- _ => apply Qeq_alt in C
             | C : Qcompare _ _ = Lt |- _ => apply Qlt_alt in C
             | C : Qcompare _ _ = Gt |- _ => apply Qgt_alt in C
             end; lra.
  - pose proof (rint_bounds x). pose proof (rint_bounds y). lia.
Qed.

Lemma rint_inject_Z (n : Z) : rint (inject_Z n) = n.
Proof.
  unfold rint. cbv zeta. rewrite Qfloor_Z.
  assert (C : Qcompare (inject_Z n - inject_Z n) (1 # 2) = Lt) by (apply (proj1 (Qlt_alt _ _)); lra).
  now rewrite C.
Qed.

Lemma round_dp_mono (d : nat) (x y : Q) : x <= y -> round_dp d x <= round_dp d y.
Proof.
  intros H. pose proof (pow10_pos d) as Hp. unfold round_dp, Qdiv.
  apply Qmult_le_compat_r.
  - rewrite <- Zle_Qle. apply rint_mono. nra.
  - apply Qlt_le_weak, Qinv_lt_0_compat, Hp.
Qed.

Lemma round_dp_int (d : nat) (n : Z) : round_dp d (inject_Z n) == inject_Z n.
Proof.
  pose proof (pow10_pos d) as Hp. unfold round_dp.
  assert (E : rint (inject_Z n * pow10 d) = (n * 10 ^ Z.of_nat d)%Z).
  { rewrite <- (rint_inject_Z (n * 10 ^ Z.of_nat d)).
    apply Z.le_antisymm; apply rint_mono; unfold pow10; rewrite inject_Z_mult; lra. }
  rewrite E, inject_Z_mult. fold (pow10 d). field. lra.
Qed.

(** A value between two integers is rounded to a value between them. *)
Lemma round_dp_bounds (d : nat) (lo hi : Z) (x : Q) :
  inject_Z lo <= x <= inject_Z hi ->
  inject_Z lo <= round_dp d x <= inject_Z hi.
Proof.
  intros [H1 H2]. split.
  - rewrite <- (round_dp_int d lo). now apply round_dp_mono.
  - rewrite <- (round_dp_int d hi). now apply round_dp_mono.
Qed.

Lemma cell_round_geb (d : nat) (c : cell) (t : Z) :
  cell_geb c (Fin (inject_Z t)) = true ->
  cell_geb (cell_round d c) (Fin (inject_Z t)) = true.
Proof.
  destruct c as [x| | |]; simpl; try easy.
  rewrite !Qle_bool_iff. intros H.
  rewrite <- (round_dp_int d t). now apply round_dp_mono.
Qed.

End RoundOrder.

(** ** Supplier scores *)

Module SupplierScoreFacts.

Import Num Frame Groups InventoryAnalytics SupplierAnalytics SupplierScoring.

Lemma of_nat_nonneg (n : nat) : 0 <= of_nat n.
Proof.
  unfold of_nat. change 0 with (inject_Z 0). rewrite <- Zle_Qle. lia.
Qed.

Lemma of_nat_le (n m : nat) : (n <= m)%nat -> of_nat n <= of_nat m.
Proof.
  intros H. unfold of_nat. rewrite <- Zle_Qle. lia.
Qed.

Lemma of_nat_pos (n : nat) : (1 <= n)%nat -> 0 < of_nat n.
Proof.
  intros H. unfold of_nat. change 0 with (inject_Z 0). rewrite <- Zlt_Qlt. lia.
Qed.

(** [x / y * 100] with a positive divisor. *)
Lemma rate_fin (x y : Q) : 0 < y -> rate x y = Fin (x / y * 100).
Proof.
  intros H. unfold rate. rewrite cell_div_fin; [reflexivity|lra].
Qed.

Lemma rate_percentage (x y : Q) : 0 <= x <= y -> 0 < y -> 0 <= x / y * 100 <= 100.
Proof.
  intros [H0 H1] Hy.
  assert (0 <= x / y) by (apply Qle_shift_div_l; lra).
  assert (x / y <= 1) by (apply Qle_shift_div_r; lra).
  lra.
Qed.

(** With a zero divisor the quotient is [NaN] or [inf]. *)
Lemma rate_zero_divisor (x : Q) :
  0 <= x -> rate x 0 = (if is_zero x then NaN else PInf).
Proof.
  intros H. unfold rate. simpl. destruct (is_zero x) eqn:Z; [reflexivity|].
  destruct (Qle_bool 0 x) eqn:L; [reflexivity|].
  apply Qle_bool_false in L. lra.
Qed.

Lemma delivery_metric_shape (pos : list PurchaseOrder.t) (dm : delivery_metric) :
  In dm (delivery_metrics pos) ->
  (1 <= dm_total_orders dm)%nat
  /\ exists q, dm_on_time_rate dm = Fin q /\ 0 <= q <= 100.
Proof.
  unfold delivery_metrics. rewrite in_map_iff. intros [g [E Hg]]. subst dm. simpl.
  destruct (group_nonempty _ _ Z_compare_eq Z_compare_gt _ _ Hg) as [Hne _].
  assert (Hlen : (1 <= List.length (snd g))%nat).
  { destruct (snd g); [congruence|simpl; lia]. }
  split; [assumption|].
  eexists. split; [apply rate_fin; now apply of_nat_pos|].
  apply rate_percentage; [|now apply of_nat_pos].
  split; [apply of_nat_nonneg|]. apply of_nat_le, filter_length_le.
Qed.

Lemma fill_metric_shape (items : list PurchaseOrderItem.t) (pos : list PurchaseOrder.t)
  (fm : fill_metric) :
  In fm (fill_metrics items pos) ->
  fm_fill_rate fm = rate (of_N (fm_quantity_received fm)) (of_N (fm_quantity_ordered fm))
  /\ exists rows : list (PurchaseOrderItem.t * PurchaseOrder.t),
       rows <> []
       /\ (forall r, In r rows -> In (fst r) items)
       /\ fm_quantity_ordered fm
          = sumN (map (fun r => PurchaseOrderItem.quantity_ordered (fst r)) rows)
       /\ fm_quantity_received fm
          = sumN (map (fun r => PurchaseOrderItem.quantity_received (fst r)) rows).
Proof.
  unfold fill_metrics. rewrite in_map_iff. intros [g [E Hg]]. subst fm. simpl.
  split; [reflexivity|].
  destruct (group_nonempty _ _ Z_compare_eq Z_compare_gt _ _ Hg) as [Hne Hall].
  exists (snd g). repeat split; try assumption.
  intros [i po] Hr. destruct (Hall _ Hr) as [_ Hm].
  apply in_merge in Hm. simpl. tauto.
Qed.

Lemma supplier_score_origin (d : SupplierData) (lookback_days : Z) (r : supplier_score) :
  In r (calculate_supplier_scores d lookback_days) ->
  exists dm fm sup,
    r = supplier_score_of (dm, fm, sup)
    /\ In dm (delivery_metrics (recent_pos d lookback_days))
    /\ In fm (fill_metrics (sd_purchase_order_items d) (recent_pos d lookback_days)).
Proof.
  unfold calculate_supplier_scores. rewrite in_map_iff.
  intros [[[dm fm] sup] [E Hin]]. exists dm, fm, sup. split; [now symmetry|].
  apply in_merge in Hin. destruct Hin as [Hin _].
  apply in_merge in Hin. tauto.
Qed.

(** X10: every scored supplier has at least one delivered order in the
    window, and its on-time rate is a percentage: a number between 0 and
    100, never [NaN] or infinite. *)
Theorem on_time_rate_is_percentage
  (d : SupplierData) (lookback_days : Z) (r : supplier_score) :
  In r (calculate_supplier_scores d lookback_days) ->
  (1 <= ss_total_orders r)%nat
  /\ exists q, ss_on_time_rate r = Fin q /\ 0 <= q <= 100.
Proof.
  intros Hin. apply supplier_score_origin in Hin.
  destruct Hin as [dm [fm [sup [E [Hdm _]]]]]. subst r. simpl.
  destruct (delivery_metric_shape _ _ Hdm) as [Hn [q [Eq Hq]]].
  split; [assumption|]. rewrite Eq. simpl. eexists. split; [reflexivity|].
  change 0 with (inject_Z 0). change 100 with (inject_Z 100).
  now apply round_dp_bounds.
Qed.

Lemma on_time_rate_is_percentage_witness :
  let r := mkSupplierScore "SUP-001" "Acme Metals" 2 (Fin 50.00) (Fin 93.33) (Fin 1.0)
                           4.5 (Fin 72.3) Bronze in
  In r (calculate_supplier_scores SupplierExamples.two_suppliers 365)
  /\ (1 <= ss_total_orders r)%nat
  /\ exists q, ss_on_time_rate r = Fin q /\ 0 <= q <= 100.
Proof.
  intros r.
  assert (H : In r (calculate_supplier_scores SupplierExamples.two_suppliers 365))
    by (vm_compute; left; reflexivity).
  split; [exact H|].
  exact (on_time_rate_is_percentage SupplierExamples.two_suppliers 365 r H).
Defined.

(** X11: the fill-rate division is not guarded.  The fill rate of a
    returned row is a non-negative number, or [inf] (units received,
    none ordered) and then the reliability score is [inf] too, or [NaN]
    (no units at all) and then the score is [NaN] and the tier Bronze,
    whatever the on-time rate. *)
Theorem fill_rate_unguarded
  (d : SupplierData) (lookback_days : Z) (r : supplier_score) :
  In r (calculate_supplier_scores d lookback_days) ->
  (exists q, ss_fill_rate r = Fin q /\ 0 <= q)
  \/ (ss_fill_rate r = PInf /\ ss_reliability_score r = PInf)
  \/ (ss_fill_rate r = NaN /\ ss_reliability_score r = NaN /\ ss_tier r = Bronze).
Proof.
  intros Hin. apply supplier_score_origin in Hin.
  destruct Hin as [dm [fm [sup [E [Hdm Hfm]]]]]. subst r. simpl.
  destruct (delivery_metric_shape _ _ Hdm) as [_ [a [Ea _]]].
  destruct (fill_metric_shape _ _ _ Hfm) as [Ef _].
  rewrite Ea, Ef. clear Ea Ef.
  pose proof (TurnoverFacts.of_N_nonneg (fm_quantity_ordered fm)) as Ho.
  pose proof (TurnoverFacts.of_N_nonneg (fm_quantity_received fm)) as Hr.
  set (o := of_N (fm_quantity_ordered fm)) in *.
  set (x := of_N (fm_quantity_received fm)) in *.
  destruct (Qlt_le_dec 0 o) as [Hpos|Hzero].
  - left. rewrite rate_fin by assumption. simpl. eexists. split; [reflexivity|].
    assert (H0 : 0 <= x / o * 100).
    { assert (0 <= x / o) by (apply Qle_shift_div_l; lra). lra. }
    change 0 with (inject_Z 0). rewrite <- (round_dp_int 2 0).
    now apply round_dp_mono.
  - right.
    assert (Eo : rate x o = rate x 0).
    { unfold rate, cell_div. assert (Z : is_zero o = true).
      { unfold is_zero. apply Qeq_bool_iff. lra. }
      now rewrite Z. }
    rewrite Eo, rate_zero_divisor by assumption.
    destruct (is_zero x); [right|left]; repeat split.
    unfold assign_tier. simpl. now rewrite !andb_false_r.
Qed.

Lemma fill_rate_unguarded_witness :
  let r := mkSupplierScore "SUP-002" "Bolt Works" 1 (Fin 100.00) NaN (Fin 0.0)
                           3.9 NaN Bronze in
  In r (calculate_supplier_scores SupplierExamples.empty_line 365)
  /\ ((exists q, ss_fill_rate r = Fin q /\ 0 <= q)
      \/ (ss_fill_rate r = PInf /\ ss_reliability_score r = PInf)
      \/ (ss_fill_rate r = NaN /\ ss_reliability_score r = NaN /\ ss_tier r = Bronze)).
Proof.
  intros r.
  assert (H : In r (calculate_supplier_scores SupplierExamples.empty_line 365))
    by (vm_compute; right; left; reflexivity).
  split; [exact H|].
  exact (fill_rate_unguarded SupplierExamples.empty_line 365 r H).
Defined.

Lemma sumN_le {A : Type} (f g : A -> N) (l : list A) :
  (forall a, In a l -> (f a <= g a)%N) -> (sumN (map f l) <= sumN (map g l))%N.
Proof.
  induction l as [|a l IH]; intros H; [reflexivity|].
  simpl. rewrite !sumN_cons.
  assert ((f a <= g a)%N) by (apply H; now left).
  assert ((sumN (map f l) <= sumN (map g l))%N) by (apply IH; intros; apply H; now right).
  lia.
Qed.

Lemma sumN_pos {A : Type} (f : A -> N) (l : list A) :
  l <> [] -> (forall a, In a l -> (0 < f a)%N) -> (0 < sumN (map f l))%N.
Proof.
  destruct l as [|a l]; [congruence|]. intros _ H.
  simpl. rewrite sumN_cons. assert ((0 < f a)%N) by (apply H; now left). lia.
Qed.

Lemma of_N_le (n m : N) : (n <= m)%N -> of_N n <= of_N m.
Proof.
  intros H. unfold of_N. rewrite <- Zle_Qle. lia.
Qed.

Lemma of_N_pos (n : N) : (0 < n)%N -> 0 < of_N n.
Proof.
  intros H. unfold of_N. change 0 with (inject_Z 0). rewrite <- Zlt_Qlt. lia.
Qed.

Lemma consistency_score_range (variance_std : option stdev) :
  5 <= consistency_score variance_std <= 20.
Proof.
  unfold consistency_score. destruct variance_std as [sd|]; [|split; lra].
  destruct (stdev_leb sd 1); [split; lra|].
  destruct (stdev_leb sd 3); [split; lra|].
  destruct (stdev_leb sd 7); split; lra.
Qed.

(** X12: when every purchase-order line orders at least one unit and
    receives no more than it orders, the fill rate of a returned row is
    a percentage and the reliability score lies between 5 and 100. *)
Theorem reliability_score_range
  (d : SupplierData) (lookback_days : Z) (r : supplier_score) :
  (forall i, In i (sd_purchase_order_items d) ->
             (0 < PurchaseOrderItem.quantity_ordered i)%N
             /\ (PurchaseOrderItem.quantity_received i
                 <= PurchaseOrderItem.quantity_ordered i)%N) ->
  In r (calculate_supplier_scores d lookback_days) ->
  (exists f, ss_fill_rate r = Fin f /\ 0 <= f <= 100)
  /\ (exists x, ss_reliability_score r = Fin x /\ 5 <= x <= 100).
Proof.
  intros Hitems Hin. apply supplier_score_origin in Hin.
  destruct Hin as [dm [fm [sup [E [Hdm Hfm]]]]]. subst r. simpl.
  destruct (delivery_metric_shape _ _ Hdm) as [_ [a [Ea Ha]]].
  destruct (fill_metric_shape _ _ _ Hfm) as [Ef [rows [Hne [Hrows [Eo Er]]]]].
  assert (Hpos : 0 < of_N (fm_quantity_ordered fm)).
  { apply of_N_pos. rewrite Eo. apply sumN_pos; [assumption|].
    intros x Hx. now apply Hitems, Hrows. }
  assert (Hle : of_N (fm_quantity_received fm) <= of_N (fm_quantity_ordered fm)).
  { apply of_N_le. rewrite Eo, Er. apply sumN_le.
    intros x Hx. now apply Hitems, Hrows. }
  pose proof (TurnoverFacts.of_N_nonneg (fm_quantity_received fm)) as Hr.
  rewrite Ea, Ef, rate_fin by assumption.
  pose proof (rate_percentage _ _ (conj Hr Hle) Hpos) as Hf.
  set (f := of_N (fm_quantity_received fm) / of_N (fm_quantity_ordered fm) * 100) in *.
  pose proof (consistency_score_range (dm_std_variance dm)) as Hc.
  set (c := consistency_score (dm_std_variance dm)) in *.
  split; simpl; eexists; (split; [reflexivity|]).
  - change 0 with (inject_Z 0). change 100 with (inject_Z 100).
    now apply round_dp_bounds.
  - change 5 with (inject_Z 5). change 100 with (inject_Z 100).
    apply round_dp_bounds. change (inject_Z 5) with 5. change (inject_Z 100) with 100.
    split; lra.
Qed.

Lemma reliability_score_range_witness :
  let r := mkSupplierScore "SUP-001" "Acme Metals" 2 (Fin 50.00) (Fin 93.33) (Fin 1.0)
                           4.5 (Fin 72.3) Bronze in
  (forall i, In i (sd_purchase_order_items SupplierExamples.two_suppliers) ->
             (0 < PurchaseOrderItem.quantity_ordered i)%N
             /\ (PurchaseOrderItem.quantity_received i
                 <= PurchaseOrderItem.quantity_ordered i)%N)
  /\ In r (calculate_supplier_scores SupplierExamples.two_suppliers 365)
  /\ (exists f, ss_fill_rate r = Fin f /\ 0 <= f <= 100)
  /\ (exists x, ss_reliability_score r = Fin x /\ 5 <= x <= 100).
Proof.
  intros r.
  assert (Hi : forall i, In i (sd_purchase_order_items SupplierExamples.two_suppliers) ->
                         (0 < PurchaseOrderItem.quantity_ordered i)%N
                         /\ (PurchaseOrderItem.quantity_received i
                             <= PurchaseOrderItem.quantity_ordered i)%N).
  { intros i [E|[E|[E|[]]]]; subst i; simpl; lia. }
  assert (H : In r (calculate_supplier_scores SupplierExamples.two_suppliers 365))
    by (vm_compute; left; reflexivity).
  split; [exact Hi|]. split; [exact H|].
  exact (reliability_score_range SupplierExamples.two_suppliers 365 r Hi H).
Defined.

(** X13: the rates a returned row displays meet the thresholds of its
    tier: rounding to two decimals never takes a rate below a threshold
    the unrounded rate has met. *)
Theorem tier_thresholds_displayed
  (d : SupplierData) (lookback_days : Z) (r : supplier_score) :
  In r (calculate_supplier_scores d lookback_days) ->
  let meets on_time fill :=
    cell_geb (ss_on_time_rate r) (Fin on_time) = true
    /\ cell_geb (ss_fill_rate r) (Fin fill) = true in
  match ss_tier r with
  | Platinum => meets 95 98
  | Gold => meets 90 95
  | Silver => meets 80 90
  | Bronze => True
  end.
Proof.
  intros Hin. apply supplier_score_origin in Hin.
  destruct Hin as [dm [fm [sup [E _]]]]. subst r. simpl.
  unfold assign_tier. simpl.
  set (a := dm_on_time_rate dm). set (f := fm_fill_rate fm).
  destruct (cell_geb a (Fin 95) && cell_geb f (Fin 98)) eqn:P.
  { apply andb_true_iff in P. destruct P as [P1 P2].
    split; [apply (cell_round_geb 2 a 95 P1)|apply (cell_round_geb 2 f 98 P2)]. }
  destruct (cell_geb a (Fin 90) && cell_geb f (Fin 95)) eqn:G.
  { apply andb_true_iff in G. destruct G as [G1 G2].
    split; [apply (cell_round_geb 2 a 90 G1)|apply (cell_round_geb 2 f 95 G2)]. }
  destruct (cell_geb a (Fin 80) && cell_geb f (Fin 90)) eqn:S; [|exact I].
  apply andb_true_iff in S. destruct S as [S1 S2].
  split; [apply (cell_round_geb 2 a 80 S1)|apply (cell_round_geb 2 f 90 S2)].
Qed.

Lemma tier_thresholds_displayed_witness :
  let r := mkSupplierScore "SUP-002" "Bolt Works" 1 (Fin 100.00) (Fin 100.00) (Fin 0.0)
                           3.9 (Fin 100.0) Platinum in
  In r (calculate_supplier_scores SupplierExamples.two_suppliers 365)
  /\ cell_geb (ss_on_time_rate r) (Fin 95) = true
  /\ cell_geb (ss_fill_rate r) (Fin 98) = true.
Proof.
  intros r.
  assert (H : In r (calculate_supplier_scores SupplierExamples.two_suppliers 365))
    by (vm_compute; right; left; reflexivity).
  split; [exact H|].
  exact (tier_thresholds_displayed SupplierExamples.two_suppliers 365 r H).
Defined.

End SupplierScoreFacts.

(** ** Lead-time variability *)

Section SurdRoundOrder.

Import Num SupplierScoring.

Variable s : surd.
Hypothesis rad_nonneg : 0 <= s_rad s.
Variable d : nat.

Local Abbreviation scaled :=
  (mkSurd (s_rat s * pow10 d) (s_coef s * pow10 d) (s_rad s)).

Lemma Rabs_half (x : R) : (Rabs x <= / 2 -> - / 2 <= x <= / 2)%R.
Proof.
  unfold Rabs. destruct (Rcase_abs x); lra.
Qed.

Lemma surd_value_scaled :
  surd_value scaled = (IZR (10 ^ Z.of_nat d) * surd_value s)%R.
Proof.
  unfold surd_value. simpl. rewrite !Q2R_mult. unfold pow10.
  rewrite Q2R_inject_Z. ring.
Qed.

Lemma pow10_IZR_pos : (0 < IZR (10 ^ Z.of_nat d))%R.
Proof.
  apply IZR_lt. apply Z.pow_pos_nonneg; lia.
Qed.

(** Rounding a surd to [d] decimals keeps it on its side of an integer. *)
Lemma surd_round_le (t : Z) :
  surd_leb s (inject_Z t) = true -> surd_round d s <= inject_Z t.
Proof.
  intros L. apply (surd_leb_correct s rad_nonneg) in L. rewrite Q2R_inject_Z in L.
  pose proof (rint_surd_nearest scaled rad_nonneg) as [N _].
  rewrite surd_value_scaled in N. pose proof pow10_IZR_pos as Hp.
  apply Rabs_half in N.
  assert (K : (IZR (rint_surd scaled) < IZR (10 ^ Z.of_nat d * t + 1))%R).
  { rewrite plus_IZR, mult_IZR.
    assert (IZR (10 ^ Z.of_nat d) * surd_value s <= IZR (10 ^ Z.of_nat d) * IZR t)%R
      by (apply Rmult_le_compat_l; lra).
    set (P := IZR (10 ^ Z.of_nat d)) in *. lra. }
  apply lt_IZR in K.
  unfold surd_round. set (n := rint_surd scaled) in *.
  apply Qle_shift_div_r; [apply pow10_pos|].
  unfold pow10. rewrite <- inject_Z_mult, <- Zle_Qle.
  set (P := (10 ^ Z.of_nat d)%Z) in *. lia.
Qed.

Lemma surd_round_ge (t : Z) :
  surd_leb s (inject_Z t) = false -> inject_Z t <= surd_round d s.
Proof.
  intros L.
  assert (L' : (IZR t < surd_value s)%R).
  { apply Rnot_le_lt. intro K. rewrite <- Q2R_inject_Z in K.
    apply (surd_leb_correct s rad_nonneg) in K. congruence. }
  pose proof (rint_surd_nearest scaled rad_nonneg) as [N _].
  rewrite surd_value_scaled in N. pose proof pow10_IZR_pos as Hp.
  apply Rabs_half in N.
  assert (K : (IZR (10 ^ Z.of_nat d * t - 1) < IZR (rint_surd scaled))%R).
  { rewrite minus_IZR, mult_IZR.
    assert (IZR (10 ^ Z.of_nat d) * IZR t < IZR (10 ^ Z.of_nat d) * surd_value s)%R
      by (apply Rmult_lt_compat_l; lra).
    set (P := IZR (10 ^ Z.of_nat d)) in *. lra. }
  apply lt_IZR in K.
  unfold surd_round. set (n := rint_surd scaled) in *.
  apply Qle_shift_div_l; [apply pow10_pos|].
  unfold pow10. rewrite <- inject_Z_mult, <- Zle_Qle.
  set (P := (10 ^ Z.of_nat d)%Z) in *. lia.
Qed.

End SurdRoundOrder.

Module VariabilityFacts.

Import Num Frame Groups InventoryAnalytics SupplierScoring.

Lemma var_two (x y : Q) (l : list Q) :
  var (x :: y :: l)
  = Fin (sumQ (map (fun z => (z - sumQ (x :: y :: l)
                                   / inject_Z (Z.of_nat (List.length (x :: y :: l))))
                             * (z - sumQ (x :: y :: l)
                                    / inject_Z (Z.of_nat (List.length (x :: y :: l)))))
                   (x :: y :: l))
         / inject_Z (Z.of_nat (List.length (x :: y :: l)) - 1)).
Proof.
  reflexivity.
Qed.

(** A sample variance is not negative, and needs two observations. *)
Lemma var_fin (l : list Q) (v : Q) :
  var l = Fin v -> 0 <= v /\ (2 <= List.length l)%nat.
Proof.
  destruct l as [|x [|y l]]; try discriminate.
  rewrite var_two. remember (x :: y :: l) as L eqn:EL. intros E. injection E as E.
  subst v.
  assert (Hlen : (2 <= List.length L)%nat) by (rewrite EL; simpl; lia).
  split; [|assumption].
  apply Qle_shift_div_l.
  - change 0 with (inject_Z 0). rewrite <- Zlt_Qlt. lia.
  - rewrite Qmult_0_l. apply AbcOrderFacts.sumQ_nonneg.
    apply Forall_forall. intros z Hz. apply in_map_iff in Hz.
    destruct Hz as [w [Ew _]]. subst z.
    match goal with |- 0 <= ?a * ?a => generalize a end. intros q. nra.
Qed.

Lemma var_cases (l : list Q) :
  var l = NaN \/ exists v, var l = Fin v /\ 0 <= v /\ (2 <= List.length l)%nat.
Proof.
  destruct (var l) as [v| | |] eqn:V.
  - right. exists v. split; [reflexivity|]. now apply var_fin.
  - destruct l as [|x [|y l]]; discriminate.
  - destruct l as [|x [|y l]]; discriminate.
  - now left.
Qed.

(** The observed lead times of some purchase orders: whole days, at most
    one per order. *)
Lemma present_lead_times (pos : list PurchaseOrder.t) :
  exists zs : list Z,
    present (map actual_lead_time pos) = map inject_Z zs
    /\ (List.length zs <= List.length pos)%nat.
Proof.
  induction pos as [|po pos [zs [E Hlen]]]; [exists []; split; [reflexivity|simpl; lia]|].
  unfold present in *. simpl. rewrite E. unfold actual_lead_time.
  destruct (PurchaseOrder.actual_delivery_date po) as [a|]; simpl.
  - exists ((a - PurchaseOrder.order_date po)%Z :: zs). split; [reflexivity|simpl; lia].
  - exists zs. split; [reflexivity|lia].
Qed.

Lemma variability_row_origin (d : SupplierData) (r : variability_row) :
  In r (analyze_lead_time_variability d) ->
  exists (pos : list PurchaseOrder.t) (k : Z) (sup : Supplier.t),
    pos <> []
    /\ r = variability_row_of
             (let lts := present (map actual_lead_time pos) in
              mkVariabilityStat k (List.length pos) (mean lts) (var lts)
                                (min_of lts) (max_of lts), sup).
Proof.
  unfold analyze_lead_time_variability. rewrite in_map_iff.
  intros [[st sup] [E Hin]]. apply in_merge in Hin. destruct Hin as [Hst _].
  unfold variability_stats in Hst. apply in_map_iff in Hst.
  destruct Hst as [g [Eg Hg]].
  destruct (group_nonempty _ _ Z_compare_eq Z_compare_gt _ _ Hg) as [Hne _].
  exists (snd g), (fst g), sup. split; [assumption|]. now rewrite <- E, <- Eg.
Qed.

(** X14: a supplier always has at least one delivery in the table; with
    a single one the deviation is missing, a missing deviation gives a
    missing coefficient of variation, and a missing coefficient is rated
    Highly Reliable. *)
Theorem scarce_history_highly_reliable (d : SupplierData) (r : variability_row) :
  In r (analyze_lead_time_variability d) ->
  (1 <= lv_delivery_count r)%nat
  /\ (lv_delivery_count r = 1%nat -> lv_std_lead_time r = NaN)
  /\ (lv_std_lead_time r = NaN -> lv_cv_pct r = NaN)
  /\ (lv_cv_pct r = NaN -> lv_reliability_category r = "Highly Reliable"%string).
Proof.
  intros Hin. apply variability_row_origin in Hin.
  destruct Hin as [pos [k [sup [Hne E]]]]. subst r. cbv zeta. simpl.
  destruct (present_lead_times pos) as [zs [Ez Hlen]].
  set (lts := present (map actual_lead_time pos)) in *.
  split; [destruct pos; [congruence|simpl; lia]|].
  destruct (var_cases lts) as [V|[v [V [Hv Hn]]]]; rewrite V.
  - repeat split; reflexivity.
  - split; [|split].
    + intros H1. rewrite Ez, length_map in Hn. lia.
    + unfold sqrt_round_dp. apply Qle_bool_iff in Hv. rewrite Hv. discriminate.
    + unfold cv_pct_of. destruct (mean lts) as [m| | |]; try reflexivity.
      destruct (is_zero m); [destruct (is_zero v); [reflexivity|discriminate]|].
      discriminate.
Qed.

Lemma scarce_history_highly_reliable_witness :
  let r := mkVariability "SUP-002" "Bolt Works" 1 (Fin 7.00) NaN (Fin 7) (Fin 7) NaN
                         "Highly Reliable" in
  In r (analyze_lead_time_variability SupplierExamples.two_suppliers)
  /\ (1 <= lv_delivery_count r)%nat
  /\ (lv_delivery_count r = 1%nat -> lv_std_lead_time r = NaN)
  /\ (lv_std_lead_time r = NaN -> lv_cv_pct r = NaN)
  /\ (lv_cv_pct r = NaN -> lv_reliability_category r = "Highly Reliable"%string).
Proof.
  intros r.
  assert (H : In r (analyze_lead_time_variability SupplierExamples.two_suppliers))
    by (vm_compute; right; left; reflexivity).
  split; [exact H|].
  exact (scarce_history_highly_reliable SupplierExamples.two_suppliers r H).
Defined.

Lemma fold_min_spec (l : list Q) (x : Q) :
  let m := fold_left (fun a b => if Qle_bool a b then a else b) l x in
  In m (x :: l) /\ forall y, In y (x :: l) -> m <= y.
Proof.
  revert x. induction l as [|a l IH]; intros x; cbv zeta.
  - simpl. split; [now left|]. intros y [E|[]]. subst. lra.
  - simpl fold_left. destruct (IH (if Qle_bool x a then x else a)) as [Hin Hle].
    assert (Hx : (if Qle_bool x a then x else a) <= x /\ (if Qle_bool x a then x else a) <= a).
    { destruct (Qle_bool x a) eqn:C.
      - apply Qle_bool_iff in C. split; lra.
      - apply Qle_bool_false in C. split; lra. }
    split.
    + destruct Hin as [E|Hin]; [|now right; right].
      rewrite <- E. destruct (Qle_bool x a); [now left|now right; left].
    + intros y [E|[E|Hy]].
      * subst y. apply Qle_trans with (2 := proj1 Hx). apply Hle. now left.
      * subst y. apply Qle_trans with (2 := proj2 Hx). apply Hle. now left.
      * apply Hle. now right.
Qed.

Lemma fold_max_spec (l : list Q) (x : Q) :
  let m := fold_left (fun a b => if Qle_bool a b then b else a) l x in
  In m (x :: l) /\ forall y, In y (x :: l) -> y <= m.
Proof.
  revert x. induction l as [|a l IH]; intros x; cbv zeta.
  - simpl. split; [now left|]. intros y [E|[]]. subst. lra.
  - simpl fold_left. destruct (IH (if Qle_bool x a then a else x)) as [Hin Hle].
    assert (Hx : x <= (if Qle_bool x a then a else x) /\ a <= (if Qle_bool x a then a else x)).
    { destruct (Qle_bool x a) eqn:C.
      - apply Qle_bool_iff in C. split; lra.
      - apply Qle_bool_false in C. split; lra. }
    split.
    + destruct Hin as [E|Hin]; [|now right; right].
      rewrite <- E. destruct (Qle_bool x a); [now right; left|now left].
    + intros y [E|[E|Hy]].
      * subst y. apply Qle_trans with (1 := proj1 Hx). apply Hle. now left.
      * subst y. apply Qle_trans with (1 := proj2 Hx). apply Hle. now left.
      * apply Hle. now right.
Qed.

Lemma of_nat_succ (n : nat) : of_nat (S n) == of_nat n + 1.
Proof.
  unfold of_nat. rewrite Nat2Z.inj_succ. unfold Z.succ. now rewrite inject_Z_plus.
Qed.

(** A sum of values between two bounds. *)
Lemma sumQ_bounds (l : list Q) (lo hi : Q) :
  (forall y, In y l -> lo <= y <= hi) ->
  lo * of_nat (List.length l) <= sumQ l <= hi * of_nat (List.length l).
Proof.
  induction l as [|x l IH]; intros H.
  - change (of_nat (List.length (@nil Q))) with 0. change (sumQ []) with 0.
    split; lra.
  - rewrite sumQ_cons. cbn [List.length]. rewrite of_nat_succ.
    assert (Hx : lo <= x <= hi) by (apply H; now left).
    assert (Hl : lo * of_nat (List.length l) <= sumQ l <= hi * of_nat (List.length l))
      by (apply IH; intros; apply H; now right).
    split; lra.
Qed.

Lemma mean_cons (x : Q) (l : list Q) :
  mean (x :: l) = Fin (sumQ (x :: l) / of_nat (List.length (x :: l))).
Proof.
  reflexivity.
Qed.

(** X15: whenever the table shows an average lead time, it shows a
    shortest and a longest one, both whole days, and the average as
    displayed, rounded to two decimals, lies between them. *)
Theorem avg_between_min_and_max (d : SupplierData) (r : variability_row) (a : Q) :
  In r (analyze_lead_time_variability d) ->
  lv_avg_lead_time r = Fin a ->
  exists lo hi : Z,
    lv_min_lead_time r = Fin (inject_Z lo)
    /\ lv_max_lead_time r = Fin (inject_Z hi)
    /\ inject_Z lo <= a <= inject_Z hi.
Proof.
  intros Hin. apply variability_row_origin in Hin.
  destruct Hin as [pos [k [sup [_ E]]]]. subst r. cbv zeta. simpl.
  destruct (present_lead_times pos) as [zs [Ez _]].
  remember (present (map actual_lead_time pos)) as lts eqn:El. clear El.
  destruct lts as [|x l]; [discriminate|].
  rewrite mean_cons. unfold min_of, max_of, cell_round. intros Ea. injection Ea as Ea.
  destruct (fold_min_spec l x) as [Hmin Hlo]. destruct (fold_max_spec l x) as [Hmax Hhi].
  set (lo := fold_left (fun a b => if Qle_bool a b then a else b) l x) in *.
  set (hi := fold_left (fun a b => if Qle_bool a b then b else a) l x) in *.
  rewrite Ez in Hmin, Hmax. apply in_map_iff in Hmin, Hmax.
  destruct Hmin as [zlo [Elo _]]. destruct Hmax as [zhi [Ehi _]].
  exists zlo, zhi. split; [now rewrite Elo|]. split; [now rewrite Ehi|].
  subst a. apply round_dp_bounds. rewrite Elo, Ehi.
  assert (Hn : 0 < of_nat (List.length (x :: l))).
  { apply SupplierScoreFacts.of_nat_pos. simpl. lia. }
  destruct (sumQ_bounds (x :: l) lo hi) as [S1 S2].
  { intros y Hy. split; [now apply Hlo|now apply Hhi]. }
  split; [apply Qle_shift_div_l|apply Qle_shift_div_r]; assumption.
Qed.

Lemma avg_between_min_and_max_witness :
  let r := mkVariability "SUP-001" "Acme Metals" 2 (Fin 8.00) (Fin 2.83) (Fin 6) (Fin 10)
                         (Fin 35.36) "Variable" in
  In r (analyze_lead_time_variability SupplierExamples.two_suppliers)
  /\ lv_avg_lead_time r = Fin 8.00
  /\ exists lo hi : Z,
       lv_min_lead_time r = Fin (inject_Z lo)
       /\ lv_max_lead_time r = Fin (inject_Z hi)
       /\ inject_Z lo <= 8.00 <= inject_Z hi.
Proof.
  intros r.
  assert (H : In r (analyze_lead_time_variability SupplierExamples.two_suppliers))
    by (vm_compute; left; reflexivity).
  split; [exact H|]. split; [reflexivity|].
  exact (avg_between_min_and_max SupplierExamples.two_suppliers r 8.00 H eq_refl).
Defined.

(** X16: the coefficient of variation a row displays, rounded to two
    decimals, lies in the band of the row's category (bounds included):
    at most 10 for Highly Reliable, 10 to 25 for Reliable, 25 to 40 for
    Variable, at least 40 for Unreliable.  A missing coefficient is
    Highly Reliable, an infinite one (zero mean lead time) Unreliable. *)
Theorem cv_band_displayed (d : SupplierData) (r : variability_row) :
  In r (analyze_lead_time_variability d) ->
  let category := lv_reliability_category r in
  match lv_cv_pct r with
  | Fin c =>
      (category = "Highly Reliable"%string /\ c <= 10)
      \/ (category = "Reliable"%string /\ 10 <= c <= 25)
      \/ (category = "Variable"%string /\ 25 <= c <= 40)
      \/ (category = "Unreliable"%string /\ 40 <= c)
  | NaN => category = "Highly Reliable"%string
  | PInf => category = "Unreliable"%string
  | NInf => False
  end.
Proof.
  intros Hin. apply variability_row_origin in Hin.
  destruct Hin as [pos [k [sup [_ E]]]]. subst r. cbv zeta. simpl.
  set (lts := present (map actual_lead_time pos)).
  destruct (var_cases lts) as [V|[v [V [Hv _]]]]; rewrite V; [reflexivity|].
  unfold cv_pct_of. destruct (mean lts) as [m| | |]; try reflexivity.
  destruct (is_zero m); [destruct (is_zero v); reflexivity|].
  set (s := mkSurd 0 (100 / m) v).
  assert (Hs : 0 <= s_rad s) by exact Hv.
  unfold classify_reliability, scell_round.
  change 10 with (inject_Z 10). change 25 with (inject_Z 25).
  change 40 with (inject_Z 40).
  destruct (surd_leb s (inject_Z 10)) eqn:L10.
  { left. split; [reflexivity|]. now apply surd_round_le. }
  apply (surd_round_ge s Hs 2) in L10.
  destruct (surd_leb s (inject_Z 25)) eqn:L25.
  { right; left. split; [reflexivity|]. split; [assumption|]. now apply surd_round_le. }
  apply (surd_round_ge s Hs 2) in L25.
  destruct (surd_leb s (inject_Z 40)) eqn:L40.
  { right; right; left. split; [reflexivity|]. split; [assumption|].
    now apply surd_round_le. }
  apply (surd_round_ge s Hs 2) in L40.
  right; right; right. split; [reflexivity|assumption].
Qed.

Lemma cv_band_displayed_witness :
  let r := mkVariability "SUP-001" "Acme Metals" 2 (Fin 8.00) (Fin 2.83) (Fin 6) (Fin 10)
                         (Fin 35.36) "Variable" in
  In r (analyze_lead_time_variability SupplierExamples.two_suppliers)
  /\ ((lv_reliability_category r = "Highly Reliable"%string /\ 35.36 <= 10)
      \/ (lv_reliability_category r = "Reliable"%string /\ 10 <= 35.36 <= 25)
      \/ (lv_reliability_category r = "Variable"%string /\ 25 <= 35.36 <= 40)
      \/ (lv_reliability_category r = "Unreliable"%string /\ 40 <= 35.36)).
Proof.
  intros r.
  assert (H : In r (analyze_lead_time_variability SupplierExamples.two_suppliers))
    by (vm_compute; left; reflexivity).
  split; [exact H|].
  exact (cv_band_displayed SupplierExamples.two_suppliers r H).
Defined.

End VariabilityFacts.

(** ** Forecasts *)

Module ForecastFacts.

Import Num Frame Order InventoryAnalytics DemandForecaster Forecasting.

(** *** Dates *)

Lemma fold_max_date (l : list Z) (d : Z) :
  let m := fold_left Z.max l d in
  In m (d :: l) /\ forall x, In x (d :: l) -> (x <= m)%Z.
Proof.
  revert d. induction l as [|a l IH]; intros d; cbv zeta.
  - simpl. split; [now left|]. intros x [E|[]]. lia.
  - simpl fold_left. destruct (IH (Z.max d a)) as [Hin Hle]. split.
    + destruct Hin as [E|Hin]; [|now right; right]. rewrite <- E.
      destruct (Z.max_spec d a) as [[_ M]|[_ M]]; rewrite M;
        [right; left|left]; reflexivity.
    + intros x [E|[E|Hx]].
      * subst. specialize (Hle (Z.max x a) (or_introl eq_refl)). lia.
      * subst. specialize (Hle (Z.max d x) (or_introl eq_refl)). lia.
      * apply Hle. now right.
Qed.

Lemma fold_min_date (l : list Z) (d : Z) :
  let m := fold_left Z.min l d in
  In m (d :: l) /\ forall x, In x (d :: l) -> (m <= x)%Z.
Proof.
  revert d. induction l as [|a l IH]; intros d; cbv zeta.
  - simpl. split; [now left|]. intros x [E|[]]. lia.
  - simpl fold_left. destruct (IH (Z.min d a)) as [Hin Hle]. split.
    + destruct Hin as [E|Hin]; [|now right; right]. rewrite <- E.
      destruct (Z.min_spec d a) as [[_ M]|[_ M]]; rewrite M;
        [left|right; left]; reflexivity.
    + intros x [E|[E|Hx]].
      * subst. specialize (Hle (Z.min x a) (or_introl eq_refl)). lia.
      * subst. specialize (Hle (Z.min d x) (or_introl eq_refl)). lia.
      * apply Hle. now right.
Qed.

(** The latest date of a column is its upper bound that occurs in it. *)
Lemma max_date_char (l : list Z) (m : Z) :
  In m l -> (forall x, In x l -> (x <= m)%Z) -> max_date l = Some m.
Proof.
  destruct l as [|d l]; [contradiction|]. intros Hin Hle. unfold max_date. f_equal.
  destruct (fold_max_date l d) as [Hin' Hle']. apply Z.le_antisymm.
  - now apply Hle.
  - now apply Hle'.
Qed.

Lemma date_bounds (l : list Z) :
  l <> [] ->
  exists lo hi,
    min_date l = Some lo /\ max_date l = Some hi
    /\ In lo l /\ In hi l /\ forall x, In x l -> (lo <= x <= hi)%Z.
Proof.
  destruct l as [|d l]; [congruence|]. intros _.
  destruct (fold_max_date l d) as [Hin Hle]. destruct (fold_min_date l d) as [Hin' Hle'].
  exists (fold_left Z.min l d), (fold_left Z.max l d).
  repeat split; try assumption; [now apply Hle'|now apply Hle].
Qed.

Lemma max_date_none (l : list Z) : max_date l = None -> l = [].
Proof.
  destruct l; [reflexivity|discriminate].
Qed.

Lemma in_days_from (a x : Z) (n : nat) :
  In x (days_from a n) <-> (a <= x < a + Z.of_nat n)%Z.
Proof.
  unfold days_from. rewrite in_map_iff. split.
  - intros [i [E Hi]]. apply in_seq in Hi. lia.
  - intros H. exists (Z.to_nat (x - a)). split; [lia|]. apply in_seq. lia.
Qed.

Lemma days_from_length (a : Z) (n : nat) : List.length (days_from a n) = n.
Proof.
  unfold days_from. now rewrite length_map, length_seq.
Qed.

Lemma days_from_snoc (a : Z) (n : nat) :
  days_from a (S n) = days_from a n ++ [(a + Z.of_nat n)%Z].
Proof.
  unfold days_from. now rewrite seq_S, map_app.
Qed.

Lemma days_from_cons (a : Z) (n : nat) :
  days_from a (S n) = a :: days_from (a + 1) n.
Proof.
  unfold days_from. simpl seq. rewrite <- seq_shift. cbn [map]. rewrite map_map. f_equal.
  - lia.
  - apply map_ext. intros i. lia.
Qed.

Lemma max_days_from (a : Z) (n : nat) :
  max_date (days_from a (S n)) = Some (a + Z.of_nat n)%Z.
Proof.
  apply max_date_char.
  - apply in_days_from. lia.
  - intros x Hx. apply in_days_from in Hx. lia.
Qed.

(** *** The index of the history *)

Lemma is_unique_sorted (l : list Z) : StronglySorted Z.lt l -> is_unique l = true.
Proof.
  induction 1 as [|x l Hs IH Hall]; [reflexivity|]. simpl. rewrite IH, andb_true_r.
  destruct (existsb (Z.eqb x) l) eqn:E; [|reflexivity].
  apply existsb_exists in E. destruct E as [y [Hy E]]. apply Z.eqb_eq in E. subst y.
  rewrite Forall_forall in Hall. specialize (Hall x Hy). lia.
Qed.

Lemma is_unique_nodup (l : list Z) : is_unique l = true -> NoDup l.
Proof.
  induction l as [|x l IH]; [constructor|]. simpl. intros H.
  apply andb_true_iff in H. destruct H as [H1 H2]. constructor; [|now apply IH].
  intros Hin. apply negb_true_iff in H1.
  assert (E : existsb (Z.eqb x) l = true).
  { apply existsb_exists. exists x. split; [assumption|apply Z.eqb_refl]. }
  congruence.
Qed.

(** With a product filter every row of the history is of that product. *)
Lemma history_product (s : Snapshot) (pid : Z) (r : Z * Z * N) :
  pid <> 0%Z -> In r (prepare_demand_data s (Some pid) None) -> snd (fst r) = pid.
Proof.
  intros Hp. unfold prepare_demand_data. simpl.
  replace (pid =? 0)%Z with false by (symmetry; now apply Z.eqb_neq). simpl.
  rewrite in_map_iff. intros [g [E Hg]]. subst r. simpl.
  destruct (group_nonempty _ _ cmp_pair_ZZ_eq cmp_pair_ZZ_gt _ _ Hg) as [Hne Hall].
  destruct (snd g) as [|r0 rs]; [congruence|].
  destruct (Hall r0 (or_introl eq_refl)) as [Hk Hin]. rewrite <- Hk. simpl.
  apply filter_In in Hin. destruct Hin as [_ Hf]. now apply Z.eqb_eq in Hf.
Qed.

(** ... so its dates are in strictly ascending order. *)
Lemma history_dates_sorted (s : Snapshot) (pid : Z) :
  pid <> 0%Z ->
  StronglySorted Z.lt (map order_date (prepare_demand_data s (Some pid) None)).
Proof.
  intros Hp.
  assert (H : StronglySorted lex_lt (map fst (prepare_demand_data s (Some pid) None))).
  { unfold prepare_demand_data. rewrite map_map. simpl.
    apply SeriesFacts.sorted_keys_lex.
    apply (groupby_invariant (cmp_pair Z.compare Z.compare) _
                             cmp_pair_ZZ_eq cmp_pair_ZZ_gt). }
  apply (proj2 (strongly_sorted_map lex_lt fst _)) in H.
  apply (proj1 (strongly_sorted_map Z.lt order_date _)).
  revert H. apply strongly_sorted_weaken. intros x y Hx Hy L.
  pose proof (history_product s pid x Hp Hx) as Ex.
  pose proof (history_product s pid y Hp Hy) as Ey.
  unfold lex_lt in L. unfold order_date. destruct L as [L|[_ L]]; [assumption|lia].
Qed.

(** *** The frame [daily] *)

Section Daily.

Variable demand : list (Z * Z * N).
Hypothesis dates_sorted : StronglySorted Z.lt (map order_date demand).

Lemma units_on_nonneg (d : Z) : 0 <= units_on demand d.
Proof.
  unfold units_on. destruct (find _ demand); [apply TurnoverFacts.of_N_nonneg|lra].
Qed.

Lemma units_on_le (day : Z * Z * N) (d : Z) :
  (forall r, In r demand -> (snd r <= snd day)%N) ->
  units_on demand d <= of_N (snd day).
Proof.
  intros H. unfold units_on. destruct (find _ demand) as [r|] eqn:F.
  - apply find_some in F. destruct F as [Hr _]. unfold of_N. rewrite <- Zle_Qle.
    specialize (H r Hr). lia.
  - apply TurnoverFacts.of_N_nonneg.
Qed.

(** On a date of the history [reindex] finds the row of that date. *)
Lemma units_on_date (d : Z) :
  In d (map order_date demand) ->
  exists r, In r demand /\ order_date r = d /\ units_on demand d = of_N (snd r).
Proof.
  intros Hd. unfold units_on. destruct (find _ demand) as [r|] eqn:F.
  - apply find_some in F. destruct F as [Hr E]. apply Z.eqb_eq in E. now exists r.
  - apply in_map_iff in Hd. destruct Hd as [r [E Hr]].
    pose proof (find_none _ _ F r Hr) as K. simpl in K. apply Z.eqb_neq in K.
    congruence.
Qed.

Lemma daily_returned (hi : Z) :
  max_date (map order_date demand) = Some hi ->
  exists lo n,
    (lo + Z.of_nat n = hi)%Z
    /\ In hi (map order_date demand)
    /\ (forall x, In x (map order_date demand) -> (x <= hi)%Z)
    /\ daily demand
       = Returned (map (fun d => (d, units_on demand d)) (days_from lo (S n))).
Proof.
  intros Hmax.
  assert (Hne : map order_date demand <> []) by (intro E; rewrite E in Hmax; discriminate).
  destruct (date_bounds _ Hne) as [lo [hi' [Hlo [Hhi [Inlo [Inhi Hall]]]]]].
  assert (hi' = hi) by congruence. subst hi'.
  exists lo, (Z.to_nat (hi - lo)).
  assert (Hle : (lo <= hi)%Z) by (apply (Hall lo Inlo)).
  split; [lia|]. split; [assumption|]. split; [intros x Hx; now apply Hall|].
  unfold daily. rewrite Hlo, Hhi. simpl. unfold reindex.
  rewrite (is_unique_sorted _ dates_sorted).
  replace (Z.to_nat (hi - lo + 1)) with (S (Z.to_nat (hi - lo))) by lia.
  reflexivity.
Qed.

End Daily.

Lemma daily_index {A : Type} (f : Z -> A) (dates : list Z) :
  map fst (map (fun d => (d, f d)) dates) = dates.
Proof.
  rewrite map_map. simpl. apply map_id.
Qed.

Lemma daily_column {A : Type} (f : Z -> A) (dates : list Z) :
  map snd (map (fun d => (d, f d)) dates) = map f dates.
Proof.
  rewrite map_map. reflexivity.
Qed.

(** *** The two smoothers *)

Lemma iloc_last_snoc {A : Type} (l : list A) (x : A) : iloc_last (l ++ [x]) = Returned x.
Proof.
  unfold iloc_last. now rewrite rev_app_distr.
Qed.

Lemma last_n_nonempty {A : Type} (n : nat) (l : list A) :
  (1 <= n)%nat -> l <> [] -> last_n n l <> [].
Proof.
  intros Hn Hl E. apply (f_equal (@List.length A)) in E. unfold last_n in E.
  rewrite length_skipn in E. change (List.length (@nil A)) with 0%nat in E.
  destruct l; [congruence|]. cbn [List.length] in E. lia.
Qed.

Lemma last_n_incl {A : Type} (n : nat) (l : list A) (x : A) :
  In x (last_n n l) -> In x l.
Proof.
  unfold last_n. intros H. rewrite <- (firstn_skipn (List.length l - n) l).
  apply in_or_app. now right.
Qed.

Lemma last_n_one {A : Type} (l : list A) (x : A) : last_n 1 (l ++ [x]) = [x].
Proof.
  unfold last_n. rewrite length_app. simpl.
  replace (List.length l + 1 - 1)%nat with (List.length l) by lia.
  rewrite skipn_app, skipn_all, Nat.sub_diag. reflexivity.
Qed.

(** The last value of the rolling mean is the mean of the last [window]
    values. *)
Lemma rolling_mean_last (window : Z) (values : list Q) (x : Q) :
  (1 <= window)%Z ->
  exists ma,
    rolling_mean window (values ++ [x]) = Returned ma
    /\ iloc_last ma = Returned (mean (last_n (Z.to_nat window) (values ++ [x]))).
Proof.
  intros Hw. unfold rolling_mean.
  replace (window <? 1)%Z with false by (symmetry; apply Z.ltb_ge; lia).
  eexists. split; [reflexivity|].
  rewrite length_app. cbn [List.length].
  replace (List.length values + 1)%nat with (S (List.length values)) by lia.
  rewrite seq_S, map_app. cbn [map]. rewrite iloc_last_snoc. cbn [Nat.add].
  replace (S (List.length values)) with (List.length (values ++ [x]))
    by (rewrite length_app; simpl; lia).
  now rewrite firstn_all.
Qed.

(** The last smoothed value is the fold of the smoothing step. *)
Lemma smoothed_last (alpha : Q) (v0 : Q) (values : list Q) :
  iloc_last (v0 :: smooth alpha v0 values)
  = Returned (fold_left (fun s v => alpha * v + (1 - alpha) * s) values v0).
Proof.
  revert v0. induction values as [|v values IH]; intros v0; [reflexivity|].
  simpl smooth. simpl fold_left. rewrite <- IH.
  unfold iloc_last. simpl rev. rewrite <- !app_assoc.
  set (t := alpha * v + (1 - alpha) * v0).
  destruct (rev (smooth alpha t values)); reflexivity.
Qed.

Lemma rint_Qeq (x y : Q) : x == y -> rint x = rint y.
Proof.
  intros E. apply Z.le_antisymm; apply rint_mono; lra.
Qed.

Local Abbreviation history s pid := (prepare_demand_data s (Some pid) None).
Local Abbreviation step alpha := (fun s v : Q => alpha * v + (1 - alpha) * s).

(** What [moving_average_forecast] does for a product id other than 0,
    by the last date [hi] of the history. *)
Lemma ma_cases (s : Snapshot) (pid window : Z) (days : N) :
  pid <> 0%Z ->
  match max_date (map order_date (history s pid)) with
  | None => moving_average_forecast s pid window days = Returned []
  | Some hi =>
      exists lo n,
        (lo + Z.of_nat n = hi)%Z
        /\ moving_average_forecast s pid window days
           = if (window <? 1)%Z
             then Raised ValueError
             else
               let l := last_n (Z.to_nat window)
                               (map (units_on (history s pid)) (days_from lo (S n))) in
               Returned (forecast_frame (days_from (hi + 1) (N.to_nat days))
                                        (rint (sumQ l / of_nat (List.length l)))
                                        "Moving Average")
  end.
Proof.
  intros Hp. pose proof (history_dates_sorted s pid Hp) as Hs.
  unfold moving_average_forecast. cbv zeta.
  remember (history s pid) as demand eqn:Ed. clear Ed.
  destruct (max_date (map order_date demand)) as [hi|] eqn:Hmax.
  - destruct (daily_returned demand Hs hi Hmax) as [lo [n [E [_ [_ Hd]]]]].
    exists lo, n. split; [assumption|].
    destruct demand as [|r0 rest]; [discriminate|].
    remember (r0 :: rest) as demand eqn:Ed. clear Ed.
    rewrite Hd. cbn [and_then]. rewrite daily_column, daily_index.
    destruct (window <? 1)%Z eqn:W.
    { unfold rolling_mean. rewrite W. reflexivity. }
    apply Z.ltb_ge in W.
    assert (EV : map (units_on demand) (days_from lo (S n))
                 = map (units_on demand) (days_from lo n)
                       ++ [units_on demand (lo + Z.of_nat n)%Z])
      by (now rewrite days_from_snoc, map_app).
    destruct (rolling_mean_last window (map (units_on demand) (days_from lo n))
                                (units_on demand (lo + Z.of_nat n)%Z) W)
      as [ma [Hma Hlast]].
    rewrite <- EV in Hma, Hlast. rewrite Hma. cbn [and_then]. rewrite Hlast.
    cbn [and_then]. rewrite max_days_from, E.
    cbn [next_day option_map date_range_periods and_then].
    assert (Hl : last_n (Z.to_nat window) (map (units_on demand) (days_from lo (S n)))
                 <> []).
    { apply last_n_nonempty; [lia|]. rewrite days_from_cons. discriminate. }
    destruct (last_n (Z.to_nat window) (map (units_on demand) (days_from lo (S n))))
      as [|x l]; [congruence|].
    rewrite VariabilityFacts.mean_cons. reflexivity.
  - apply max_date_none, map_eq_nil in Hmax. now subst demand.
Qed.

(** The same for [exponential_smoothing_forecast]. *)
Lemma es_cases (s : Snapshot) (pid : Z) (alpha : Q) (days : N) :
  pid <> 0%Z ->
  match max_date (map order_date (history s pid)) with
  | None => exponential_smoothing_forecast s pid alpha days = Returned []
  | Some hi =>
      exists lo n,
        (lo + Z.of_nat n = hi)%Z
        /\ exponential_smoothing_forecast s pid alpha days
           = Returned (forecast_frame
                         (days_from (hi + 1) (N.to_nat days))
                         (rint (fold_left (step alpha)
                                          (map (units_on (history s pid))
                                               (days_from (lo + 1) n))
                                          (units_on (history s pid) lo)))
                         "Exponential Smoothing")
  end.
Proof.
  intros Hp. pose proof (history_dates_sorted s pid Hp) as Hs.
  unfold exponential_smoothing_forecast. cbv zeta.
  remember (history s pid) as demand eqn:Ed. clear Ed.
  destruct (max_date (map order_date demand)) as [hi|] eqn:Hmax.
  - destruct (daily_returned demand Hs hi Hmax) as [lo [n [E [_ [_ Hd]]]]].
    exists lo, n. split; [assumption|].
    destruct demand as [|r0 rest]; [discriminate|].
    remember (r0 :: rest) as demand eqn:Ed. clear Ed.
    rewrite Hd. cbn [and_then]. rewrite daily_column, daily_index.
    rewrite max_days_from, E. rewrite days_from_cons. cbn [map smoothed and_then].
    rewrite smoothed_last. reflexivity.
  - apply max_date_none, map_eq_nil in Hmax. now subst demand.
Qed.

(** X17: for a product id other than 0 both forecasts are settled by
    the history of the product.  Without a sale that is not cancelled
    they return the empty frame, whatever the other arguments.  With a
    history the moving average raises when the window is below 1, and
    otherwise both return [forecast_days] rows dated on the consecutive
    days after the last sale, all with one quantity: the re-indexing
    never fails on a duplicate date. *)
Theorem forecasts_outcome (s : Snapshot) (pid window : Z) (days : N) (alpha : Q) :
  pid <> 0%Z ->
  match max_date (map order_date (prepare_demand_data s (Some pid) None)) with
  | None =>
      moving_average_forecast s pid window days = Returned []
      /\ exponential_smoothing_forecast s pid alpha days = Returned []
  | Some last =>
      let frame q method :=
        forecast_frame (days_from (last + 1) (N.to_nat days)) q method in
      (if (window <? 1)%Z
       then moving_average_forecast s pid window days = Raised ValueError
       else exists q,
           moving_average_forecast s pid window days
           = Returned (frame q "Moving Average"%string))
      /\ exists q,
          exponential_smoothing_forecast s pid alpha days
          = Returned (frame q "Exponential Smoothing"%string)
  end.
Proof.
  intros Hp. pose proof (ma_cases s pid window days Hp) as Hma.
  pose proof (es_cases s pid alpha days Hp) as Hes.
  destruct (max_date (map order_date (history s pid))) as [hi|]; [|now split].
  destruct Hma as [lo [n [_ Hma]]]. destruct Hes as [lo' [n' [_ Hes]]].
  cbv zeta. split.
  - destruct (window <? 1)%Z; [assumption|]. eexists. exact Hma.
  - eexists. exact Hes.
Qed.

Lemma forecasts_outcome_witness :
  1%Z <> 0%Z
  /\ (exists q, moving_average_forecast Examples.two_products 1 7 3
                = Returned (forecast_frame (days_from 103 3) q "Moving Average"%string))
  /\ (exists q, exponential_smoothing_forecast Examples.two_products 1 0.3 3
                = Returned (forecast_frame (days_from 103 3) q
                                           "Exponential Smoothing"%string)).
Proof.
  assert (H : 1%Z <> 0%Z) by lia.
  split; [exact H|].
  exact (forecasts_outcome Examples.two_products 1 7 3 0.3 H).
Defined.

(** A non-empty history has a best day. *)
Lemma best_day (demand : list (Z * Z * N)) :
  demand <> [] ->
  exists day, In day demand /\ forall r, In r demand -> (snd r <= snd day)%N.
Proof.
  induction demand as [|r0 rest IH]; [congruence|]. intros _.
  destruct rest as [|r1 rest'].
  - exists r0. split; [now left|]. intros r [E|[]]. subst. lia.
  - destruct IH as [day [Hin Hle]]; [discriminate|].
    destruct (N.le_ge_cases (snd r0) (snd day)) as [C|C].
    + exists day. split; [now right|]. intros r [E|Hr]; [subst; assumption|now apply Hle].
    + exists r0. split; [now left|]. intros r [E|Hr]; [subst; lia|].
      specialize (Hle r Hr). lia.
Qed.

(** Smoothing with [0 <= alpha <= 1] stays between the bounds of the
    series. *)
Lemma smooth_fold_bounds (alpha lo hi : Q) (values : list Q) (v0 : Q) :
  0 <= alpha <= 1 ->
  lo <= v0 <= hi ->
  (forall v, In v values -> lo <= v <= hi) ->
  lo <= fold_left (step alpha) values v0 <= hi.
Proof.
  intros Ha. revert v0. induction values as [|v values IH]; intros v0 H0 H; [exact H0|].
  simpl fold_left. apply IH.
  - assert (Hv : lo <= v <= hi) by (apply H; now left). split; nra.
  - intros w Hw. apply H. now right.
Qed.

Lemma last_default {A : Type} (l : list A) (a d : A) : last (a :: l) d = last l a.
Proof.
  revert a d. induction l as [|b l IH]; intros a d; [reflexivity|].
  change (last (a :: b :: l) d) with (last (b :: l) d).
  now rewrite (IH b d), (IH b a).
Qed.

(** Smoothing with [alpha = 1] keeps the last value. *)
Lemma smooth_fold_one (values : list Q) (v0 : Q) :
  fold_left (step 1) values v0 == last values v0.
Proof.
  revert v0. induction values as [|v values IH]; intros v0; [reflexivity|].
  simpl fold_left. rewrite IH.
  destruct values as [|w values]; [simpl; ring|].
  change (last (v :: w :: values) v0) with (last (w :: values) v0).
  rewrite !last_default. reflexivity.
Qed.

Lemma in_forecast_frame (dates : list Z) (q : Z) (method : string) (r : forecast_row) :
  In r (forecast_frame dates q method) ->
  In (fc_date r) dates /\ fc_forecasted_quantity r = q.
Proof.
  unfold forecast_frame. rewrite in_map_iff. intros [d [E Hd]]. subst r. now split.
Qed.

Lemma history_nonempty (demand : list (Z * Z * N)) (hi : Z) :
  max_date (map order_date demand) = Some hi -> demand <> [].
Proof.
  intros H E. subst demand. discriminate.
Qed.

(** X18: for a product id other than 0 and [0 <= alpha <= 1] the
    quantity either forecast returns is never negative and never above
    the units of the best day of the history. *)
Theorem forecast_within_history
  (s : Snapshot) (pid window : Z) (days : N) (alpha : Q) (rows : list forecast_row)
  (r : forecast_row) :
  pid <> 0%Z ->
  0 <= alpha <= 1 ->
  moving_average_forecast s pid window days = Returned rows
  \/ exponential_smoothing_forecast s pid alpha days = Returned rows ->
  In r rows ->
  (0 <= fc_forecasted_quantity r)%Z
  /\ exists day,
      In day (prepare_demand_data s (Some pid) None)
      /\ (fc_forecasted_quantity r <= Z.of_N (snd day))%Z.
Proof.
  intros Hp Ha Hres Hin.
  pose proof (ma_cases s pid window days Hp) as Hma.
  pose proof (es_cases s pid alpha days Hp) as Hes.
  destruct (max_date (map order_date (history s pid))) as [hi|] eqn:Hmax.
  2:{ destruct Hres as [K|K]; rewrite K in *; [injection Hma as E|injection Hes as E];
      subst rows; destruct Hin. }
  destruct (best_day _ (history_nonempty _ _ Hmax)) as [day [Hday Hbest]].
  assert (Hu : forall d, 0 <= units_on (history s pid) d <= inject_Z (Z.of_N (snd day))).
  { intros d. split; [apply units_on_nonneg|now apply units_on_le]. }
  assert (Hq : (0 <= fc_forecasted_quantity r <= Z.of_N (snd day))%Z).
  { destruct Hma as [lo [n [_ Hma]]]. destruct Hes as [lo' [n' [_ Hes]]].
    destruct Hres as [K|K]; rewrite K in *.
    - destruct (window <? 1)%Z eqn:W; [discriminate|]. apply Z.ltb_ge in W.
      cbv zeta in Hma. injection Hma as E. subst rows.
      apply in_forecast_frame in Hin. destruct Hin as [_ Eq]. rewrite Eq.
      set (l := last_n (Z.to_nat window)
                       (map (units_on (history s pid)) (days_from lo (S n)))).
      assert (Hl : l <> []).
      { apply last_n_nonempty; [lia|]. rewrite days_from_cons. discriminate. }
      assert (Hn : 0 < of_nat (List.length l)).
      { apply SupplierScoreFacts.of_nat_pos. destruct l; [congruence|simpl; lia]. }
      destruct (VariabilityFacts.sumQ_bounds l 0 (inject_Z (Z.of_N (snd day))))
        as [S1 S2].
      { intros y Hy. apply last_n_incl, in_map_iff in Hy. destruct Hy as [d [E _]].
        subst y. apply Hu. }
      rewrite <- (rint_inject_Z 0), <- (rint_inject_Z (Z.of_N (snd day))).
      split; apply rint_mono;
        [apply Qle_shift_div_l|apply Qle_shift_div_r]; assumption.
    - injection Hes as E. subst rows.
      apply in_forecast_frame in Hin. destruct Hin as [_ Eq]. rewrite Eq.
      destruct (smooth_fold_bounds alpha 0 (inject_Z (Z.of_N (snd day)))
                  (map (units_on (history s pid)) (days_from (lo' + 1) n'))
                  (units_on (history s pid) lo') Ha (Hu lo')) as [S1 S2].
      { intros v Hv. apply in_map_iff in Hv. destruct Hv as [d [E _]]. subst v.
        apply Hu. }
      rewrite <- (rint_inject_Z 0), <- (rint_inject_Z (Z.of_N (snd day))).
      split; apply rint_mono; assumption. }
  split; [apply Hq|]. exists day. split; [assumption|apply Hq].
Qed.

Lemma forecast_within_history_witness :
  let rows := forecast_frame (days_from 103 2) 4 "Exponential Smoothing" in
  let r := mkForecast 103 4 "Exponential Smoothing" in
  1%Z <> 0%Z
  /\ 0 <= 0.3 <= 1
  /\ (moving_average_forecast Examples.two_products 1 7 2 = Returned rows
      \/ exponential_smoothing_forecast Examples.two_products 1 0.3 2 = Returned rows)
  /\ In r rows
  /\ (0 <= fc_forecasted_quantity r)%Z
  /\ exists day,
      In day (prepare_demand_data Examples.two_products (Some 1%Z) None)
      /\ (fc_forecasted_quantity r <= Z.of_N (snd day))%Z.
Proof.
  intros rows r.
  assert (H1 : 1%Z <> 0%Z) by lia.
  assert (H2 : 0 <= 0.3 <= 1) by (split; lra).
  assert (H3 : moving_average_forecast Examples.two_products 1 7 2 = Returned rows
               \/ exponential_smoothing_forecast Examples.two_products 1 0.3 2
                  = Returned rows) by (right; vm_compute; reflexivity).
  assert (H4 : In r rows) by (left; reflexivity).
  split; [exact H1|]. split; [exact H2|]. split; [exact H3|]. split; [exact H4|].
  exact (forecast_within_history Examples.two_products 1 7 2 0.3 rows r H1 H2 H3 H4).
Defined.

(** X19: with a window of one day, or with [alpha = 1], the forecast is
    the naive one: every row carries the units sold on the last day of
    the history, and is dated after it. *)
Theorem naive_forecast
  (s : Snapshot) (pid : Z) (days : N) (rows : list forecast_row) (r : forecast_row) :
  pid <> 0%Z ->
  moving_average_forecast s pid 1 days = Returned rows
  \/ exponential_smoothing_forecast s pid 1 days = Returned rows ->
  In r rows ->
  exists day,
    In day (prepare_demand_data s (Some pid) None)
    /\ (forall day', In day' (prepare_demand_data s (Some pid) None) ->
                     (order_date day' <= order_date day)%Z)
    /\ fc_forecasted_quantity r = Z.of_N (snd day)
    /\ (order_date day < fc_date r)%Z.
Proof.
  intros Hp Hres Hin.
  pose proof (ma_cases s pid 1 days Hp) as Hma.
  pose proof (es_cases s pid 1 days Hp) as Hes.
  pose proof (history_dates_sorted s pid Hp) as Hs.
  destruct (max_date (map order_date (history s pid))) as [hi|] eqn:Hmax.
  2:{ destruct Hres as [K|K]; rewrite K in *; [injection Hma as E|injection Hes as E];
      subst rows; destruct Hin. }
  destruct (daily_returned _ Hs hi Hmax) as [_ [_ [_ [Hhi [Hle _]]]]].
  destruct (units_on_date _ hi Hhi) as [day [Hday [Edate Eunits]]].
  exists day. split; [assumption|]. split.
  { intros day' Hd. rewrite Edate. apply Hle. now apply in_map. }
  assert (Hlast : forall lo n, (lo + Z.of_nat n = hi)%Z ->
                    map (units_on (history s pid)) (days_from lo (S n))
                    = map (units_on (history s pid)) (days_from lo n)
                          ++ [of_N (snd day)]).
  { intros lo n E. rewrite days_from_snoc, map_app, E. simpl. now rewrite Eunits. }
  assert (Hq : forall q, q == of_N (snd day) -> rint q = Z.of_N (snd day)).
  { intros q E. rewrite (rint_Qeq _ _ E). apply rint_inject_Z. }
  destruct Hma as [lo [n [E1 Hma]]]. destruct Hes as [lo' [n' [E2 Hes]]].
  cbv zeta in Hma. rewrite (Hlast lo n E1) in Hma.
  change (Z.to_nat 1) with 1%nat in Hma. rewrite last_n_one in Hma.
  assert (Q1 : rint (sumQ [of_N (snd day)] / of_nat (List.length [of_N (snd day)]))
               = Z.of_N (snd day)).
  { apply Hq. change (sumQ [of_N (snd day)]) with (0 + of_N (snd day)).
    change (of_nat (List.length [of_N (snd day)])) with 1. field. }
  rewrite Q1 in Hma. clear Q1.
  assert (Q2 : rint (fold_left (step 1)
                               (map (units_on (history s pid)) (days_from (lo' + 1) n'))
                               (units_on (history s pid) lo'))
               = Z.of_N (snd day)).
  { apply Hq. rewrite smooth_fold_one, <- last_default with (d := 0).
    rewrite <- (map_cons (units_on (history s pid))), <- days_from_cons.
    rewrite (Hlast lo' n' E2), last_last. reflexivity. }
  rewrite Q2 in Hes. clear Q2.
  destruct Hres as [K|K]; rewrite K in *.
  - change (1 <? 1)%Z with false in Hma. injection Hma as E. subst rows.
    apply in_forecast_frame in Hin. destruct Hin as [Hd Eq].
    apply in_days_from in Hd. split; [assumption|lia].
  - injection Hes as E. subst rows.
    apply in_forecast_frame in Hin. destruct Hin as [Hd Eq].
    apply in_days_from in Hd. split; [assumption|lia].
Qed.

Lemma naive_forecast_witness :
  let rows := forecast_frame (days_from 103 3) 6 "Moving Average" in
  let r := mkForecast 103 6 "Moving Average" in
  1%Z <> 0%Z
  /\ (moving_average_forecast Examples.two_products 1 1 3 = Returned rows
      \/ exponential_smoothing_forecast Examples.two_products 1 1 3 = Returned rows)
  /\ In r rows
  /\ exists day,
      In day (prepare_demand_data Examples.two_products (Some 1%Z) None)
      /\ (forall day', In day' (prepare_demand_data Examples.two_products (Some 1%Z) None) ->
                       (order_date day' <= order_date day)%Z)
      /\ fc_forecasted_quantity r = Z.of_N (snd day)
      /\ (order_date day < fc_date r)%Z.
Proof.
  intros rows r.
  assert (H1 : 1%Z <> 0%Z) by lia.
  assert (H2 : moving_average_forecast Examples.two_products 1 1 3 = Returned rows
               \/ exponential_smoothing_forecast Examples.two_products 1 1 3
                  = Returned rows) by (left; vm_compute; reflexivity).
  assert (H3 : In r rows) by (left; reflexivity).
  split; [exact H1|]. split; [exact H2|]. split; [exact H3|].
  exact (naive_forecast Examples.two_products 1 3 rows r H1 H2 H3).
Defined.

(** X20: product id 0 is no filter, and then both forecasts raise as
    soon as two products have been sold on one day: the re-indexing
    refuses the duplicate date, whatever the other arguments. *)
Theorem all_products_forecast_raises
  (s : Snapshot) (r1 r2 : SalesOrder.t * SalesOrderItem.t)
  (window : Z) (days : N) (alpha : Q) :
  In r1 (sales_with_items s) ->
  In r2 (sales_with_items s) ->
  SalesOrder.order_date (fst r1) = SalesOrder.order_date (fst r2) ->
  SalesOrderItem.product_id (snd r1) <> SalesOrderItem.product_id (snd r2) ->
  moving_average_forecast s 0 window days = Raised ValueError
  /\ exponential_smoothing_forecast s 0 alpha days = Raised ValueError.
Proof.
  intros H1 H2 Ed Ep.
  set (key := fun r : SalesOrder.t * SalesOrderItem.t =>
                (SalesOrder.order_date (fst r), SalesOrderItem.product_id (snd r))).
  assert (Hk : forall r, In r (sales_with_items s) ->
                 exists row, In row (prepare_demand_data s (Some 0%Z) None)
                             /\ fst row = key r).
  { intros r Hr. unfold prepare_demand_data. simpl.
    destruct (groupby_complete (cmp_pair Z.compare Z.compare) key
                               cmp_pair_ZZ_eq cmp_pair_ZZ_gt _ r Hr) as [g [Hg [Eg _]]].
    exists (fst g, sumN (map item_qty (snd g))). split; [|exact Eg].
    apply in_map_iff. now exists g. }
  destruct (Hk r1 H1) as [x1 [Hx1 E1]]. destruct (Hk r2 H2) as [x2 [Hx2 E2]].
  assert (Hu : is_unique (map order_date (prepare_demand_data s (Some 0%Z) None)) = false).
  { destruct (is_unique _) eqn:U; [|reflexivity]. exfalso.
    apply is_unique_nodup in U.
    assert (E : x1 = x2).
    { apply (CancelFacts.NoDup_map_inj order_date _ x1 x2 U Hx1 Hx2).
      unfold order_date. rewrite E1, E2. exact Ed. }
    subst x2. apply Ep. rewrite E1 in E2. unfold key in E2. now injection E2. }
  unfold moving_average_forecast, exponential_smoothing_forecast. cbv zeta.
  remember (prepare_demand_data s (Some 0%Z) None) as demand eqn:Edm. clear Edm.
  destruct demand as [|r0 rest]; [destruct Hx1|].
  remember (r0 :: rest) as demand eqn:Edm.
  assert (Hd : daily demand = Raised ValueError).
  { unfold daily. rewrite Edm at 1 2. cbn [map min_date max_date date_range and_then].
    unfold reindex. now rewrite Hu. }
  rewrite Hd. split; reflexivity.
Qed.

Lemma all_products_forecast_raises_witness :
  let r1 := (SalesOrder.mk 1 1 100 "Delivered", SalesOrderItem.mk 1 1 4 15) in
  let r2 := (SalesOrder.mk 1 1 100 "Delivered", SalesOrderItem.mk 1 2 1 200) in
  In r1 (sales_with_items Examples.two_products)
  /\ In r2 (sales_with_items Examples.two_products)
  /\ SalesOrder.order_date (fst r1) = SalesOrder.order_date (fst r2)
  /\ SalesOrderItem.product_id (snd r1) <> SalesOrderItem.product_id (snd r2)
  /\ moving_average_forecast Examples.two_products 0 7 30 = Raised ValueError
  /\ exponential_smoothing_forecast Examples.two_products 0 0.3 30 = Raised ValueError.
Proof.
  intros r1 r2.
  assert (H1 : In r1 (sales_with_items Examples.two_products))
    by (vm_compute; left; reflexivity).
  assert (H2 : In r2 (sales_with_items Examples.two_products))
    by (vm_compute; right; left; reflexivity).
  assert (H3 : SalesOrder.order_date (fst r1) = SalesOrder.order_date (fst r2))
    by reflexivity.
  assert (H4 : SalesOrderItem.product_id (snd r1) <> SalesOrderItem.product_id (snd r2))
    by (simpl; lia).
  split; [exact H1|]. split; [exact H2|]. split; [exact H3|]. split; [exact H4|].
  exact (all_products_forecast_raises Examples.two_products r1 r2 7 30 0.3 H1 H2 H3 H4).
Defined.

End ForecastFacts.

(** ** Stockouts *)

Module StockoutFacts.

Import Num Frame Groups StockoutAnalyzer.

Lemma impact_row_origin (d : StockoutData) (r : impact_row) :
  In r (analyze_stockout_impact d) ->
  exists i p w,
    r = impact_row_of (i, p, w) /\ In i (impact_of (so_stockout_events d)).
Proof.
  unfold analyze_stockout_impact. intros Hin.
  apply (Permutation_in r (sort_values_desc_perm _ _)) in Hin.
  apply in_map_iff in Hin. destruct Hin as [[[i p] w] [E Hin]].
  exists i, p, w. split; [now symmetry|].
  apply in_merge in Hin. destruct Hin as [Hin _]. apply in_merge in Hin. tauto.
Qed.

Lemma impact_shape (events : list StockoutEvent.t) (i : impact) :
  In i (impact_of events) ->
  exists g : list StockoutEvent.t,
    g <> [] /\ (forall e, In e g -> In e events)
    /\ im_stockout_count i = List.length g
    /\ im_avg_duration_days i = sumQ (map duration_days g) / of_nat (List.length g)
    /\ im_total_lost_revenue i = sumQ (map StockoutEvent.lost_sales_amount g).
Proof.
  unfold impact_of. rewrite in_map_iff. intros [g [E Hg]]. subst i. simpl.
  destruct (group_nonempty _ _ cmp_pair_ZZ_eq cmp_pair_ZZ_gt _ _ Hg) as [Hne Hall].
  exists (snd g). repeat split; try assumption. intros e He. now apply Hall.
Qed.

(** X21: the stockout table is in descending order of severity, and
    every row stands for at least one event.  When no event ends before
    it starts or carries a negative loss, the severity score of a row is
    at least 30 times its number of events, and the displayed average
    duration and lost revenue are not negative. *)
Theorem stockout_severity (d : StockoutData) :
  (forall e, In e (so_stockout_events d) ->
             (StockoutEvent.stockout_start_date e <= StockoutEvent.stockout_end_date e)%Z
             /\ 0 <= StockoutEvent.lost_sales_amount e) ->
  StronglySorted (fun a b => ir_severity_score b <= ir_severity_score a)
                 (analyze_stockout_impact d)
  /\ forall r, In r (analyze_stockout_impact d) ->
       (1 <= ir_stockout_count r)%nat
       /\ 30 * of_nat (ir_stockout_count r) <= ir_severity_score r
       /\ 0 <= ir_avg_duration_days r
       /\ 0 <= ir_total_lost_revenue r.
Proof.
  intros Hev. split; [apply sort_values_desc_sorted|].
  intros r Hin. apply impact_row_origin in Hin.
  destruct Hin as [i [p [w [E Hi]]]]. subst r. simpl.
  destruct (impact_shape _ _ Hi) as [g [Hne [Hg [Ec [Ea El]]]]].
  assert (Hn : (1 <= List.length g)%nat) by (destruct g; [congruence|simpl; lia]).
  assert (Hpos : 0 < of_nat (List.length g)) by now apply SupplierScoreFacts.of_nat_pos.
  assert (Hd : 0 <= sumQ (map duration_days g)).
  { apply AbcOrderFacts.sumQ_nonneg, Forall_forall. intros x Hx.
    apply in_map_iff in Hx. destruct Hx as [e [Ex He]]. subst x. unfold duration_days.
    change 0 with (inject_Z 0). rewrite <- Zle_Qle.
    destruct (Hev e (Hg e He)) as [H _]. lia. }
  assert (Hl : 0 <= sumQ (map StockoutEvent.lost_sales_amount g)).
  { apply AbcOrderFacts.sumQ_nonneg, Forall_forall. intros x Hx.
    apply in_map_iff in Hx. destruct Hx as [e [Ex He]]. subst x.
    now destruct (Hev e (Hg e He)). }
  assert (Havg : 0 <= im_avg_duration_days i).
  { rewrite Ea. apply Qle_shift_div_l; [assumption|lra]. }
  rewrite <- El in Hl. rewrite Ec.
  assert (R0 : forall n x, 0 <= x -> 0 <= round_dp n x).
  { intros n x Hx. change 0 with (inject_Z 0). rewrite <- (round_dp_int n 0).
    now apply round_dp_mono. }
  split; [assumption|]. split; [|split; now apply R0].
  assert (E30 : 30 * of_nat (List.length g)
                == inject_Z (30 * Z.of_nat (List.length g))).
  { unfold of_nat. now rewrite inject_Z_mult. }
  rewrite E30, <- (round_dp_int 0 (30 * Z.of_nat (List.length g))).
  apply round_dp_mono. rewrite <- E30. unfold severity_score_of. rewrite Ec.
  set (c := of_nat (List.length g)) in *. set (a := im_avg_duration_days i) in *.
  assert (0 <= im_total_lost_revenue i / 100) by (apply Qle_shift_div_l; lra).
  lra.
Qed.

Lemma stockout_severity_witness :
  let r := mkImpactRow "WH-01" "SKU-00001" "Basic Lamp" 2 4.0 32 480.00 105 in
  (forall e, In e (so_stockout_events StockoutExamples.three_events) ->
             (StockoutEvent.stockout_start_date e <= StockoutEvent.stockout_end_date e)%Z
             /\ 0 <= StockoutEvent.lost_sales_amount e)
  /\ In r (analyze_stockout_impact StockoutExamples.three_events)
  /\ (1 <= ir_stockout_count r)%nat
  /\ 30 * of_nat (ir_stockout_count r) <= ir_severity_score r
  /\ 0 <= ir_avg_duration_days r
  /\ 0 <= ir_total_lost_revenue r.
Proof.
  intros r.
  assert (He : forall e, In e (so_stockout_events StockoutExamples.three_events) ->
                 (StockoutEvent.stockout_start_date e
                  <= StockoutEvent.stockout_end_date e)%Z
                 /\ 0 <= StockoutEvent.lost_sales_amount e).
  { intros e [E|[E|[E|[]]]]; subst e; simpl; split; try lia; lra. }
  assert (H : In r (analyze_stockout_impact StockoutExamples.three_events))
    by (vm_compute; left; reflexivity).
  split; [exact He|]. split; [exact H|].
  exact (proj2 (stockout_severity StockoutExamples.three_events He) r H).
Defined.

Lemma fold_add_list_sum (l : list nat) (a : nat) :
  fold_left Nat.add l a = (a + list_sum l)%nat.
Proof.
  revert a. induction l as [|x l IH]; intros a; simpl; [lia|]. rewrite IH. lia.
Qed.

Lemma list_sum_perm (l l' : list nat) : Permutation l l' -> list_sum l = list_sum l'.
Proof.
  induction 1; simpl; lia.
Qed.

Lemma length_rows_of {K R : Type} (gs : list (K * list R)) :
  List.length (rows_of gs) = list_sum (map (fun g => List.length (snd g)) gs).
Proof.
  unfold rows_of. induction gs as [|g gs IH]; [reflexivity|].
  simpl. now rewrite length_app, IH.
Qed.

Lemma string_compare_eq (x y : string) : String.compare x y = Eq -> x = y.
Proof.
  apply String.compare_eq_iff.
Qed.

Lemma string_compare_gt (x y : string) :
  String.compare x y = Gt -> String.compare y x = Lt.
Proof.
  intros H. rewrite String.compare_antisym, H. reflexivity.
Qed.

(** X22: the root-cause table accounts for every event once.  Its
    occurrence counts add up to the number of events and its lost units
    to the units of all events; it is in descending order of count; and
    every row has at least one event and a share between 0 and 100, a
    number: the division by the number of events never meets a zero. *)
Theorem root_cause_totals (d : StockoutData) :
  let events := so_stockout_events d in
  let rows := get_root_cause_analysis d in
  list_sum (map cr_occurrence_count rows) = List.length events
  /\ sumN (map cr_total_lost_units rows)
     = sumN (map StockoutEvent.demand_during_stockout events)
  /\ StronglySorted (fun a b => (cr_occurrence_count b <= cr_occurrence_count a)%nat) rows
  /\ forall r, In r rows ->
       (1 <= cr_occurrence_count r <= List.length events)%nat
       /\ exists p, cr_pct_of_stockouts r = Fin p /\ 0 <= p <= 100.
Proof.
  cbv zeta. unfold get_root_cause_analysis.
  set (gs := groupby String.compare StockoutEvent.root_cause (so_stockout_events d)).
  set (causes := map (fun g => (fst g, List.length (snd g),
                                sumQ (map StockoutEvent.lost_sales_amount (snd g)),
                                sumN (map StockoutEvent.demand_during_stockout (snd g))))
                     gs).
  assert (Htotal : fold_left Nat.add (map (fun c => snd (fst (fst c))) causes) 0%nat
                   = List.length (so_stockout_events d)).
  { rewrite fold_add_list_sum. simpl. unfold causes. rewrite map_map. simpl.
    rewrite <- length_rows_of. apply Permutation_length, groupby_perm. }
  rewrite Htotal.
  set (row := fun c : string * nat * Q * N =>
                let '(cause, count, revenue, units) := c in
                mkCause cause count (round_dp 2 revenue) units
                        (cell_round 2
                           (cell_mul (cell_div (Fin (of_nat count))
                                               (Fin (of_nat (List.length
                                                               (so_stockout_events d)))))
                                     (Fin 100)))).
  pose proof (sort_values_desc_perm (fun r => of_nat (cr_occurrence_count r))
                                    (map row causes)) as Hperm.
  split; [|split; [|split]].
  - rewrite (list_sum_perm _ _ (Permutation_map cr_occurrence_count Hperm)).
    unfold causes. rewrite !map_map.
    erewrite map_ext; [|intros g; reflexivity]. simpl.
    rewrite <- length_rows_of. apply Permutation_length, groupby_perm.
  - rewrite (sumN_perm _ _ (Permutation_map cr_total_lost_units Hperm)).
    unfold causes. rewrite !map_map. simpl. apply sumN_groupby.
  - pose proof (sort_values_desc_sorted (fun r => of_nat (cr_occurrence_count r))
                                        (map row causes)) as Hs.
    revert Hs. apply strongly_sorted_weaken. intros x y _ _ H.
    unfold of_nat in H. rewrite <- Zle_Qle in H. lia.
  - intros r Hr. apply (Permutation_in r Hperm) in Hr.
    apply in_map_iff in Hr. destruct Hr as [c [E Hc]]. subst r.
    unfold causes in Hc. apply in_map_iff in Hc. destruct Hc as [g [E Hg]]. subst c.
    simpl.
    destruct (group_nonempty _ _ string_compare_eq string_compare_gt _ _ Hg)
      as [Hne Hall].
    assert (Hn : (1 <= List.length (snd g))%nat)
      by (destruct (snd g); [congruence|simpl; lia]).
    assert (Hle : (List.length (snd g) <= List.length (so_stockout_events d))%nat).
    { rewrite <- (Permutation_length (groupby_perm String.compare
                                        StockoutEvent.root_cause (so_stockout_events d))).
      fold gs. rewrite length_rows_of.
      clear - Hg. induction gs as [|g' gs' IH]; [destruct Hg|].
      simpl. destruct Hg as [E|Hg]; [subst; lia|]. specialize (IH Hg). lia. }
    split; [lia|].
    assert (Hpos : 0 < of_nat (List.length (so_stockout_events d)))
      by (apply SupplierScoreFacts.of_nat_pos; lia).
    rewrite is_zero_false by lra. simpl. eexists. split; [reflexivity|].
    change 0 with (inject_Z 0). change 100 with (inject_Z 100).
    apply round_dp_bounds. change (inject_Z 0) with 0. change (inject_Z 100) with 100.
    apply SupplierScoreFacts.rate_percentage; [|assumption].
    split; [apply SupplierScoreFacts.of_nat_nonneg|now apply SupplierScoreFacts.of_nat_le].
Qed.

End StockoutFacts.

(** ** Reorder points: the displayed columns *)

Module ReorderColumnFacts.

Import Num Frame InventoryAnalytics.

Lemma sq_nonneg_std (qs : list Q) (fill : Q) : 0 <= sq (fillna_std fill (std qs)).
Proof.
  unfold std. destruct (VariabilityFacts.var_cases qs) as [V|[v [V [Hv _]]]]; rewrite V.
  - simpl. nra.
  - exact Hv.
Qed.

Lemma demand_stat_std (sales : list (SalesOrder.t * SalesOrderItem.t)) (d : demand_stat) :
  In d (demand_stats sales) -> 0 <= sq (ds_std_daily_demand d).
Proof.
  unfold demand_stats. rewrite in_map_iff. intros [g [E _]]. subst d. simpl.
  apply sq_nonneg_std.
Qed.

Lemma reorder_row_source (s : Snapshot) (z_score : Q) (lookback_days : Z) (r : reorder_row) :
  In r (calculate_reorder_points s z_score lookback_days) ->
  exists d i p w,
    r = reorder_row_of z_score (d, i, p, w)
    /\ In d (demand_stats (recent_sales s lookback_days)).
Proof.
  unfold calculate_reorder_points. intros H. apply in_map_iff in H.
  destruct H as [[[[d i] p] w] [E H]]. exists d, i, p, w. split; [now symmetry|].
  apply in_merge in H. destruct H as [H _]. apply in_merge in H. destruct H as [H _].
  apply in_merge in H. tauto.
Qed.

Lemma variance_nonneg (l : N) (sd : stdev) (d : Q) :
  0 <= sq sd ->
  0 <= lead_time_demand_variance (of_N l) sd d (of_N l * 0.2).
Proof.
  intros H. unfold lead_time_demand_variance.
  pose proof (TurnoverFacts.of_N_nonneg l) as Hl. set (L := of_N l) in *.
  assert (0 <= L * sq sd) by (apply Qmult_le_0_compat; assumption).
  assert (0 <= (d * d) * (L * 0.2 * (L * 0.2))) by (apply Qmult_le_0_compat; nra).
  lra.
Qed.

(** X23: in every row of the reorder table the displayed reorder point
    is the displayed safety stock plus the lead-time demand
    [avg_daily_demand * avg_lead_time], up to one unit: the two columns
    are rounded separately. *)
Theorem rop_is_demand_plus_safety_stock
  (s : Snapshot) (z_score : Q) (lookback_days : Z) (r : reorder_row) :
  In r (calculate_reorder_points s z_score lookback_days) ->
  Qabs (inject_Z (ro_calculated_rop r) - inject_Z (ro_safety_stock r)
        - ro_avg_daily_demand r * of_N (ro_avg_lead_time r)) <= 1.
Proof.
  intros Hin. apply reorder_row_source in Hin.
  destruct Hin as [d [i [p [w [E Hd]]]]]. subst r. unfold reorder_row_of.
  cbn [ro_calculated_rop ro_safety_stock ro_avg_daily_demand ro_avg_lead_time].
  pose proof (variance_nonneg (Product.lead_time_days p) (ds_std_daily_demand d)
                              (ds_avg_daily_demand d) (demand_stat_std _ _ Hd)) as Hv.
  set (ss := safety_stock_of z_score (of_N (Product.lead_time_days p))
                             (ds_std_daily_demand d) (ds_avg_daily_demand d)
                             (of_N (Product.lead_time_days p) * 0.2)).
  set (rop := calculated_rop_of z_score (of_N (Product.lead_time_days p))
                                (ds_std_daily_demand d) (ds_avg_daily_demand d)
                                (of_N (Product.lead_time_days p) * 0.2)).
  pose proof (rint_surd_nearest ss Hv) as [Hs _].
  pose proof (rint_surd_nearest rop Hv) as [Hr _].
  apply Rabs_half in Hs, Hr.
  assert (Es : surd_value rop
               = (Q2R (ds_avg_daily_demand d * of_N (Product.lead_time_days p))
                  + surd_value ss)%R).
  { unfold surd_value, rop, ss, calculated_rop_of, safety_stock_of. simpl.
    rewrite Q2R_zero. ring. }
  rewrite Es in Hr. clear Es.
  set (a := ds_avg_daily_demand d * of_N (Product.lead_time_days p)) in *.
  set (m := rint_surd rop) in *. set (n := rint_surd ss) in *.
  apply (proj2 (Qabs_Qle_condition _ _)). split; apply Rle_Qle;
    rewrite ?Q2R_opp, !Q2R_minus, !Q2R_inject_Z;
    replace (Q2R 1) with 1%R by (unfold Q2R; simpl; field); lra.
Qed.

Lemma rop_is_demand_plus_safety_stock_witness :
  let r := mkReorder "WH-01" "SKU-00001" "Basic Lamp" 100 (10 # 2) 5 10 20 35
                     "Increase ROP" in
  In r (calculate_reorder_points Examples.lamp Examples.z_95 90)
  /\ Qabs (inject_Z (ro_calculated_rop r) - inject_Z (ro_safety_stock r)
           - ro_avg_daily_demand r * of_N (ro_avg_lead_time r)) <= 1.
Proof.
  intros r.
  assert (Hin : In r (calculate_reorder_points Examples.lamp Examples.z_95 90))
    by (vm_compute; left; reflexivity).
  split; [exact Hin|].
  exact (rop_is_demand_plus_safety_stock Examples.lamp Examples.z_95 90 r Hin).
Defined.

End ReorderColumnFacts.

(** ** Carrying costs: what the table counts *)

Section JoinOnKeys.

Import Frame.

Context {A B : Type}.

(** A key column without duplicates matches at most one row. *)
Lemma filter_key_length (key : B -> Z) (k : Z) (r : list B) :
  NoDup (map key r) ->
  (List.length (filter (fun b => (k =? key b)%Z) r) <= 1)%nat.
Proof.
  induction r as [|a r IH]; simpl; intros H; [lia|].
  inversion H as [|? ? Hnot Hnd]; subst. specialize (IH Hnd).
  destruct (k =? key a)%Z eqn:E; [|assumption].
  apply Z.eqb_eq in E. simpl.
  destruct (filter (fun b => (k =? key b)%Z) r) as [|b bs] eqn:F; [simpl; lia|].
  exfalso. apply Hnot.
  assert (Hb : In b (filter (fun b => (k =? key b)%Z) r)) by (rewrite F; now left).
  apply filter_In in Hb. destruct Hb as [Hb Eb]. apply Z.eqb_eq in Eb.
  rewrite <- E, Eb. now apply in_map.
Qed.

Variable on : A -> B -> bool.

Lemma merge_length_one (l : list A) (r : list B) :
  (forall a, (List.length (filter (on a) r) <= 1)%nat) ->
  (List.length l <= 1)%nat ->
  (List.length (merge on l r) <= 1)%nat.
Proof.
  intros H Hl. destruct l as [|a [|a' l]]; [simpl; lia| |simpl in Hl; lia].
  unfold merge. cbn [flat_map]. rewrite app_nil_r, length_map. apply H.
Qed.

Lemma merge_left_length_one (l : list A) (r : list B) :
  (forall a, (List.length (filter (on a) r) <= 1)%nat) ->
  (List.length l <= 1)%nat ->
  (List.length (merge_left on l r) <= 1)%nat.
Proof.
  intros H Hl. destruct l as [|a [|a' l]]; [simpl; lia| |simpl in Hl; lia].
  unfold merge_left. cbn [flat_map]. rewrite app_nil_r. specialize (H a).
  destruct (filter (on a) r) as [|b bs]; [simpl; lia|]. now rewrite length_map.
Qed.

Lemma in_merge_left_some (a : A) (b : B) (l : list A) (r : list B) :
  In a l -> In b r -> on a b = true -> In (a, Some b) (merge_left on l r).
Proof.
  intros Ha Hb Hon. unfold merge_left. apply in_flat_map. exists a.
  split; [assumption|].
  assert (Hf : In b (filter (on a) r)) by (apply filter_In; now split).
  destruct (filter (on a) r) as [|b0 bs]; [destruct Hf|].
  now apply (in_map (fun b => (a, Some b))).
Qed.

Lemma merge_app (l l' : list A) (r : list B) :
  merge on (l ++ l') r = merge on l r ++ merge on l' r.
Proof.
  unfold merge. apply flat_map_app.
Qed.

Lemma merge_left_app (l l' : list A) (r : list B) :
  merge_left on (l ++ l') r = merge_left on l r ++ merge_left on l' r.
Proof.
  unfold merge_left. apply flat_map_app.
Qed.

End JoinOnKeys.

Module CarryingCountFacts.

Import Num Frame Groups InventoryAnalytics.

Local Abbreviation with_inventory s inv :=
  (mkSnapshot (products s) inv (sales_orders s) (sales_order_items s)
              (purchase_orders s) (warehouses s) (product_categories s)).

Local Abbreviation units := (fun r : string * string * string * (N * Q) => fst (snd r)).

Lemma valued_self (s : Snapshot) :
  valued_inventory s = valued_inventory (with_inventory s (inventory s)).
Proof.
  now destruct s.
Qed.

Lemma valued_cons (s : Snapshot) (i : Inventory.t) (inv : list Inventory.t) :
  valued_inventory (with_inventory s (i :: inv))
  = valued_inventory (with_inventory s [i]) ++ valued_inventory (with_inventory s inv).
Proof.
  unfold valued_inventory. cbn [products inventory warehouses product_categories].
  change (i :: inv) with ([i] ++ inv).
  now rewrite !merge_app, merge_left_app, flat_map_app.
Qed.

Section OneRow.

Variable s : Snapshot.
Hypothesis products_key : NoDup (map Product.product_id (products s)).
Hypothesis warehouses_key : NoDup (map Warehouse.warehouse_id (warehouses s)).
Hypothesis categories_key : NoDup (map Category.category_id (product_categories s)).

(** With unique ids an inventory row is joined to at most one product,
    warehouse and category. *)
Lemma valued_one_length (i : Inventory.t) :
  (List.length (valued_inventory (with_inventory s [i])) <= 1)%nat.
Proof.
  unfold valued_inventory. cbn [products inventory warehouses product_categories].
  assert (G : forall (X : Type) (g : X -> list (string * string * string * (N * Q)))
                     (l : list X),
             (forall x, (List.length (g x) <= 1)%nat) ->
             (List.length l <= 1)%nat -> (List.length (flat_map g l) <= 1)%nat).
  { intros X g l Hg Hl. destruct l as [|x [|x' l]]; [simpl; lia| |simpl in Hl; lia].
    simpl. rewrite app_nil_r. apply Hg. }
  apply G.
  { intros [[[i' p] w] [c|]]; simpl; lia. }
  apply merge_left_length_one.
  { intros a. exact (filter_key_length Category.category_id _ _ categories_key). }
  apply merge_length_one.
  { intros a. exact (filter_key_length Warehouse.warehouse_id _ _ warehouses_key). }
  apply merge_length_one; [|simpl; lia].
  intros a. exact (filter_key_length Product.product_id _ _ products_key).
Qed.

End OneRow.

Lemma valued_one_units (s : Snapshot) (i : Inventory.t)
  (row : string * string * string * (N * Q)) :
  In row (valued_inventory (with_inventory s [i])) ->
  units row = Inventory.quantity_on_hand i.
Proof.
  unfold valued_inventory. cbn [products inventory warehouses product_categories].
  rewrite in_flat_map. intros [[[[i' p] w] c] [Hin Hrow]].
  apply in_merge_left in Hin. destruct Hin as [Hin _].
  apply in_merge in Hin. destruct Hin as [Hin _].
  apply in_merge in Hin. destruct Hin as [[E|[]] _]. subst i'.
  destruct c as [c|]; [|destruct Hrow]. destruct Hrow as [E|[]]. now subst row.
Qed.

(** An inventory row whose product, warehouse and category are on file
    is in the joined frame. *)
Lemma valued_one_resolved (s : Snapshot) (i : Inventory.t)
  (p : Product.t) (w : Warehouse.t) (c : Category.t) :
  In p (products s) -> Product.product_id p = Inventory.product_id i ->
  In w (warehouses s) -> Warehouse.warehouse_id w = Inventory.warehouse_id i ->
  In c (product_categories s) -> Category.category_id c = Product.category_id p ->
  valued_inventory (with_inventory s [i]) <> [].
Proof.
  intros Hp Ep Hw Ew Hc Ec.
  assert (Hin : In (Warehouse.warehouse_code w, Warehouse.warehouse_name w,
                    Category.category_name c,
                    (Inventory.quantity_on_hand i,
                     of_N (Inventory.quantity_on_hand i) * Product.unit_cost p))
                   (valued_inventory (with_inventory s [i]))).
  { unfold valued_inventory. cbn [products inventory warehouses product_categories].
    apply in_flat_map. exists (i, p, w, Some c). split; [|now left].
    apply in_merge_left_some; [|assumption|simpl; rewrite Ec; apply Z.eqb_refl].
    apply in_merge. split; [|split; [assumption|simpl; rewrite Ew; apply Z.eqb_refl]].
    apply in_merge. split; [now left|]. split; [assumption|].
    rewrite Ep. apply Z.eqb_refl. }
  intro E. rewrite E in Hin. destruct Hin.
Qed.

Lemma sumN_short {X : Type} (f : X -> N) (q : N) (l : list X) :
  (List.length l <= 1)%nat -> (forall x, In x l -> f x = q) ->
  (sumN (map f l) <= q)%N /\ (l <> [] -> sumN (map f l) = q).
Proof.
  intros Hl Hf. destruct l as [|x [|x' l]]; [|  |simpl in Hl; lia].
  - split; [apply N.le_0_l|congruence].
  - simpl. rewrite sumN_cons, (Hf x (or_introl eq_refl)).
    change (sumN []) with 0%N. split; [lia|intros _; lia].
Qed.

Lemma table_units (s : Snapshot) :
  sumN (map k_total_units (calculate_carrying_costs s))
  = sumN (map units (valued_inventory s)).
Proof.
  unfold calculate_carrying_costs, carrying_summary. rewrite !map_map.
  rewrite <- (sumN_groupby cmp_key3 fst units (valued_inventory s)).
  f_equal. apply map_ext. intros [[[code name] cat] rows]. reflexivity.
Qed.

Lemma table_count (s : Snapshot) :
  list_sum (map k_product_count (calculate_carrying_costs s))
  = List.length (valued_inventory s).
Proof.
  unfold calculate_carrying_costs, carrying_summary. rewrite !map_map.
  rewrite <- (Permutation_length (groupby_perm cmp_key3 fst (valued_inventory s))).
  rewrite StockoutFacts.length_rows_of. f_equal. apply map_ext.
  intros [[[code name] cat] rows]. reflexivity.
Qed.

(** X24: when product, warehouse and category ids are unique, the
    carrying-cost table counts no inventory row twice: its product
    counts add up to at most the number of inventory rows and its units
    to at most the units on hand.  Rows whose product, warehouse or
    category is not on file are left out; when every row is on file
    the two totals are exact. *)
Theorem carrying_costs_count_once (s : Snapshot) :
  NoDup (map Product.product_id (products s)) ->
  NoDup (map Warehouse.warehouse_id (warehouses s)) ->
  NoDup (map Category.category_id (product_categories s)) ->
  let rows := calculate_carrying_costs s in
  let on_file i :=
    exists p w c,
      In p (products s) /\ Product.product_id p = Inventory.product_id i
      /\ In w (warehouses s) /\ Warehouse.warehouse_id w = Inventory.warehouse_id i
      /\ In c (product_categories s) /\ Category.category_id c = Product.category_id p in
  (list_sum (map k_product_count rows) <= List.length (inventory s))%nat
  /\ (sumN (map k_total_units rows)
      <= sumN (map Inventory.quantity_on_hand (inventory s)))%N
  /\ ((forall i, In i (inventory s) -> on_file i) ->
      list_sum (map k_product_count rows) = List.length (inventory s)
      /\ sumN (map k_total_units rows)
         = sumN (map Inventory.quantity_on_hand (inventory s))).
Proof.
  intros HP HW HC. cbv zeta. rewrite table_units, table_count, valued_self.
  generalize (inventory s) as inv.
  induction inv as [|i inv [IH1 [IH2 IH3]]].
  - repeat split; reflexivity.
  - rewrite valued_cons, length_app, map_app, sumN_app. cbn [map List.length].
    rewrite sumN_cons.
    pose proof (valued_one_length s HP HW HC i) as Hlen.
    destruct (sumN_short units (Inventory.quantity_on_hand i) _ Hlen
                         (valued_one_units s i)) as [Hle Heq].
    split; [lia|]. split; [lia|].
    intros Hall.
    destruct (Hall i (or_introl eq_refl)) as [p [w [c [Hp [Ep [Hw [Ew [Hc Ec]]]]]]]].
    pose proof (valued_one_resolved s i p w c Hp Ep Hw Ew Hc Ec) as Hne.
    destruct IH3 as [E1 E2]; [intros j Hj; apply Hall; now right|].
    rewrite (Heq Hne), E1, E2. split; [|reflexivity].
    destruct (valued_inventory (with_inventory s [i])) as [|x l]; [congruence|].
    simpl in *. lia.
Qed.

Lemma carrying_costs_count_once_witness :
  NoDup (map Product.product_id (products Examples.pen_set))
  /\ NoDup (map Warehouse.warehouse_id (warehouses Examples.pen_set))
  /\ NoDup (map Category.category_id (product_categories Examples.pen_set))
  /\ (list_sum (map k_product_count (calculate_carrying_costs Examples.pen_set))
      <= List.length (inventory Examples.pen_set))%nat
  /\ (sumN (map k_total_units (calculate_carrying_costs Examples.pen_set))
      <= sumN (map Inventory.quantity_on_hand (inventory Examples.pen_set)))%N.
Proof.
  assert (H1 : NoDup (map Product.product_id (products Examples.pen_set)))
    by (simpl; repeat constructor; simpl; tauto).
  assert (H2 : NoDup (map Warehouse.warehouse_id (warehouses Examples.pen_set)))
    by (simpl; repeat constructor; simpl; tauto).
  assert (H3 : NoDup (map Category.category_id (product_categories Examples.pen_set)))
    by (simpl; repeat constructor; simpl; tauto).
  split; [exact H1|]. split; [exact H2|]. split; [exact H3|].
  pose proof (carrying_costs_count_once Examples.pen_set H1 H2 H3) as H.
  cbv zeta in H. split; [exact (proj1 H)|exact (proj1 (proj2 H))].
Defined.

Lemma valued_nonneg (s : Snapshot) (row : string * string * string * (N * Q)) :
  (forall p, In p (products s) -> 0 <= Product.unit_cost p) ->
  In row (valued_inventory s) -> 0 <= snd (snd row).
Proof.
  intros Hcost. unfold valued_inventory.
  rewrite in_flat_map. intros [[[[i p] w] c] [Hin Hrow]].
  apply in_merge_left in Hin. destruct Hin as [Hin _].
  apply in_merge in Hin. destruct Hin as [Hin _].
  apply in_merge in Hin. destruct Hin as [_ [Hp _]].
  destruct c as [c|]; [|destruct Hrow]. destruct Hrow as [E|[]]. subst row. simpl.
  apply Qmult_le_0_compat; [apply TurnoverFacts.of_N_nonneg|now apply Hcost].
Qed.

(** X25: when no product has a negative unit cost, the money columns
    of every row of the carrying-cost table are in the order of their
    rates after rounding too: 0 <= handling = obsolescence <= insurance
    <= storage <= capital <= total <= inventory value, and the monthly
    cost is between 0 and the total. *)
Theorem carrying_costs_ordered (s : Snapshot) (r : carrying_row) :
  (forall p, In p (products s) -> 0 <= Product.unit_cost p) ->
  In r (calculate_carrying_costs s) ->
  0 <= k_handling_cost r
  /\ k_handling_cost r = k_obsolescence_cost r
  /\ k_obsolescence_cost r <= k_insurance_cost r
  /\ k_insurance_cost r <= k_storage_cost r
  /\ k_storage_cost r <= k_capital_cost r
  /\ k_capital_cost r <= k_total_carrying_cost r
  /\ k_total_carrying_cost r <= k_inventory_value r
  /\ 0 <= k_monthly_carrying_cost r <= k_total_carrying_cost r.
Proof.
  intros Hcost Hin. unfold calculate_carrying_costs in Hin.
  apply in_map_iff in Hin. destruct Hin as [u [E Hu]]. subst r.
  unfold carrying_summary in Hu. apply in_map_iff in Hu.
  destruct Hu as [[[[code name] cat] rows] [E Hg]]. subst u.
  cbn [fst snd round_money k_inventory_value k_capital_cost
       k_storage_cost k_insurance_cost k_obsolescence_cost k_handling_cost
       k_total_carrying_cost k_monthly_carrying_cost].
  assert (Hv : 0 <= sumQ (map (fun r => snd (snd r)) rows)).
  { apply AbcOrderFacts.sumQ_nonneg, Forall_forall. intros x Hx.
    apply in_map_iff in Hx. destruct Hx as [row [Ex Hrow]]. subst x.
    apply (valued_nonneg s row Hcost).
    apply (Permutation_in row (groupby_perm cmp_key3 fst (valued_inventory s))).
    unfold rows_of. apply in_concat. exists rows. split; [|assumption].
    apply in_map_iff. now exists (code, name, cat, rows). }
  set (v := sumQ (map (fun r => snd (snd r)) rows)) in *.
  assert (R0 : forall x, 0 <= x -> 0 <= round_dp 2 x).
  { intros x Hx. change 0 with (inject_Z 0). rewrite <- (round_dp_int 2 0).
    now apply round_dp_mono. }
  assert (Hm : 0 <= v * 0.20 / 12 <= v * 0.20).
  { split; [apply Qle_shift_div_l|apply Qle_shift_div_r]; lra. }
  split; [apply R0; lra|]. split; [reflexivity|].
  repeat split; try (apply round_dp_mono; lra). apply R0, Hm.
Qed.

Lemma carrying_costs_ordered_witness :
  let r := mkCarrying "WH-01" "Main" "Office" 1 1 5.13 0.41 0.26 0.15 0.10 0.10 1.03 0.09 in
  (forall p, In p (products Examples.pen_set) -> 0 <= Product.unit_cost p)
  /\ In r (calculate_carrying_costs Examples.pen_set)
  /\ 0 <= k_handling_cost r
  /\ k_handling_cost r = k_obsolescence_cost r
  /\ k_obsolescence_cost r <= k_insurance_cost r
  /\ k_insurance_cost r <= k_storage_cost r
  /\ k_storage_cost r <= k_capital_cost r
  /\ k_capital_cost r <= k_total_carrying_cost r
  /\ k_total_carrying_cost r <= k_inventory_value r
  /\ 0 <= k_monthly_carrying_cost r <= k_total_carrying_cost r.
Proof.
  intros r.
  assert (Hc : forall p, In p (products Examples.pen_set) -> 0 <= Product.unit_cost p).
  { intros p [E|[]]. subst p. simpl. lra. }
  assert (Hin : In r (calculate_carrying_costs Examples.pen_set))
    by (vm_compute; left; reflexivity).
  split; [exact Hc|]. split; [exact Hin|].
  exact (carrying_costs_ordered Examples.pen_set r Hc Hin).
Defined.

End CarryingCountFacts.
